(** * metrics-bench: the cardinality generator and the query benchmark runner

    A shallow embedding of [metrics-gen/metrics_gen.py] and
    [bench/query_bench.py], and the properties of the two programs.

    Conventions of the embedding.
    - A Python [int] is a [Z]; a Python [float] is a rational [Q] (exact
      arithmetic: the properties below do not depend on rounding; the two
      products the programs rely on are cross-checked in binary64 in
      [Module Binary64]). Where a float comes from the environment, it may
      also be an infinity or not a number ([pyfloat]); where an operation
      on numbers raises (an [int] beyond the floats, a sleep that cannot be
      slept), the exception is modelled ([Module PyFloat]).
    - A Python [str] is a [string] of characters with code below 256.
    - A raised exception is a value of [exn]; code that can raise returns a
      [result].
    - The outside world (HTTP backends, the clock, the random generator) is
      an oracle indexed by the number of the call; the programs thread the
      call counters and the console through an explicit state. *)

From Stdlib Require Import ZArith QArith Qabs Qround Qminmax Lqa Ascii String List Lia.
From Stdlib Require Import Permutation Sorted DecimalString DecimalN DecimalFacts Floats.
From stdpp Require Import base gmap strings list.

Local Open Scope Z_scope.

(** ** Exceptions and results *)

Inductive exn : Type :=
| IndexError          (* string or list index out of range *)
| KeyError            (* a missing dictionary key *)
| ValueError          (* int() on a malformed literal *)
| StatisticsError     (* median of no data *)
| JSONDecodeError     (* response.json() on a body that is not JSON *)
| AttributeError      (* [.get] on a decoded body that is not a dictionary *)
| TypeError           (* iterating, indexing or measuring a value without items *)
| OverflowError       (* an int too large for a float, a sleep too long for the clock *)
| RequestException.   (* requests.get / requests.post failed at network level *)

Inductive result (A : Type) : Type :=
| Ok (a : A)
| Raise (e : exn).
Arguments Ok {A} a.
Arguments Raise {A} e.

(** Sequencing stops at the first exception, as Python's control flow does. *)
#[global] Instance result_ret : MRet result := @Ok.
#[global] Instance result_bind : MBind result := fun A B k r =>
  match r with
  | Ok a => k a
  | Raise e => Raise e
  end.

(** ** Processes

    A computation of a process reads the outside world, updates the state
    [S] of the process, and may raise. The state reached when an exception
    is raised is kept, so that what happened before it can be observed. *)

Definition M (S A : Type) : Type := S -> result A * S.

#[global] Instance M_ret {S} : MRet (M S) := fun A a st => (Ok a, st).
#[global] Instance M_bind {S} : MBind (M S) := fun A B k m st =>
  match m st with
  | (Ok a, st') => k a st'
  | (Raise e, st') => (Raise e, st')
  end.

Definition lift {S A} (r : result A) : M S A := fun st => (r, st).

(** [try: body except Exception as e: handler(e)] *)
Definition try_except {S A} (body : M S A) (handler : exn -> M S A) : M S A :=
  fun st =>
    match body st with
    | (Ok a, st') => (Ok a, st')
    | (Raise e, st') => handler e st'
    end.

(** [for x in xs: acc = body(x, acc)] *)
Fixpoint for_each {S A L : Type} (xs : list A) (body : A -> L -> M S L) (acc : L) : M S L :=
  match xs with
  | [] => mret acc
  | x :: rest => acc' ← body x acc; for_each rest body acc'
  end.

(** ** Python floats *)

(** What [float(text)] may give: a number, an infinity, or not a number. *)
Inductive pyfloat : Type :=
| Finite (x : Q)
| Infinity (negative : bool)
| NaN.

Module PyFloat.

(** The integers from which no float can be made: the magnitudes that
    round to [2 ^ 1024] or beyond, half-way case included. *)
Definition INT_LIMIT : Z := 2 ^ 1024 - 2 ^ 970.

(** The conversion of the [int] operand of [float - int]:
    [OverflowError: int too large to convert to float] from [INT_LIMIT]
    on. *)
Definition of_int (z : Z) : result Q :=
  if Z.abs z <? INT_LIMIT then Ok (inject_Z z) else Raise OverflowError.

(** The seconds beyond which [time.sleep] cannot count in nanoseconds on
    64 bits. *)
Definition SLEEP_LIMIT : Q := (2 ^ 63) # (10 ^ 9).

(** The check of its argument that [time.sleep(secs)] makes before it
    sleeps, in this order: not a number is a [ValueError]; a number of
    nanoseconds that does not fit 64 bits, of either sign, the infinities
    included, is an [OverflowError]; a negative number is a [ValueError].
    What is left is the number of seconds slept. *)
Definition sleep_seconds (secs : pyfloat) : result Q :=
  match secs with
  | NaN => Raise ValueError
  | Infinity _ => Raise OverflowError
  | Finite x =>
      if Qle_bool SLEEP_LIMIT (Qabs x) then Raise OverflowError
      else if Qle_bool 0 x then Ok x
      else Raise ValueError
  end.

End PyFloat.

(** ** Python strings *)

Module PyStr.

(** [s[-1]]: the last character, [IndexError] on the empty string. *)
Fixpoint last (s : string) : result ascii :=
  match s with
  | EmptyString => Raise IndexError
  | String c EmptyString => Ok c
  | String _ rest => last rest
  end.

(** [s[:-1]]: everything but the last character. *)
Fixpoint drop_last (s : string) : string :=
  match s with
  | EmptyString => EmptyString
  | String _ EmptyString => EmptyString
  | String c rest => String c (drop_last rest)
  end.

Definition code (c : ascii) : Z := Z.of_nat (nat_of_ascii c).

(** [c.isdigit()] on the characters below 256: the ten decimal digits and
    the superscripts two, three and one. *)
Definition isdigit (c : ascii) : bool :=
  ((48 <=? code c) && (code c <=? 57))
  || (code c =? 178) || (code c =? 179) || (code c =? 185).

(** The decimal digits, the only characters [int] reads as digits. *)
Definition isdecimal (c : ascii) : bool :=
  (48 <=? code c) && (code c <=? 57).

(** Whitespace that [int] strips: tab, line feed, vertical tab, form feed,
    carriage return, space, and next-line and no-break space. *)
Definition isspace_int (c : ascii) : bool :=
  ((9 <=? code c) && (code c <=? 13))
  || (code c =? 32) || (code c =? 133) || (code c =? 160).

(** [c.lower()] on the characters below 256. *)
Definition lower (c : ascii) : ascii :=
  if ((65 <=? code c) && (code c <=? 90))
     || ((192 <=? code c) && (code c <=? 222) && negb (code c =? 215))
  then ascii_of_nat (nat_of_ascii c + 32)
  else c.

Definition digit_value (c : ascii) : Z := code c - 48.

Fixpoint lstrip (s : string) : string :=
  match s with
  | String c rest => if isspace_int c then lstrip rest else s
  | EmptyString => EmptyString
  end.

(** The digits of an [int] literal after the sign: decimal digits with
    single underscores between them, then optional trailing whitespace.
    [acc] is the value read so far, [prev_digit] whether the previous
    character was a digit. *)
Fixpoint only_space (s : string) : bool :=
  match s with
  | EmptyString => true
  | String c rest => isspace_int c && only_space rest
  end.

Fixpoint digits (acc : Z) (prev_digit : bool) (s : string) : result Z :=
  match s with
  | EmptyString => if prev_digit then Ok acc else Raise ValueError
  | String c rest =>
      if isdecimal c then digits (10 * acc + digit_value c) true rest
      else if (code c =? 95) then
        if prev_digit then digits acc false rest else Raise ValueError
      else if prev_digit && only_space s then Ok acc
      else Raise ValueError
  end.

(** [int(s)] in base ten. (The interpreter's limit on the number of digits
    of a literal, a run-time setting, is not modelled.) *)
Definition int (s : string) : result Z :=
  match lstrip s with
  | String "+" rest => digits 0 false rest
  | String "-" rest => v ← digits 0 false rest; Ok (- v)
  | body => digits 0 false body
  end.

End PyStr.

(** ** JSON documents, as [json.dumps] and [response.json()] see them *)

#[local] Set Warnings "-register-all".

Inductive json : Type :=
| JNull
| JBool (b : bool)
| JNum (x : Q)
| JStr (s : string)
| JArr (items : list json)
| JObj (fields : list (string * json)).

Module Json.

(** [d.get(key, default)]: the last binding of [key] counts, as in the
    dictionary built from a JSON text. *)
Definition get (d : json) (key : string) (default : json) : result json :=
  match d with
  | JObj fields =>
      Ok (foldl (fun found kv => if String.eqb (fst kv) key then snd kv else found)
                default fields)
  | _ => Raise AttributeError
  end.

Definition chars (s : string) : list json :=
  map (fun c => JStr (String c EmptyString)) (list_ascii_of_string s).

(** [for x in v] *)
Definition iter (v : json) : result (list json) :=
  match v with
  | JArr items => Ok items
  | JObj fields => Ok (map (fun kv => JStr (fst kv)) fields)
  | JStr s => Ok (chars s)
  | _ => Raise TypeError
  end.

(** [v[0]] *)
Definition first (v : json) : result json :=
  match v with
  | JArr (x :: _) => Ok x
  | JArr [] => Raise IndexError
  | JStr (String c _) => Ok (JStr (String c EmptyString))
  | JStr EmptyString => Raise IndexError
  | JObj _ => Raise KeyError
  | _ => Raise TypeError
  end.

(** [if v:] *)
Definition truthy (v : json) : bool :=
  match v with
  | JNull => false
  | JBool b => b
  | JNum x => negb (Qeq_bool x 0)
  | JStr s => negb (String.eqb s "")
  | JArr items => match items with [] => false | _ => true end
  | JObj fields => match fields with [] => false | _ => true end
  end.

(** [len(v)] *)
Definition len (v : json) : result nat :=
  match v with
  | JStr s => Ok (String.length s)
  | JArr items => Ok (length items)
  | JObj fields => Ok (length fields)
  | _ => Raise TypeError
  end.

Definition hex_digit (n : nat) : ascii :=
  match String.get n "0123456789abcdef" with
  | Some c => c
  | None => "0"%char
  end.

Definition backslash : string := String (ascii_of_nat 92) EmptyString.

(** How [json.dumps] writes one character of a string (ASCII output). *)
Definition escape_char (c : ascii) : string :=
  let n := nat_of_ascii c in
  if Nat.eqb n 34 then backslash +:+ String c EmptyString
  else if Nat.eqb n 92 then backslash +:+ backslash
  else if Nat.eqb n 10 then backslash +:+ "n"
  else if Nat.eqb n 13 then backslash +:+ "r"
  else if Nat.eqb n 9 then backslash +:+ "t"
  else if Nat.eqb n 8 then backslash +:+ "b"
  else if Nat.eqb n 12 then backslash +:+ "f"
  else if (Nat.leb 32 n && Nat.leb n 126)%bool then String c EmptyString
  else backslash +:+ "u00"
       +:+ String (hex_digit (n / 16)) (String (hex_digit (n mod 16)) EmptyString).

Fixpoint escape (s : string) : string :=
  match s with
  | EmptyString => EmptyString
  | String c rest => escape_char c +:+ escape rest
  end.

Definition quote : string := String (ascii_of_nat 34) EmptyString.

Definition dumps_str (s : string) : string := quote +:+ escape s +:+ quote.

Section Dumps.
(** How [json.dumps] writes a float: Python's [repr], taken as given. *)
Variable float_repr : Q -> string.

(** [json.dumps(v)], with the default separators. *)
Fixpoint dumps (v : json) : string :=
  match v with
  | JNull => "null"
  | JBool true => "true"
  | JBool false => "false"
  | JNum x => float_repr x
  | JStr s => dumps_str s
  | JArr items => "[" +:+ String.concat ", " (map dumps items) +:+ "]"
  | JObj fields =>
      "{" +:+ String.concat ", "
                (map (fun kv => dumps_str (fst kv) +:+ ": " +:+ dumps (snd kv)) fields)
          +:+ "}"
  end.
End Dumps.

End Json.

(** What a completed HTTP call returns ([requests.Response]); [body] is what
    [r.json()] gives. *)
Module Response.
Record t : Type := {
  status_code : Z;
  text : string;
  body : result json;
}.
End Response.
Abbreviation response := Response.t.

(** * The query benchmark runner, [bench/query_bench.py] *)

Module Bench.

Definition NUM_RUNS : nat := 5.
Definition SLEEP_BETWEEN : Q := 5 # 10.

(** A query definition. The keys [skip], [range_duration] and [step] are
    optional in the catalogue. *)
Record query : Type := {
  name : string;
  skip : option bool;
  promql : string;
  range_duration : option string;
  step : option string;
  esql : string;
}.

Definition dq : string := String (ascii_of_nat 34) EmptyString.
Definition nl : string := String (ascii_of_nat 10) EmptyString.

(** The catalogue ([dq] is the double quote, [nl] the line feed). *)
Definition QUERIES : list query := [
  {| name := "Q1_avg_status_code_1_host";
     skip := None;
     promql :=
       "avg by (status_code) (avg_over_time(http_requests_qps{exported_instance=" +:+ dq +:+ "inst-00004" +:+ dq +:+ "}[15m]))";
     range_duration := None;
     step := None;
     esql :=
       nl +:+ "            TS metrics-http" +:+ nl +:+
       "            | WHERE  @timestamp >= NOW() - 15 MINUTES" +:+ nl +:+
       "              AND @timestamp <= NOW()" +:+ nl +:+
       "              AND instance == " +:+ dq +:+ "inst-00004" +:+ dq +:+ nl +:+
       "            | STATS avg_qps = AVG(http_requests_qps) BY status_code" +:+ nl |};
  {| name := "Q2_avg_status_code_100_hosts_wildcard";
     skip := Some false;
     promql :=
       "avg by (status_code) (avg_over_time(http_requests_qps{exported_instance=~" +:+ dq +:+ "inst-001.*" +:+ dq +:+ "}[5m]))";
     range_duration := Some "1h";
     step := Some "5m";
     esql :=
       nl +:+ "            TS metrics-http" +:+ nl +:+
       "            | WHERE @timestamp >= NOW() - 60 MINUTES " +:+ nl +:+
       "              AND @timestamp <= NOW() " +:+ nl +:+
       "              AND instance LIKE " +:+ dq +:+ "inst-001%" +:+ dq +:+ nl +:+
       "            | EVAL bucket = DATE_TRUNC(5 MINUTES, @timestamp)" +:+ nl +:+
       "            | STATS avg_qps = AVG(http_requests_qps) BY bucket, status_code" +:+ nl |};
  {| name := "Q3_avg_no_filter_sorted";
     skip := Some false;
     promql :=
       "sort_desc(last_over_time(http_requests_qps[5m]))";
     range_duration := Some "1h";
     step := Some "5m";
     esql :=
       nl +:+ "TS metrics-http" +:+ nl +:+
       "| WHERE @timestamp >= NOW() - 60 MINUTES " +:+ nl +:+
       "  AND @timestamp <= NOW()" +:+ nl +:+
       "| EVAL bucket = DATE_TRUNC(5 MINUTES, @timestamp)" +:+ nl +:+
       "| STATS avg_qps = AVG(http_requests_qps) BY bucket, instance, status_code, method, job" +:+ nl +:+
       "| SORT avg_qps DESC" +:+ nl |};
  {| name := "Q4_avg_status_code_4xx_5xx_wildcard";
     skip := Some true;
     promql :=
       "avg by (exported_instance) (avg_over_time(http_requests_qps[5m]))";
     range_duration := Some "4h";
     step := Some "5m";
     esql :=
       nl +:+ "            TS metrics-*" +:+ nl +:+
       " | WHERE @timestamp >= NOW() - 240 MINUTES AND @timestamp <= NOW() " +:+ nl +:+
       " | STATS AVG(AVG_OVER_TIME(http_requests_qps)) BY instance, TBUCKET(5m)" +:+ nl |}
].

(** [query[key]] for an optional key. *)
Definition getitem {A} (field : option A) : result A :=
  match field with
  | Some v => Ok v
  | None => Raise KeyError
  end.

(** *** [parse_duration] *)

Definition units (unit : ascii) : option Z :=
  match unit with
  | "s"%char => Some 1
  | "m"%char => Some 60
  | "h"%char => Some 3600
  | "d"%char => Some 86400
  | _ => None
  end.

Definition parse_duration (duration_str : string) : result Z :=
  c ← PyStr.last duration_str;
  if PyStr.isdigit c then PyStr.int duration_str
  else
    let unit := PyStr.lower c in
    value ← PyStr.int (PyStr.drop_last duration_str);
    Ok (value * default 1 (units unit)).

(** *** The world of the runner *)

Inductive request : Type :=
| PromInstant (query : string) (time : Q) (timeout : Z)
| PromRange (query : string) (start_ts end_ts : Q) (step_seconds : Z) (timeout : Z)
| EsqlQuery (query : string) (timeout : Z).

Inductive message : Type :=
| Header (query_name : string)
| Skipping
| PromError (query_name : string) (status : Z) (text200 : string)
| EsqlError (query_name : string) (status : Z) (text200 : string)
| PromResult (formatted : string)
| EsResult (formatted : string)
| Summary (backend : string) (p50 p95 : Q).

Inductive event : Type :=
| Print (m : message)
| Call (req : request)
| Sleep (seconds : Q).

(** The oracle: what the clock reads at its k-th reading, and how the
    k-th HTTP call ends ([Raise] when it fails at the network level:
    unreachable backend, timeout). *)
Record world : Type := {
  time_time : nat -> Q;
  http : nat -> request -> result response;
}.

Record state : Type := {
  clock_reads : nat;
  http_calls : nat;
  trace : list event;
}.

Definition initial : state :=
  {| clock_reads := 0; http_calls := 0; trace := [] |}.

Local Abbreviation M := (M state).

Definition emit (e : event) : M unit := fun st =>
  (Ok tt, {| clock_reads := clock_reads st; http_calls := http_calls st;
             trace := trace st ++ [e] |}).

Definition print (m : message) : M unit := emit (Print m).
Definition sleep (seconds : Q) : M unit := emit (Sleep seconds).

Section Runner.
Variable w : world.

Definition now : M Q := fun st =>
  (Ok (time_time w (clock_reads st)),
   {| clock_reads := S (clock_reads st); http_calls := http_calls st;
      trace := trace st |}).

(** [requests.get] / [requests.post]: the call is made (and counted)
    whether or not it succeeds. *)
Definition send (req : request) : M response := fun st =>
  (http w (http_calls st) req,
   {| clock_reads := clock_reads st; http_calls := S (http_calls st);
      trace := trace st ++ [Call req] |}).

Definition text200 (r : response) : string := String.substring 0 200 (Response.text r).

(** The [params] and [url] of one pass of [bench_prom]: a ranged query
    when the definition has a range and a step, an instant query otherwise. *)
Definition prom_request (q : query) (use_range : bool) (timeout : Z) : M request :=
  if use_range then
    range_duration ← lift (getitem (range_duration q));
    duration_seconds ← lift (parse_duration range_duration);
    end_ts ← now;
    duration ← lift (PyFloat.of_int duration_seconds);
    let start_ts := (end_ts - duration)%Q in
    step ← lift (getitem (step q));
    step_seconds ← lift (parse_duration step);
    mret (PromRange (promql q) start_ts end_ts step_seconds timeout)
  else
    t ← now;
    mret (PromInstant (promql q) t timeout).

(** One pass of the loop of [bench_prom]. The loop variables are the
    latencies so far and [first_result]. *)
Definition bench_prom_iter (q : query) (use_range : bool) (timeout : Z)
    (i : nat) (acc : list Q * option json) : M (list Q * option json) :=
  let '(latencies, first_result) := acc in
  req ← prom_request q use_range timeout;
  t0 ← now;
  r ← send req;
  t1 ← now;
  first_result ←
    (if negb (Response.status_code r =? 200) then
       _ ← print (PromError (name q) (Response.status_code r) (text200 r));
       mret first_result
     else if Nat.eqb i 0 then j ← lift (Response.body r); mret (Some j)
     else mret first_result);
  let latencies := latencies ++ [((t1 - t0) * 1000)%Q] in
  _ ← sleep SLEEP_BETWEEN;
  mret (latencies, first_result).

Definition bench_prom (q : query) : M (list Q * option json) :=
  let use_range := bool_decide (is_Some (range_duration q)) && bool_decide (is_Some (step q)) in
  let timeout := if use_range then 120 else 15 in
  for_each (seq 0 NUM_RUNS) (bench_prom_iter q use_range timeout) ([], None).

Definition bench_esql_iter (q : query) (timeout : Z)
    (i : nat) (acc : list Q * option json) : M (list Q * option json) :=
  let '(latencies, first_result) := acc in
  t0 ← now;
  r ← send (EsqlQuery (esql q) timeout);
  t1 ← now;
  first_result ←
    (if negb (Response.status_code r =? 200) then
       _ ← print (EsqlError (name q) (Response.status_code r) (text200 r));
       mret first_result
     else if Nat.eqb i 0 then j ← lift (Response.body r); mret (Some j)
     else mret first_result);
  let latencies := latencies ++ [((t1 - t0) * 1000)%Q] in
  _ ← sleep SLEEP_BETWEEN;
  mret (latencies, first_result).

Definition bench_esql (q : query) : M (list Q * option json) :=
  let timeout := if bool_decide (is_Some (range_duration q)) then 120 else 15 in
  for_each (seq 0 NUM_RUNS) (bench_esql_iter q timeout) ([], None).

(** *** [summarize] *)

(** [sorted(xs)]: the stable ascending sort. *)
Fixpoint insert_sorted (x : Q) (l : list Q) : list Q :=
  match l with
  | [] => [x]
  | y :: rest => if Qle_bool x y then x :: l else y :: insert_sorted x rest
  end.

Definition sorted (l : list Q) : list Q := foldr insert_sorted [] l.

(** [l[i]], with Python's negative indices. *)
Definition index (l : list Q) (i : Z) : result Q :=
  let i := if i <? 0 then i + Z.of_nat (length l) else i in
  if i <? 0 then Raise IndexError
  else match l !! Z.to_nat i with
       | Some x => Ok x
       | None => Raise IndexError
       end.

(** [statistics.median]. *)
Definition median (data : list Q) : result Q :=
  let data := sorted data in
  let n := Z.of_nat (length data) in
  if n =? 0 then Raise StatisticsError
  else if n mod 2 =? 1 then index data (n / 2)
  else
    let i := n / 2 in
    lo ← index data (i - 1);
    hi ← index data i;
    Ok ((lo + hi) / 2)%Q.

(** [int(x)] on a float: truncation towards zero. *)
Definition int_of_float (x : Q) : Z := Z.quot (Qnum x) (Z.pos (Qden x)).

Definition idx95 (n : nat) : Z :=
  int_of_float ((95 # 100) * inject_Z (Z.of_nat n - 1))%Q.

(** The two numbers [summarize] reports. *)
Definition percentiles (latencies : list Q) : result (Q * Q) :=
  p50 ← median latencies;
  let latencies_sorted := sorted latencies in
  p95 ← index latencies_sorted (idx95 (length latencies_sorted));
  Ok (p50, p95).

Definition summarize (name : string) (latencies : list Q) : M unit :=
  '(p50, p95) ← lift (percentiles latencies);
  print (Summary name p50 p95).

(** *** The main loop *)

(** The result formatters only feed the console; they are taken as given
    (they raise on a body of an unexpected shape). A result is printed
    under its heading, as one message. *)
Variable format_prom_result format_es_result : option json -> result string.
Variable PRINT_RESULTS : bool.

Definition skipped (q : query) : bool := bool_decide (skip q = Some true).

Definition main_iter (q : query) (_ : unit) : M unit :=
  if skipped q then
    _ ← print (Header (name q));
    print Skipping
  else
    _ ← print (Header (name q));
    '(prom_lats, prom_result) ← bench_prom q;
    '(es_lats, es_result) ← bench_esql q;
    _ ← (if PRINT_RESULTS then
           p ← lift (format_prom_result prom_result);
           _ ← print (PromResult p);
           e ← lift (format_es_result es_result);
           print (EsResult e)
         else mret tt);
    _ ← summarize "Prometheus" prom_lats;
    summarize "Elasticsearch ES|QL" es_lats.

Definition main (catalogue : list query) : M unit :=
  for_each catalogue main_iter tt.

End Runner.

End Bench.

(** * The cardinality generator, [metrics-gen/metrics_gen.py] *)

Module Gen.

(** The configuration read from the environment. *)
Record config : Type := {
  NUM_INSTANCES : Z;
  NUM_STATUS_CODES : Z;
  NUM_METHODS : Z;
  TICK_SECONDS : pyfloat;
  ES_INDEX : string;
}.

(** [l[:n]]: a negative [n] counts from the end. *)
Definition slice_to {A} (l : list A) (n : Z) : list A :=
  let stop := if n <? 0 then Z.max 0 (Z.of_nat (length l) + n) else n in
  take (Z.to_nat stop) l.

(** [range(n)] *)
Definition range (n : Z) : list Z := map Z.of_nat (seq 0 (Z.to_nat n)).

Definition STATUS_CODES (cfg : config) : list string :=
  slice_to ["200"; "500"; "400"; "404"; "502"] (NUM_STATUS_CODES cfg).

Definition METHODS (cfg : config) : list string :=
  slice_to ["GET"; "POST"] (NUM_METHODS cfg).

(** [f"{i:05d}"]: decimal, sign first, zero-padded to five characters. *)
Definition zfill (width : nat) (digits : string) : string :=
  String.concat "" (replicate (width - String.length digits) "0") +:+ digits.

Definition format_05d (i : Z) : string :=
  let digits := NilEmpty.string_of_uint (N.to_uint (Z.abs_N i)) in
  if i <? 0 then "-" +:+ zfill 4 digits else zfill 5 digits.

(** A label set: the dictionary that [generate_series] yields. *)
Record labels : Type := {
  job : string;
  instance : string;
  status_code : string;
  method : string;
}.

(** The generator, run to its end. *)
Definition generate_series (cfg : config) : list labels :=
  i ← range (NUM_INSTANCES cfg);
  let instance := "inst-" +:+ format_05d i in
  sc ← STATUS_CODES cfg;
  m ← METHODS cfg;
  [ {| job := "demo"; instance := instance; status_code := sc; method := m |} ].

(** [max(a, b)] of two floats: [b] when [b > a], else [a]. *)
Definition max (a b : Q) : Q := if Qle_bool b a then a else b.

(** The synthetic value of a sample (the first lines of the loop body of
    [build_bulk_payload]), for a given draw of the noise. *)
Definition compute_value (l : labels) (noise : Q) : Q :=
  let base := 100%Q in
  let factor := if String.eqb (status_code l) "200" then 1%Q else (5 # 100)%Q in
  max 0%Q (base * factor + noise)%Q.

(** *** The world of the generator *)

(** The key of a gauge child: [(job, instance, status_code, method)]. *)
Definition key : Type := string * string * string * string.

Definition key_of (l : labels) : key :=
  (job l, instance l, status_code l, method l).

Inductive request : Type :=
| GetClusterHealth
| HeadIndex
| GetIndex
| GetDataStreams
| DeleteIndex
| PutIndexTemplate (template : json)
| GetIndexTemplate
| PutDataStream
| PostBulk (data : string)
| PostRefresh
| GetDataStream.

Inductive message : Type :=
| WaitingForElasticsearch
| ElasticsearchReady (status : json)
| ElasticsearchNotReady (status : json)
| ElasticsearchTimeout
| DeletingRegularIndex
| TemplateCreateStatus (status : Z) (text200 : string)
| TemplateNotVerified
| DataStreamExists
| DataStreamCreateStatus (status : Z) (text200 : string)
| WillContinue
| DataStreamCreated
| TemplateReady
| TemplateFailed (e : exn)
| ElasticsearchNotAvailable
| SetupRetry (attempt : Z) (max_retries : Z)
| SetupGivenUp
| LoopStarting
| BulkError (status : Z) (text200 : string)
| DataStreamReady (indices : nat)
| NoBackingIndices
| DataStreamStatusUnknown
| DataStreamNotVerified (e : exn)
| BulkSendError (e : exn).

Inductive event : Type :=
| Print (m : message)
| Call (req : request)
| Sleep (seconds : Q)
| GaugeSet (k : key) (value : Q).

(** The oracle: the clock at its k-th reading, the k-th HTTP call, the k-th
    draw of [random.uniform(-10, 10)], the k-th reading of the UTC time in
    ISO format. *)
Record world : Type := {
  time_time : nat -> Q;
  http : nat -> request -> result response;
  uniform : nat -> Q;
  utcnow_isoformat : nat -> string;
}.

Record state : Type := {
  clock_reads : nat;
  http_calls : nat;
  draws : nat;
  date_reads : nat;
  http_qps : gmap key Q;
  trace : list event;
}.

Definition initial : state :=
  {| clock_reads := 0; http_calls := 0; draws := 0; date_reads := 0;
     http_qps := ∅; trace := [] |}.

Local Abbreviation M := (M state).

Definition emit (e : event) : M unit := fun st =>
  (Ok tt, {| clock_reads := clock_reads st; http_calls := http_calls st;
             draws := draws st; date_reads := date_reads st;
             http_qps := http_qps st; trace := trace st ++ [e] |}).

Definition print (m : message) : M unit := emit (Print m).
Definition sleep (seconds : Q) : M unit := emit (Sleep seconds).

(** [time.sleep(secs)] on a float of the configuration: the argument is
    checked first, and nothing is slept when the check raises. (On the
    literal intervals of the program, [2] and [0.5], the check passes, and
    [sleep] is used directly.) *)
Definition time_sleep (secs : pyfloat) : M unit :=
  seconds ← lift (PyFloat.sleep_seconds secs);
  sleep seconds.

(** [http_qps.labels(...).set(value)]: the child's value is replaced. *)
Definition gauge_set (k : key) (value : Q) : M unit := fun st =>
  (Ok tt, {| clock_reads := clock_reads st; http_calls := http_calls st;
             draws := draws st; date_reads := date_reads st;
             http_qps := <[k := value]> (http_qps st);
             trace := trace st ++ [GaugeSet k value] |}).

Definition text200 (r : response) : string := String.substring 0 200 (Response.text r).

Section Generator.
Variable cfg : config.
Variable w : world.
Variable float_repr : Q -> string.

Definition now : M Q := fun st =>
  (Ok (time_time w (clock_reads st)),
   {| clock_reads := S (clock_reads st); http_calls := http_calls st;
      draws := draws st; date_reads := date_reads st;
      http_qps := http_qps st; trace := trace st |}).

Definition utcnow : M string := fun st =>
  (Ok (utcnow_isoformat w (date_reads st)),
   {| clock_reads := clock_reads st; http_calls := http_calls st;
      draws := draws st; date_reads := S (date_reads st);
      http_qps := http_qps st; trace := trace st |}).

Definition random_uniform : M Q := fun st =>
  (Ok (uniform w (draws st)),
   {| clock_reads := clock_reads st; http_calls := http_calls st;
      draws := S (draws st); date_reads := date_reads st;
      http_qps := http_qps st; trace := trace st |}).

Definition send (req : request) : M response := fun st =>
  (http w (http_calls st) req,
   {| clock_reads := clock_reads st; http_calls := S (http_calls st);
      draws := draws st; date_reads := date_reads st;
      http_qps := http_qps st; trace := trace st ++ [Call req] |}).

(** *** [build_bulk_payload] *)

Definition action : json := JObj [("create", JObj [])].

Definition doc (timestamp_iso : string) (value : Q) (l : labels) : json :=
  JObj [("@timestamp", JStr timestamp_iso);
        ("http_requests_qps", JNum value);
        ("job", JStr (job l));
        ("instance", JStr (instance l));
        ("status_code", JStr (status_code l));
        ("method", JStr (method l))].

Definition build_iter (timestamp_iso : string) (l : labels) (lines : list string)
    : M (list string) :=
  noise ← random_uniform;
  let value := compute_value l noise in
  _ ← gauge_set (key_of l) value;
  let lines := lines ++ [Json.dumps float_repr action] in
  let lines := lines ++ [Json.dumps float_repr (doc timestamp_iso value l)] in
  mret lines.

Definition newline : string := String (ascii_of_nat 10) EmptyString.

Definition build_bulk_payload (timestamp_iso : string) : M string :=
  lines ← for_each (generate_series cfg) (build_iter timestamp_iso) [];
  mret (String.concat newline lines +:+ newline).

(** *** [wait_for_elasticsearch] *)

Definition is_200_201 (status : Z) : bool := (status =? 200) || (status =? 201).

Definition ready_status (status : json) : bool :=
  match status with
  | JStr s => String.eqb s "green" || String.eqb s "yellow"
  | _ => false
  end.

(** One poll of the health endpoint: [true] when the function returns
    [True] from inside the loop. Every exception is swallowed. *)
Definition poll_health : M bool :=
  try_except
    (resp ← send GetClusterHealth;
     if Response.status_code resp =? 200 then
       health ← lift (Response.body resp);
       status ← lift (Json.get health "status" JNull);
       if ready_status status then
         _ ← print (ElasticsearchReady status); mret true
       else
         _ ← print (ElasticsearchNotReady status); mret false
     else mret false)
    (fun _ => mret false).

(** The polling loop; [fuel] bounds the number of passes that are followed
    ([None] when it is used up before the loop ends). *)
Fixpoint wait_loop (fuel : nat) (start_time max_wait check_interval : Q) : M (option bool) :=
  match fuel with
  | O => mret None
  | S fuel' =>
      t ← now;
      if negb (Qle_bool max_wait (t - start_time)%Q) then
        poll_health ≫= fun ready : bool =>
        if ready then (mret (Some true) : M (option bool))
        else
          _ ← sleep check_interval;
          wait_loop fuel' start_time max_wait check_interval
      else
        _ ← print ElasticsearchTimeout;
        mret (Some false)
  end.

Definition wait_for_elasticsearch (fuel : nat) : M (option bool) :=
  let max_wait := 60%Q in
  let check_interval := 2%Q in
  _ ← print WaitingForElasticsearch;
  start_time ← now;
  wait_loop fuel start_time max_wait check_interval.

(** *** [ensure_index] *)

Definition template : json :=
  JObj [("index_patterns", JArr [JStr (ES_INDEX cfg +:+ "*")]);
        ("data_stream", JObj []);
        ("template", JObj [
          ("settings", JObj [
            ("index.mode", JStr "time_series");
            ("index.translog.durability", JStr "async");
            ("index.translog.sync_interval", JStr "10s");
            ("index.refresh_interval", JStr "5s")]);
          ("mappings", JObj [
            ("properties", JObj [
              ("@timestamp", JObj [("type", JStr "date")]);
              ("http_requests_qps",
                 JObj [("type", JStr "double"); ("time_series_metric", JStr "gauge")]);
              ("job", JObj [("type", JStr "keyword"); ("time_series_dimension", JBool true)]);
              ("instance", JObj [("type", JStr "keyword"); ("time_series_dimension", JBool true)]);
              ("status_code", JObj [("type", JStr "keyword"); ("time_series_dimension", JBool true)]);
              ("method", JObj [("type", JStr "keyword"); ("time_series_dimension", JBool true)])])])])].

Definition is_name (v : json) : bool :=
  match v with
  | JStr s => String.eqb s (ES_INDEX cfg)
  | _ => false
  end.

(** The names of the data streams, [ds.get("name")] for each of them. *)
Definition data_stream_names : M (list json) :=
  resp ← send GetDataStreams;
  listing ← lift (Response.body resp);
  streams ← lift (Json.get listing "data_streams" (JArr []));
  items ← lift (Json.iter streams);
  for_each items (fun ds names => name ← lift (Json.get ds "name" JNull);
                                  mret (names ++ [name])) [].

(** The clean-up of a regular index of the same name; failures are ignored. *)
Definition delete_regular_index : M unit :=
  try_except
    (check_resp ← send HeadIndex;
     if Response.status_code check_resp =? 200 then
       get_resp ← send GetIndex;
       if Response.status_code get_resp =? 200 then
         _ ← lift (Response.body get_resp);
         names ← data_stream_names;
         if negb (existsb is_name names) then
           _ ← print DeletingRegularIndex;
           _ ← send DeleteIndex;
           mret tt
         else mret tt
       else mret tt
     else mret tt)
    (fun _ => mret tt).

Definition lower_str (s : string) : string :=
  string_of_list_ascii (map PyStr.lower (list_ascii_of_string s)).

Definition contains (needle hay : string) : bool :=
  match String.index 0 needle hay with
  | Some _ => true
  | None => false
  end.

Definition ensure_index : M bool :=
  try_except
    (_ ← delete_regular_index;
     r ← send (PutIndexTemplate template);
     if negb (is_200_201 (Response.status_code r)) then
       _ ← print (TemplateCreateStatus (Response.status_code r) (text200 r));
       mret false
     else
       verify_resp ← send GetIndexTemplate;
       if negb (Response.status_code verify_resp =? 200) then
         _ ← print TemplateNotVerified;
         mret false
       else
         _ ← sleep (5 # 10);
         r ← send PutDataStream;
         _ ← (if negb (is_200_201 (Response.status_code r)) then
                if (Response.status_code r =? 400)
                   && contains "resource_already_exists_exception"
                               (lower_str (Response.text r))
                then print DataStreamExists
                else
                  _ ← print (DataStreamCreateStatus (Response.status_code r) (text200 r));
                  print WillContinue
              else print DataStreamCreated);
         _ ← print TemplateReady;
         mret true)
    (fun e => _ ← print (TemplateFailed e); mret false).

(** *** [ingest_loop] *)

Definition max_retries : Z := 3.

(** [for attempt in range(max_retries)] of [ingest_loop], over the attempts
    that are left; the loop is left early when [ensure_index] succeeds. *)
Fixpoint setup_schema (attempts : list Z) : M unit :=
  match attempts with
  | [] => mret tt
  | attempt :: rest =>
      ensure_index ≫= fun ok : bool =>
      if ok then (mret tt : M unit)
      else
        _ ← (if attempt <? max_retries - 1 then
               _ ← print (SetupRetry (attempt + 1) max_retries);
               sleep 2
             else print SetupGivenUp);
        setup_schema rest
  end.

(** The check of the data stream after the first accepted batch. *)
Definition verify_data_stream : M unit :=
  try_except
    (refresh_resp ← send PostRefresh;
     if is_200_201 (Response.status_code refresh_resp) then
       stream_resp ← send GetDataStream;
       if Response.status_code stream_resp =? 200 then
         stream_data ← lift (Response.body stream_resp);
         streams ← lift (Json.get stream_data "data_streams" (JArr [JObj []]));
         stream ← lift (Json.first streams);
         indices ← lift (Json.get stream "indices" (JArr []));
         if Json.truthy indices then
           n ← lift (Json.len indices);
           print (DataStreamReady n)
         else print NoBackingIndices
       else print DataStreamStatusUnknown
     else mret tt)
    (fun e => print (DataStreamNotVerified e)).

(** One pass of the [while True] loop; [first_batch] is the loop variable. *)
Definition tick (first_batch : bool) : M bool :=
  ts ← utcnow;
  first_batch ←
    try_except
      (body ← build_bulk_payload ts;
       resp ← send (PostBulk body);
       if 300 <=? Response.status_code resp then
         _ ← print (BulkError (Response.status_code resp) (text200 resp));
         mret first_batch
       else if first_batch then
         _ ← verify_data_stream;
         mret false
       else mret first_batch)
      (fun e => _ ← print (BulkSendError e); mret first_batch);
  _ ← time_sleep (TICK_SECONDS cfg);
  mret first_batch.

Fixpoint ticks (n : nat) (first_batch : bool) : M bool :=
  match n with
  | O => mret first_batch
  | S n' => first_batch ← tick first_batch; ticks n' first_batch
  end.

(** How far a run of [ingest_loop] got. *)
Inductive progress : Type :=
| Returned                (* the function returned: the backend never got ready *)
| Waiting                 (* still polling for the backend *)
| Ingesting (n : nat).    (* in the ingestion loop, [n] passes done *)

(** [ingest_loop], followed for at most [wait_fuel] polls of the backend and
    then for [n] passes of the ingestion loop (which never ends). *)
Definition ingest_loop (wait_fuel n : nat) : M progress :=
  ready ← wait_for_elasticsearch wait_fuel;
  match ready with
  | None => mret Waiting
  | Some false =>
      _ ← print ElasticsearchNotAvailable;
      mret Returned
  | Some true =>
      _ ← setup_schema (range max_retries);
      _ ← print LoopStarting;
      _ ← ticks n true;
      mret (Ingesting n)
  end.

End Generator.

End Gen.

(** * The vocabulary of the properties *)

(** ** For the benchmark runner *)

Module BenchSpec.
Import Bench.

(** The value of a string of decimal digits, most significant digit first,
    after the digits that amount to [acc]. *)
Fixpoint decimal_value (acc : Z) (s : string) : Z :=
  match s with
  | EmptyString => acc
  | String c rest => decimal_value (10 * acc + PyStr.digit_value c) rest
  end.

(** Purely numeric strings. *)
Fixpoint all_decimal (s : string) : bool :=
  match s with
  | EmptyString => true
  | String c rest => PyStr.isdecimal c && all_decimal rest
  end.

(** The median, as a property: at least half of the observations are at most
    [m], and at least half are at least [m]. *)
Definition count_le (m : Q) (l : list Q) : nat :=
  length (List.filter (fun x => Qle_bool x m) l).
Definition count_ge (m : Q) (l : list Q) : nat :=
  length (List.filter (fun x => Qle_bool m x) l).
Definition is_median (m : Q) (l : list Q) : Prop :=
  (length l <= 2 * count_le m l)%nat /\ (length l <= 2 * count_ge m l)%nat.

(** [m] is what [statistics.median] is documented to return for the sorted
    data [s]: the middle element when there is an odd number of them, the
    mean of the two middle elements when there is an even number. *)
Definition middle_of (s : list Q) (m : Q) : Prop :=
  if Nat.odd (length s)
  then s !! Nat.div (length s) 2 = Some m
  else exists lo hi,
         s !! (Nat.div (length s) 2 - 1)%nat = Some lo
         /\ s !! Nat.div (length s) 2 = Some hi
         /\ m = ((lo + hi) / 2)%Q.

(** A call is answered when it returns a response, of any status; a
    response of status 200 carries a body that decodes. *)
Definition answered (w : world) (k : nat) : Prop :=
  forall req, exists r,
    http w k req = Ok r
    /\ (Response.status_code r = 200 -> exists j, Response.body r = Ok j).

(** The latency of the execution whose start [t0] is reading [k] of the
    clock and whose end [t1] is the next reading. *)
Definition measured (w : world) (k : nat) : Q :=
  ((time_time w (S k) - time_time w k) * 1000)%Q.

(** The durations of a ranged query parse, and its range is a number of
    seconds that a float can hold. *)
Definition range_ok (q : query) : Prop :=
  forall rd s, range_duration q = Some rd -> step q = Some s ->
  exists d n, parse_duration rd = Ok d /\ Z.abs d < PyFloat.INT_LIMIT
              /\ parse_duration s = Ok n.

(** The world in which every call is answered with [503 Service Unavailable]. *)
Definition unavailable : world :=
  {| time_time := fun k => inject_Z (Z.of_nat k);
     http := fun _ _ =>
       Ok {| Response.status_code := 503; Response.text := "unavailable";
             Response.body := Raise JSONDecodeError |} |}.


Definition no_query : query :=
  {| name := ""; skip := None; promql := ""; range_duration := None; step := None;
     esql := "" |}.

(** The observable marks of a run: the announcements, the network calls
    (with the text of the query that is sent) and the latency summaries. *)
Inductive mark : Type :=
| MHeader (query_name : string)
| MSkipping
| MCall (query_text : string)
| MSummary (backend : string).

Definition query_text (req : request) : string :=
  match req with
  | PromInstant query _ _ => query
  | PromRange query _ _ _ _ => query
  | EsqlQuery query _ => query
  end.

Definition mark_of (e : event) : list mark :=
  match e with
  | Print (Header n) => [MHeader n]
  | Print Skipping => [MSkipping]
  | Print (Summary backend _ _) => [MSummary backend]
  | Call req => [MCall (query_text req)]
  | _ => []
  end.

Definition marks (evs : list event) : list mark := flat_map mark_of evs.

Definition calls (ms : list mark) : nat :=
  length (List.filter (fun m => match m with MCall _ => true | _ => false end) ms).

(** What processing one query definition leaves in the run. *)
Definition expected (q : query) : list mark :=
  if skipped q then [MHeader (name q); MSkipping]
  else [MHeader (name q)]
       ++ repeat (MCall (promql q)) NUM_RUNS
       ++ repeat (MCall (esql q)) NUM_RUNS
       ++ [MSummary "Prometheus"; MSummary "Elasticsearch ES|QL"].

(** [leaves m exp]: whatever the world does, the computation [m] extends the
    trace by events whose marks are a prefix of [exp], all of [exp] when [m]
    returns; and the call counter counts the calls in the trace. *)
Definition leaves {A} (m : M state A) (exp : list mark) : Prop :=
  forall st, exists evs,
    trace (snd (m st)) = trace st ++ evs
    /\ http_calls (snd (m st)) = (http_calls st + calls (marks evs))%nat
    /\ marks evs `prefix_of` exp
    /\ (forall a, fst (m st) = Ok a -> marks evs = exp).

(** [returns m P]: what [m] returns satisfies [P]. *)
Definition returns {A} (m : M state A) (P : A -> Prop) : Prop :=
  forall st a, fst (m st) = Ok a -> P a.

(** *** For the further properties *)

(** The value of a decimal numeral, after the digits that amount to [acc]. *)
Fixpoint uint_value (acc : Z) (d : Decimal.uint) : Z :=
  match d with
  | Decimal.Nil => acc
  | Decimal.D0 d => uint_value (10 * acc + 0) d
  | Decimal.D1 d => uint_value (10 * acc + 1) d
  | Decimal.D2 d => uint_value (10 * acc + 2) d
  | Decimal.D3 d => uint_value (10 * acc + 3) d
  | Decimal.D4 d => uint_value (10 * acc + 4) d
  | Decimal.D5 d => uint_value (10 * acc + 5) d
  | Decimal.D6 d => uint_value (10 * acc + 6) d
  | Decimal.D7 d => uint_value (10 * acc + 7) d
  | Decimal.D8 d => uint_value (10 * acc + 8) d
  | Decimal.D9 d => uint_value (10 * acc + 9) d
  end.

(** The decimal numeral of a natural number, as Python's [str] writes it. *)
Definition numeral (n : N) : string := NilEmpty.string_of_uint (N.to_uint n).

(** [sends P m]: every call that [m] makes, on any path, satisfies [P]. *)
Definition sends (P : request -> Prop) {A} (m : M state A) : Prop :=
  forall st, exists evs,
    trace (snd (m st)) = trace st ++ evs
    /\ Forall (fun e => match e with Call req => P req | _ => True end) evs.

(** The request of a pass of [bench_prom], as the annotations decide. *)
Definition prom_request_ok (q : query) (req : request) : Prop :=
  match range_duration q, step q with
  | Some rd, Some s =>
      exists start_ts end_ts d n,
        req = PromRange (promql q) start_ts end_ts n 120
        /\ parse_duration rd = Ok d /\ parse_duration s = Ok n
        /\ (end_ts - start_ts == inject_Z d)%Q
  | _, _ => exists t, req = PromInstant (promql q) t 15
  end.

Definition esql_request_ok (q : query) (req : request) : Prop :=
  req = EsqlQuery (esql q) (if bool_decide (is_Some (range_duration q)) then 120 else 15).



Definition run_queries (catalogue : list query) : nat :=
  length (List.filter (fun q => negb (skipped q)) catalogue).

End BenchSpec.

(** ** For the generator *)

Module GenSpec.
Import Gen.

(** The instance names are distinct: a name is read back by dropping the
    padding zeros. *)
Definition zeros (k : nat) : string := String.concat "" (replicate k "0").

Definition read_back (s : string) : option N :=
  option_map N.of_uint (NilEmpty.uint_of_string s).

Definition over_configured : config :=
  {| NUM_INSTANCES := 1; NUM_STATUS_CODES := 6; NUM_METHODS := 1;
     TICK_SECONDS := Finite 1; ES_INDEX := "metrics-http" |}.

(** Three methods and a negative count of status codes are configured. *)
Definition negative_status_count : config :=
  {| NUM_INSTANCES := 2; NUM_STATUS_CODES := -3; NUM_METHODS := 3;
     TICK_SECONDS := Finite 1; ES_INDEX := "metrics-http" |}.

Definition factor (l : labels) : Q :=
  if String.eqb (status_code l) "200" then 1 else 5 # 100.

(** The samples of a sweep that starts at draw [d] of the noise. *)
Fixpoint sweep (w : world) (d : nat) (series : list labels) : list (labels * Q) :=
  match series with
  | [] => []
  | l :: rest => (l, compute_value l (uniform w d)) :: sweep w (S d) rest
  end.

Definition pair_of (float_repr : Q -> string) (ts : string) (lv : labels * Q) : list string :=
  [Json.dumps float_repr action; Json.dumps float_repr (doc ts lv.2 lv.1)].

Definition gauge_update (lv : labels * Q) : event := GaugeSet (key_of lv.1) lv.2.

(** The text of the lines of a bulk body, written out character by
    character, as the claim reads it off a body. *)
Definition double_quote : string := String (ascii_of_nat 34) EmptyString.

Definition quoted (s : string) : string := double_quote +:+ s +:+ double_quote.

(** The create action: [{"create": {}}]. *)
Definition action_line : string := "{" +:+ quoted "create" +:+ ": {}}".

(** The document of a sample: its six fields in the order of the source,
    the timestamp written as [ts_text], the value as [float_repr] writes
    it, the four labels between double quotes. *)
Definition document_line (float_repr : Q -> string) (ts_text : string)
    (lv : labels * Q) : string :=
  "{" +:+ quoted "@timestamp" +:+ ": " +:+ ts_text
  +:+ ", " +:+ quoted "http_requests_qps" +:+ ": " +:+ float_repr lv.2
  +:+ ", " +:+ quoted "job" +:+ ": " +:+ quoted (job lv.1)
  +:+ ", " +:+ quoted "instance" +:+ ": " +:+ quoted (instance lv.1)
  +:+ ", " +:+ quoted "status_code" +:+ ": " +:+ quoted (status_code lv.1)
  +:+ ", " +:+ quoted "method" +:+ ": " +:+ quoted (method lv.1)
  +:+ "}".

Definition lines_of (float_repr : Q -> string) (ts_text : string)
    (lv : labels * Q) : list string :=
  [action_line; document_line float_repr ts_text lv].

(** The characters that JSON writes as they are: printable ASCII other
    than the double quote and the backslash. Timestamps in ISO format are
    made of them. *)
Definition plain_char (c : ascii) : bool :=
  let n := nat_of_ascii c in
  Nat.leb 32 n && Nat.leb n 126 && negb (Nat.eqb n 34) && negb (Nat.eqb n 92).

Fixpoint plain (s : string) : bool :=
  match s with
  | EmptyString => true
  | String c rest => plain_char c && plain rest
  end.

Definition gauge_after (g : gmap key Q) (samples : list (labels * Q)) : gmap key Q :=
  foldl (fun g lv => <[key_of lv.1 := lv.2]> g) g samples.

(** Strings without a line feed. *)
Fixpoint no_newline (s : string) : bool :=
  match s with
  | EmptyString => true
  | String c rest => negb (Ascii.eqb c (ascii_of_nat 10)) && no_newline rest
  end.

(** The scenario of two instances, one status code and one method. *)
Definition two_instances : config :=
  {| NUM_INSTANCES := 2; NUM_STATUS_CODES := 1; NUM_METHODS := 1;
     TICK_SECONDS := Finite 1; ES_INDEX := "metrics-http" |}.

(** A world in which nothing is reachable and the noise is always zero. *)
Definition silent : world :=
  {| time_time := fun k => inject_Z (Z.of_nat k);
     http := fun _ _ => Raise RequestException;
     uniform := fun _ => 0%Q;
     utcnow_isoformat := fun _ => "2025-01-01T00:00:00+00:00" |}.

(** The keys of the gauge children that a run sets, in order. *)
Definition swept (evs : list event) : list key :=
  flat_map (fun e => match e with GaugeSet k _ => [k] | _ => [] end) evs.

(** A tick interval that [time.sleep] sleeps: a number of seconds that is
    not negative, up to a bound of some thirty years. (Close to the 64 bits
    of nanoseconds that the check of [time.sleep] allows, the operating
    system may still refuse the deadline of a sleep, depending on its clock;
    the bound stays clear of that.) *)
Definition LONGEST_TICK : Q := 1000000000.

Definition valid_tick (cfg : config) : Prop :=
  exists s, TICK_SECONDS cfg = Finite s /\ (0 <= s)%Q /\ (s <= LONGEST_TICK)%Q.

(** The number of calls of a kind among some events. *)
Definition count (p : request -> bool) (evs : list event) : nat :=
  length (List.filter (fun e => match e with Call req => p req | _ => false end) evs).

Definition is_template_put (req : request) : bool :=
  match req with PutIndexTemplate _ => true | _ => false end.

Definition is_bulk_post (req : request) : bool :=
  match req with PostBulk _ => true | _ => false end.

(** [total m]: [m] never raises. *)
Definition total {A} (m : M state A) : Prop :=
  forall st, exists a st', m st = (Ok a, st').

(** [adds p m n]: on every path, [m] extends the trace by events that hold
    exactly [n] calls of the kind [p]. *)
Definition adds (p : request -> bool) {A} (m : M state A) (n : nat) : Prop :=
  forall st, exists evs, trace (snd (m st)) = trace st ++ evs /\ count p evs = n.

(** The state with more events in its trace. *)
Definition log (st : state) (evs : list event) : state :=
  {| clock_reads := clock_reads st; http_calls := http_calls st; draws := draws st;
     date_reads := date_reads st; http_qps := http_qps st; trace := trace st ++ evs |}.

(** A world whose backend is healthy but refuses everything else. *)
Definition schema_refused : world :=
  {| time_time := fun k => inject_Z (Z.of_nat k);
     http := fun _ req =>
       match req with
       | GetClusterHealth =>
           Ok {| Response.status_code := 200; Response.text := "";
                 Response.body := Ok (JObj [("status", JStr "green")]) |}
       | _ => Raise RequestException
       end;
     uniform := fun _ => 0%Q;
     utcnow_isoformat := fun _ => "2025-01-01T00:00:00+00:00" |}.

(** *** For the further properties *)

(** The size of the prefix [l[:n]] of a list of [k] elements. *)
Definition slice_size (k n : Z) : Z :=
  if n <? 0 then Z.max 0 (k + n) else Z.min n k.

Definition no_instances : config :=
  {| NUM_INSTANCES := 0; NUM_STATUS_CODES := 5; NUM_METHODS := 2;
     TICK_SECONDS := Finite 1; ES_INDEX := "metrics-http" |}.

(** [preserves f m]: on every path, [m] ends in a state with the same [f]. *)
Definition preserves {X A} (f : state -> X) (m : M state A) : Prop :=
  forall st, f (snd (m st)) = f st.

(** The part of the state that only [build_bulk_payload] changes. *)
Definition table (st : state) : gmap key Q * nat := (http_qps st, draws st).

Definition is_health (req : request) : bool :=
  match req with GetClusterHealth => true | _ => false end.

(** The clock moves on by the sleeps of the polling loop: at the [j]-th
    check after the reading [c] it shows at least [2 j] seconds more. *)
Definition clock_follows_sleeps (w : world) (c : nat) : Prop :=
  forall j : nat,
    (inject_Z (2 * Z.of_nat j) <= time_time w (S c + j) - time_time w c)%Q.

(** A world whose clock shows two seconds more at every reading, and in
    which nothing is reachable. *)
Definition brisk : world :=
  {| time_time := fun k => inject_Z (2 * Z.of_nat k);
     http := fun _ _ => Raise RequestException;
     uniform := fun _ => 0%Q;
     utcnow_isoformat := fun _ => "2025-01-01T00:00:00+00:00" |}.

(** The calls that follow the creation of the index template. *)
Definition after_template (req : request) : bool :=
  match req with
  | GetIndexTemplate | PutDataStream => true
  | _ => false
  end.

Definition is_stream_put (req : request) : bool :=
  match req with PutDataStream => true | _ => false end.

(** A world in which every call is answered with status 200 and a green
    cluster health. *)
Definition accepting : world :=
  {| time_time := fun k => inject_Z (2 * Z.of_nat k);
     http := fun _ _ =>
       Ok {| Response.status_code := 200; Response.text := "";
             Response.body := Ok (JObj [("status", JStr "green")]) |};
     uniform := fun _ => 0%Q;
     utcnow_isoformat := fun _ => "2025-01-01T00:00:00+00:00" |}.

(** A configuration whose tick interval is negative. *)
Definition negative_tick : config :=
  {| NUM_INSTANCES := 2; NUM_STATUS_CODES := 1; NUM_METHODS := 1;
     TICK_SECONDS := Finite (-1); ES_INDEX := "metrics-http" |}.

Definition is_refresh (req : request) : bool :=
  match req with PostRefresh => true | _ => false end.

Definition is_delete (req : request) : bool :=
  match req with DeleteIndex => true | _ => false end.

(** The state after a call. *)
Definition sent (st : state) (req : request) : state :=
  {| clock_reads := clock_reads st; http_calls := S (http_calls st);
     draws := draws st; date_reads := date_reads st;
     http_qps := http_qps st; trace := trace st ++ [Call req] |}.

(** [names] are the [ds.get("name")] of the [items]. *)
Definition names_read (items names : list json) : Prop :=
  Forall2 (fun ds n => Json.get ds "name" JNull = Ok n) items names.

(** The listing of the data streams, answered to the call number [k], reads
    as the names [names]. *)
Definition streams_listed (w : world) (k : nat) (names : list json) : Prop :=
  exists r listing streams items,
    http w k GetDataStreams = Ok r
    /\ Response.body r = Ok listing
    /\ Json.get listing "data_streams" (JArr []) = Ok streams
    /\ Json.iter streams = Ok items
    /\ names_read items names.

(** From the call number [k] on, the backend shows an index of the
    configured name that is not among the data streams. *)
Definition regular_index_found (cfg : config) (w : world) (k : nat) : Prop :=
  exists r1 r2 info names,
    http w k HeadIndex = Ok r1 /\ Response.status_code r1 = 200
    /\ http w (S k) GetIndex = Ok r2 /\ Response.status_code r2 = 200
    /\ Response.body r2 = Ok info
    /\ streams_listed w (S (S k)) names
    /\ existsb (is_name cfg) names = false.

End GenSpec.

(** * Properties of processes *)

Lemma bind_ok {S A B} (m : M S A) (k : A -> M S B) (st st' : S) (a : A) :
  m st = (Ok a, st') -> (m ≫= k) st = k a st'.
Proof. intros H. unfold mbind, M_bind. now rewrite H. Qed.

Lemma bind_raise {S A B} (m : M S A) (k : A -> M S B) (st st' : S) (e : exn) :
  m st = (Raise e, st') -> (m ≫= k) st = (Raise e, st').
Proof. intros H. unfold mbind, M_bind. now rewrite H. Qed.

(** * Properties of the benchmark runner *)

Module BenchFacts.
Import Bench BenchSpec.

Lemma snoc_not_empty (p : string) (c : ascii) :
  p +:+ String c EmptyString <> EmptyString.
Proof. destruct p; discriminate. Qed.

Lemma last_cons (a : ascii) (s : string) :
  s <> EmptyString -> PyStr.last (String a s) = PyStr.last s.
Proof. destruct s; [congruence | reflexivity]. Qed.

Lemma drop_last_cons (a : ascii) (s : string) :
  s <> EmptyString -> PyStr.drop_last (String a s) = String a (PyStr.drop_last s).
Proof. destruct s; [congruence | reflexivity]. Qed.

Lemma last_snoc (p : string) (c : ascii) :
  PyStr.last (p +:+ String c EmptyString) = Ok c.
Proof.
  induction p as [|a p IH]; [reflexivity|].
  change (String a p +:+ String c EmptyString) with (String a (p +:+ String c EmptyString)).
  rewrite last_cons by apply snoc_not_empty. exact IH.
Qed.

Lemma drop_last_snoc (p : string) (c : ascii) :
  PyStr.drop_last (p +:+ String c EmptyString) = p.
Proof.
  induction p as [|a p IH]; [reflexivity|].
  change (String a p +:+ String c EmptyString) with (String a (p +:+ String c EmptyString)).
  rewrite drop_last_cons by apply snoc_not_empty. now rewrite IH.
Qed.

(** A case analysis over the 256 characters. *)
Ltac each_char c := destruct c as [[] [] [] [] [] [] [] []].

Lemma unit_not_digit (c : ascii) (mult : Z) :
  units (PyStr.lower c) = Some mult -> PyStr.isdigit c = false.
Proof. each_char c; vm_compute; congruence. Qed.

Lemma units_lower (c : ascii) (mult : Z) :
  units c = Some mult -> PyStr.lower c = c.
Proof. each_char c; vm_compute; congruence. Qed.

Lemma units_cases (c : ascii) :
  units c = None <-> ~ In c ["s"; "m"; "h"; "d"]%char.
Proof.
  each_char c; cbn; split; intros H; try discriminate H; try reflexivity;
    try (intros [E|[E|[E|[E|[]]]]]; discriminate E);
    exfalso; apply H; auto 10.
Qed.

Lemma parse_duration_suffix (p : string) (c : ascii) (v : Z) :
  PyStr.int p = Ok v -> PyStr.isdigit c = false ->
  parse_duration (p +:+ String c EmptyString)
  = Ok (v * default 1 (units (PyStr.lower c))).
Proof.
  intros Hint Hdig. unfold parse_duration.
  rewrite last_snoc. cbn. rewrite Hdig, drop_last_snoc, Hint. reflexivity.
Qed.

Lemma digits_all_decimal (s : string) (acc : Z) (prev : bool) :
  all_decimal s = true -> (prev = true \/ s <> EmptyString) ->
  PyStr.digits acc prev s = Ok (decimal_value acc s).
Proof.
  revert acc prev. induction s as [|c s IH]; intros acc prev Hall Hne.
  - destruct Hne as [-> | Hne]; [reflexivity | congruence].
  - cbn in Hall. apply andb_prop in Hall as [Hc Hs].
    cbn [PyStr.digits decimal_value]. rewrite Hc. apply IH; auto.
Qed.

Lemma isdecimal_plain (c : ascii) :
  PyStr.isdecimal c = true ->
  PyStr.isspace_int c = false /\ c <> "+"%char /\ c <> "-"%char
  /\ PyStr.isdigit c = true.
Proof. each_char c; vm_compute; intuition congruence. Qed.

Lemma int_no_sign (c : ascii) (s : string) :
  PyStr.isspace_int c = false -> c <> "+"%char -> c <> "-"%char ->
  PyStr.int (String c s) = PyStr.digits 0 false (String c s).
Proof.
  intros Hsp Hplus Hminus. unfold PyStr.int. cbn [PyStr.lstrip]. rewrite Hsp.
  revert Hplus Hminus. each_char c; intros; congruence.
Qed.

Lemma int_all_decimal (s : string) :
  all_decimal s = true -> s <> EmptyString ->
  PyStr.int s = Ok (decimal_value 0 s).
Proof.
  intros Hall Hne. destruct s as [|c s]; [congruence|].
  pose proof Hall as Hall'. cbn in Hall'. apply andb_prop in Hall' as [Hc _].
  destruct (isdecimal_plain c Hc) as (Hsp & Hplus & Hminus & _).
  rewrite int_no_sign by assumption.
  apply digits_all_decimal; [assumption | right; congruence].
Qed.

Lemma last_all_decimal (s : string) :
  all_decimal s = true -> s <> EmptyString ->
  exists c, PyStr.last s = Ok c /\ PyStr.isdigit c = true.
Proof.
  induction s as [|a s IH]; intros Hall Hne; [congruence|].
  cbn in Hall. apply andb_prop in Hall as [Ha Hs].
  destruct s as [|b s].
  - exists a. split; [reflexivity|]. apply isdecimal_plain, Ha.
  - destruct IH as (c & Hc & Hd); [assumption | congruence |].
    exists c. split; [|assumption]. exact Hc.
Qed.

Lemma parse_duration_numeric (s : string) :
  all_decimal s = true -> s <> EmptyString ->
  parse_duration s = Ok (decimal_value 0 s).
Proof.
  intros Hall Hne. unfold parse_duration.
  destruct (last_all_decimal s Hall Hne) as (c & -> & Hd). cbn. rewrite Hd.
  now apply int_all_decimal.
Qed.

(** Claim C5. [parse_duration] reads a duration of the form [<int><unit>],
    with the unit among [s], [m], [h] and [d], as that many seconds, minutes,
    hours or days, counted in seconds, where [<int>] is anything that [int]
    reads; a string of decimal digits only is read as a number of seconds.
    In particular "5m" gives 300, "1h" gives 3600 and "90" gives 90. *)
Theorem parse_duration_spec (p : string) (v : Z) :
  PyStr.int p = Ok v ->
  parse_duration (p +:+ "s") = Ok v
  /\ parse_duration (p +:+ "m") = Ok (v * 60)
  /\ parse_duration (p +:+ "h") = Ok (v * 3600)
  /\ parse_duration (p +:+ "d") = Ok (v * 86400)
  /\ (forall n : string, all_decimal n = true -> n <> EmptyString ->
      parse_duration n = PyStr.int n /\ PyStr.int n = Ok (decimal_value 0 n))
  /\ parse_duration "5m" = Ok 300
  /\ parse_duration "1h" = Ok 3600
  /\ parse_duration "90" = Ok 90.
Proof.
  intros Hint.
  repeat split; try reflexivity.
  - rewrite (parse_duration_suffix p "s" v Hint eq_refl).
    change (default 1 (units (PyStr.lower "s"))) with 1. now rewrite Z.mul_1_r.
  - apply (parse_duration_suffix p "m" v Hint eq_refl).
  - apply (parse_duration_suffix p "h" v Hint eq_refl).
  - apply (parse_duration_suffix p "d" v Hint eq_refl).
  - rewrite int_all_decimal by assumption. now apply parse_duration_numeric.
  - now apply int_all_decimal.
Qed.

Lemma parse_duration_spec_witness :
  PyStr.int "15" = Ok 15
  /\ parse_duration ("15" +:+ "m") = Ok (15 * 60).
Proof.
  split; [reflexivity|].
  exact (proj1 (proj2 (parse_duration_spec "15" 15 eq_refl))).
Defined.

(** Claim C10. For a duration [<int><c>] whose last character [c] is not a
    digit and, lower-cased, is none of [s], [m], [h], [d], [parse_duration]
    does not fail: it returns the integer prefix multiplied by 1, that is,
    an unknown unit is silently read as seconds. *)
Theorem parse_duration_unknown_unit (p : string) (v : Z) (c : ascii) :
  PyStr.int p = Ok v ->
  PyStr.isdigit c = false ->
  ~ In (PyStr.lower c) ["s"; "m"; "h"; "d"]%char ->
  parse_duration (p +:+ String c EmptyString) = Ok (v * 1).
Proof.
  intros Hint Hdig Hunit.
  rewrite (parse_duration_suffix p c v Hint Hdig).
  apply units_cases in Hunit. now rewrite Hunit.
Qed.

Lemma parse_duration_unknown_unit_witness :
  parse_duration "5x" = Ok (5 * 1).
Proof.
  apply (parse_duration_unknown_unit "5" 5 "x"); [reflexivity | reflexivity |].
  vm_compute. intros H. repeat (destruct H as [H | H]; [discriminate H|]). exact H.
Defined.


(** ** Sorting and percentiles *)

Lemma insert_sorted_perm (x : Q) (l : list Q) :
  Permutation (insert_sorted x l) (x :: l).
Proof.
  induction l as [|y l IH]; cbn; [reflexivity|].
  destruct (Qle_bool x y); [reflexivity|].
  rewrite IH. apply perm_swap.
Qed.

Lemma sorted_perm (l : list Q) : Permutation (sorted l) l.
Proof.
  induction l as [|x l IH]; cbn; [reflexivity|].
  fold (sorted l). rewrite insert_sorted_perm. now constructor.
Qed.

Lemma sorted_length (l : list Q) : length (sorted l) = length l.
Proof. apply Permutation_length, sorted_perm. Qed.

Lemma insert_sorted_sorted (x : Q) (l : list Q) :
  StronglySorted Qle l -> StronglySorted Qle (insert_sorted x l).
Proof.
  induction 1 as [|y l Hs IH Hall]; cbn; [repeat constructor|].
  destruct (Qle_bool x y) eqn:E.
  - apply Qle_bool_iff in E. constructor; [now constructor|].
    constructor; [assumption|].
    eapply Forall_impl; [exact Hall|]. intros z Hz. eapply Qle_trans; eassumption.
  - assert (Hyx : (y <= x)%Q).
    { destruct (Qlt_le_dec y x) as [H|H]; [now apply Qlt_le_weak|].
      apply Qle_bool_iff in H. congruence. }
    constructor; [assumption|].
    eapply Permutation_Forall; [symmetry; apply insert_sorted_perm|].
    now constructor.
Qed.

Lemma sorted_sorted (l : list Q) : StronglySorted Qle (sorted l).
Proof.
  induction l as [|x l IH]; cbn; [constructor|].
  now apply insert_sorted_sorted.
Qed.

Lemma strongly_sorted_lookup (s : list Q) (i j : nat) (a b : Q) :
  StronglySorted Qle s -> (i <= j)%nat ->
  s !! i = Some a -> s !! j = Some b -> (a <= b)%Q.
Proof.
  intros Hs. revert i j. induction Hs as [|x s Hs IH Hall]; intros i j Hij Ha Hb.
  - discriminate.
  - destruct i as [|i], j as [|j]; cbn in Ha, Hb; try lia.
    + injection Ha as <-. injection Hb as <-. apply Qle_refl.
    + injection Ha as <-. rewrite Forall_lookup in Hall.
      eapply Hall. eassumption.
    + eapply IH; [|eassumption..]. lia.
Qed.

Lemma filter_length_perm (f : Q -> bool) (l l' : list Q) :
  Permutation l l' -> length (List.filter f l) = length (List.filter f l').
Proof.
  induction 1; cbn; try congruence.
  - destruct (f x); cbn; congruence.
  - destruct (f x), (f y); reflexivity.
Qed.

Lemma count_le_prefix (m : Q) (s : list Q) (k : nat) :
  (forall i a, (i <= k)%nat -> s !! i = Some a -> (a <= m)%Q) ->
  (k < length s)%nat -> (k + 1 <= count_le m s)%nat.
Proof.
  unfold count_le. revert k. induction s as [|x s IH]; intros k H Hk; cbn in *; [lia|].
  assert (Hx : Qle_bool x m = true).
  { apply Qle_bool_iff. apply (H 0%nat); [lia | reflexivity]. }
  rewrite Hx. cbn. destruct k as [|k]; [lia|].
  specialize (IH k). cbn in IH.
  assert (k + 1 <= length (List.filter (fun x0 => Qle_bool x0 m) s))%nat; [|lia].
  apply IH; [|lia]. intros i a Hi Ha. apply (H (S i)); [lia | exact Ha].
Qed.

Lemma count_ge_suffix (m : Q) (s : list Q) (k : nat) :
  (forall i a, (k <= i)%nat -> s !! i = Some a -> (m <= a)%Q) ->
  (length s - k <= count_ge m s)%nat.
Proof.
  unfold count_ge. revert k. induction s as [|x s IH]; intros k H; cbn in *; [lia|].
  destruct k as [|k].
  - assert (Hx : Qle_bool m x = true).
    { apply Qle_bool_iff. apply (H 0%nat); [lia | reflexivity]. }
    rewrite Hx. cbn.
    specialize (IH 0%nat). 
    assert (length s - 0 <= length (List.filter (fun x0 => Qle_bool m x0) s))%nat; [|lia].
    apply IH. intros i a Hi Ha. apply (H (S i)); [lia | exact Ha].
  - assert (length s - k <= length (List.filter (fun x0 => Qle_bool m x0) s))%nat.
    { apply IH. intros i a Hi Ha. apply (H (S i)); [lia | exact Ha]. }
    destruct (Qle_bool m x); cbn; lia.
Qed.

Lemma index_lookup (l : list Q) (i : Z) :
  0 <= i < Z.of_nat (length l) ->
  exists x, index l i = Ok x /\ l !! Z.to_nat i = Some x.
Proof.
  intros Hi. unfold index.
  destruct (i <? 0) eqn:E; [apply Z.ltb_lt in E; lia|]. rewrite E.
  destruct (lookup_lt_is_Some_2 l (Z.to_nat i)) as [x Hx]; [lia|].
  exists x. now rewrite Hx.
Qed.

Lemma median_spec (data : list Q) :
  data <> [] -> exists m, median data = Ok m /\ is_median m data.
Proof.
  intros Hne. unfold median.
  pose proof (sorted_sorted data) as Hs.
  pose proof (sorted_perm data) as Hp.
  pose proof (sorted_length data) as Hl.
  set (s := sorted data) in *.
  assert (Hn : (0 < length s)%nat).
  { rewrite Hl. destruct data; [congruence | cbn; lia]. }
  destruct (Z.of_nat (length s) =? 0) eqn:E0; [apply Z.eqb_eq in E0; lia|].
  assert (Hmed : forall m, is_median m s -> is_median m data).
  { intros m [H1 H2]. unfold is_median, count_le, count_ge in *.
    rewrite <- (filter_length_perm _ _ _ Hp), <- (filter_length_perm _ _ _ Hp), <- Hl.
    now split. }
  destruct (Z.of_nat (length s) mod 2 =? 1) eqn:E1.
  - apply Z.eqb_eq in E1.
    destruct (index_lookup s (Z.of_nat (length s) / 2)) as (m & Hm & Hlk).
    { split; [apply Z.div_pos; lia | apply Z.div_lt_upper_bound; lia]. }
    exists m. split; [exact Hm|]. apply Hmed.
    set (k := Z.to_nat (Z.of_nat (length s) / 2)) in *.
    assert (Hk : Z.of_nat (length s) = 2 * Z.of_nat k + 1).
    { subst k. rewrite Z2Nat.id by (apply Z.div_pos; lia).
      rewrite (Z.div_mod (Z.of_nat (length s)) 2) at 1 by lia. lia. }
    split.
    + assert (k + 1 <= count_le m s)%nat; [|lia].
      apply count_le_prefix; [|lia].
      intros i a Hi Ha. eapply strongly_sorted_lookup; eassumption.
    + assert (length s - k <= count_ge m s)%nat; [|lia].
      apply count_ge_suffix.
      intros i a Hi Ha. eapply strongly_sorted_lookup; eassumption.
  - apply Z.eqb_neq in E1.
    assert (Hmod : Z.of_nat (length s) mod 2 = 0).
    { pose proof (Z.mod_pos_bound (Z.of_nat (length s)) 2). lia. }
    set (k := Z.of_nat (length s) / 2) in *.
    assert (Hk : Z.of_nat (length s) = 2 * k).
    { subst k. rewrite (Z.div_mod (Z.of_nat (length s)) 2) at 1 by lia. lia. }
    destruct (index_lookup s (k - 1)) as (lo & Hlo & Hlk1); [lia|].
    destruct (index_lookup s k) as (hi & Hhi & Hlk2); [lia|].
    rewrite Hlo, Hhi. cbn.
    exists ((lo + hi) / 2)%Q. split; [reflexivity|]. apply Hmed.
    assert (Hlh : (lo <= hi)%Q).
    { eapply (strongly_sorted_lookup s (Z.to_nat (k - 1)) (Z.to_nat k)); try eassumption. lia. }
    assert (Hlom : (lo <= (lo + hi) / 2)%Q).
    { apply Qle_shift_div_l; [reflexivity|]. lra. }
    assert (Hmhi : ((lo + hi) / 2 <= hi)%Q).
    { apply Qle_shift_div_r; [reflexivity|]. lra. }
    split.
    + assert (Z.to_nat (k - 1) + 1 <= count_le ((lo + hi) / 2)%Q s)%nat; [|lia].
      apply count_le_prefix; [|lia].
      intros i a Hi Ha. eapply Qle_trans; [|exact Hlom].
      eapply strongly_sorted_lookup; eassumption.
    + assert (length s - Z.to_nat k <= count_ge ((lo + hi) / 2)%Q s)%nat; [|lia].
      apply count_ge_suffix.
      intros i a Hi Ha. eapply Qle_trans; [exact Hmhi|].
      eapply strongly_sorted_lookup; eassumption.
Qed.

Lemma half_of_nat (n : nat) : Z.to_nat (Z.of_nat n / 2) = Nat.div n 2.
Proof.
  apply Nat2Z.inj. rewrite Z2Nat.id by (apply Z.div_pos; lia).
  now rewrite (Nat2Z.inj_div n 2).
Qed.

Lemma parity_of_nat (n : nat) : Z.of_nat n mod 2 = if Nat.odd n then 1 else 0.
Proof.
  change (Z.of_nat n mod 2) with (Z.of_nat n mod Z.of_nat 2).
  rewrite <- (Nat2Z.inj_mod n 2), <- Nat.bit0_mod, Nat.bit0_odd.
  now destruct (Nat.odd n).
Qed.

Lemma median_middle (data : list Q) :
  data <> [] -> exists m, median data = Ok m /\ middle_of (sorted data) m.
Proof.
  intros Hne. unfold median, middle_of.
  pose proof (sorted_length data) as Hl.
  set (s := sorted data) in *.
  assert (Hn : (0 < length s)%nat).
  { rewrite Hl. destruct data; [congruence | cbn; lia]. }
  destruct (Z.of_nat (length s) =? 0) eqn:E0; [apply Z.eqb_eq in E0; lia|].
  pose proof (half_of_nat (length s)) as Hhalf.
  pose proof (parity_of_nat (length s)) as Hpar.
  destruct (Nat.odd (length s)); rewrite Hpar.
  - change (1 =? 1) with true. cbv iota.
    destruct (index_lookup s (Z.of_nat (length s) / 2)) as (m & Hm & Hlk).
    { split; [apply Z.div_pos; lia | apply Z.div_lt_upper_bound; lia]. }
    exists m. split; [exact Hm|]. now rewrite <- Hhalf.
  - change (0 =? 1) with false. cbv iota.
    set (k := Z.of_nat (length s) / 2) in *.
    assert (Hk : Z.of_nat (length s) = 2 * k).
    { subst k. rewrite (Z.div_mod (Z.of_nat (length s)) 2) at 1 by lia. lia. }
    destruct (index_lookup s (k - 1)) as (lo & Hlo & Hlk1); [lia|].
    destruct (index_lookup s k) as (hi & Hhi & Hlk2); [lia|].
    rewrite <- Hhalf, Hlo, Hhi. cbn [mbind result_bind].
    exists ((lo + hi) / 2)%Q. split; [reflexivity|].
    exists lo, hi. split; [|split; [exact Hlk2 | reflexivity]].
    replace (Z.to_nat k - 1)%nat with (Z.to_nat (k - 1)) by lia. exact Hlk1.
Qed.

Lemma idx95_floor (n : nat) :
  (0 < n)%nat ->
  idx95 n = Qfloor ((95 # 100) * inject_Z (Z.of_nat n - 1))
  /\ 0 <= idx95 n < Z.of_nat n.
Proof.
  intros Hn. unfold idx95, int_of_float, Qfloor.
  cbn [Qmult Qnum Qden inject_Z].
  rewrite Z.quot_div_nonneg by lia.
  split; [reflexivity|].
  change (Z.pos (100 * 1)) with 100.
  split; [apply Z.div_pos; lia|].
  apply Z.div_lt_upper_bound; lia.
Qed.

Lemma percentiles_defined (latencies : list Q) :
  latencies <> [] ->
  exists p50 p95,
    percentiles latencies = Ok (p50, p95)
    /\ is_median p50 latencies
    /\ sorted latencies !! Z.to_nat (idx95 (length latencies)) = Some p95.
Proof.
  intros Hne.
  destruct (median_spec latencies Hne) as (p50 & Hmed & Hp50).
  assert (Hn : (0 < length latencies)%nat).
  { destruct latencies; [congruence | cbn; lia]. }
  destruct (idx95_floor (length latencies) Hn) as (Hidx & Hrange).
  destruct (index_lookup (sorted latencies) (idx95 (length latencies))) as (p95 & Hp95 & Hlk).
  { now rewrite sorted_length. }
  exists p50, p95. split; [|split; assumption].
  unfold percentiles. rewrite Hmed. cbn. rewrite sorted_length, Hp95. reflexivity.
Qed.

Lemma summarize_prints (name : string) (latencies : list Q) (p50 p95 : Q) (st : state) :
  percentiles latencies = Ok (p50, p95) ->
  summarize name latencies st
  = (Ok tt, {| clock_reads := clock_reads st; http_calls := http_calls st;
               trace := trace st ++ [Print (Summary name p50 p95)] |}).
Proof. intros H. unfold summarize. cbn. unfold lift. now rewrite H. Qed.

(** Claim C4. For every non-empty latency sequence [summarize] reports a
    [p50] that is the median of the sequence: the middle element of the
    sequence sorted in ascending order, or the mean of its two middle
    elements when their number is even (so at least half of the
    observations are at most it, and at least half are at least it); and a
    [p95] that is the element at index [floor(0.95 * (n - 1))] of the sorted
    sequence. For [10, 20, 30, 40, 50] they are 30 and 40; for
    [10, 20, 30, 40] they are 25 (as the fraction 50/2) and 30. *)
Theorem percentiles_spec (latencies : list Q) :
  latencies <> [] ->
  exists p50 p95,
    percentiles latencies = Ok (p50, p95)
    /\ is_median p50 latencies
    /\ middle_of (sorted latencies) p50
    /\ StronglySorted Qle (sorted latencies)
    /\ Permutation (sorted latencies) latencies
    /\ sorted latencies
         !! Z.to_nat (Qfloor ((95 # 100) * inject_Z (Z.of_nat (length latencies) - 1)))
       = Some p95
    /\ (forall name st,
          summarize name latencies st
          = (Ok tt, {| clock_reads := clock_reads st; http_calls := http_calls st;
                       trace := trace st ++ [Print (Summary name p50 p95)] |}))
    /\ percentiles [10; 20; 30; 40; 50]%Q = Ok (30, 40)%Q
    /\ percentiles [10; 20; 30; 40]%Q = Ok (50 # 2, 30)%Q.
Proof.
  intros Hne.
  destruct (percentiles_defined latencies Hne) as (p50 & p95 & Hperc & Hmed & Hlk).
  assert (Hn : (0 < length latencies)%nat).
  { destruct latencies; [congruence | cbn; lia]. }
  destruct (idx95_floor (length latencies) Hn) as (Hidx & _).
  exists p50, p95.
  split; [exact Hperc|]. split; [exact Hmed|].
  split.
  { destruct (median_middle latencies Hne) as (m & Hm & Hmid).
    unfold percentiles in Hperc. rewrite Hm in Hperc. cbn in Hperc.
    destruct (index _ _); cbn in Hperc; [|discriminate].
    now injection Hperc as -> _. }
  split; [apply sorted_sorted|]. split; [apply sorted_perm|].
  split; [now rewrite <- Hidx|]. split; [|split; reflexivity].
  intros name st. now apply summarize_prints.
Qed.

Lemma percentiles_spec_witness :
  exists p50 p95,
    percentiles [4; 1; 3; 2]%Q = Ok (p50, p95)
    /\ is_median p50 [4; 1; 3; 2]%Q
    /\ middle_of (sorted [4; 1; 3; 2]%Q) p50.
Proof.
  destruct (percentiles_spec [4; 1; 3; 2]%Q) as (p50 & p95 & H1 & H2 & H3 & _);
    [discriminate|].
  exists p50, p95. split; [|split]; assumption.
Defined.


(** ** Running the benchmark loops *)

Ltac run_step :=
  unfold mbind, M_bind, mret, M_ret, now, send, lift, print, sleep, emit; cbn.

Lemma bench_esql_iter_answered (w : world) (q : query) (timeout : Z) (i : nat)
    (lats : list Q) (fr : option json) (st : state) :
  answered w (http_calls st) ->
  exists fr' st',
    bench_esql_iter w q timeout i (lats, fr) st
    = (Ok (lats ++ [measured w (clock_reads st)], fr'), st')
    /\ clock_reads st' = (clock_reads st + 2)%nat
    /\ http_calls st' = S (http_calls st).
Proof.
  intros Hans. destruct (Hans (EsqlQuery (esql q) timeout)) as (r & Hr & Hbody).
  unfold bench_esql_iter, measured. run_step. rewrite Hr. cbn.
  destruct (Response.status_code r =? 200) eqn:E; cbn.
  - apply Z.eqb_eq in E. destruct (Hbody E) as (j & Hj).
    destruct (Nat.eqb i 0); cbn; [rewrite Hj; cbn|];
      (eexists _, _; split; [reflexivity|]; cbn; split; lia).
  - eexists _, _; split; [reflexivity|]; cbn; split; lia.
Qed.

Lemma of_int_ok (z : Z) :
  Z.abs z < PyFloat.INT_LIMIT -> PyFloat.of_int z = Ok (inject_Z z).
Proof. intros H. unfold PyFloat.of_int. apply Z.ltb_lt in H. now rewrite H. Qed.

Lemma of_int_overflow (z : Z) :
  PyFloat.INT_LIMIT <= Z.abs z -> PyFloat.of_int z = Raise OverflowError.
Proof. intros H. unfold PyFloat.of_int. apply Z.ltb_ge in H. now rewrite H. Qed.

Lemma prom_request_built (w : world) (q : query) (timeout : Z) (st : state) :
  range_ok q ->
  exists req st1,
    prom_request w q
      (bool_decide (is_Some (range_duration q)) && bool_decide (is_Some (step q)))
      timeout st = (Ok req, st1)
    /\ clock_reads st1 = S (clock_reads st) /\ http_calls st1 = http_calls st.
Proof.
  intros Hrange. unfold prom_request.
  destruct (range_duration q) as [rd|] eqn:Erd, (step q) as [s|] eqn:Es; cbn.
  - destruct (Hrange rd s Erd Es) as (d & n & Hd & Hlim & Hn).
    run_step. rewrite Hd. cbn. rewrite (of_int_ok d Hlim). cbn. rewrite Hn. cbn. eauto 10.
  - run_step. eauto 10.
  - run_step. eauto 10.
  - run_step. eauto 10.
Qed.

Lemma bench_prom_iter_answered (w : world) (q : query) (timeout : Z) (i : nat)
    (lats : list Q) (fr : option json) (st : state) :
  range_ok q ->
  answered w (http_calls st) ->
  exists fr' st',
    bench_prom_iter w q
      (bool_decide (is_Some (range_duration q)) && bool_decide (is_Some (step q)))
      timeout i (lats, fr) st
    = (Ok (lats ++ [measured w (S (clock_reads st))], fr'), st')
    /\ clock_reads st' = (clock_reads st + 3)%nat
    /\ http_calls st' = S (http_calls st).
Proof.
  intros Hrange Hans. unfold bench_prom_iter, measured.
  destruct (prom_request_built w q timeout st Hrange) as (req & st1 & Hreq & Hc & Hh).
  rewrite (bind_ok _ _ _ _ _ Hreq).
  destruct (Hans req) as (r & Hr & Hbody).
  run_step. rewrite Hh, Hr, Hc. cbn.
  destruct (Response.status_code r =? 200) eqn:E; cbn.
  - apply Z.eqb_eq in E. destruct (Hbody E) as (j & Hj).
    destruct (Nat.eqb i 0); cbn; [rewrite Hj; cbn|];
      (eexists _, _; split; [reflexivity|]; cbn; split; lia).
  - eexists _, _; split; [reflexivity|]; cbn; split; lia.
Qed.



Lemma measured_shift (w : world) (c d n : nat) :
  measured w c :: map (fun i => measured w (c + d + d * i)) (seq 0 n)
  = map (fun i => measured w (c + d * i)) (seq 0 (S n)).
Proof.
  cbn [seq map]. f_equal; [f_equal; lia|].
  rewrite <- seq_shift, map_map. apply map_ext. intros i. f_equal. lia.
Qed.

Lemma bench_esql_loop (w : world) (q : query) (timeout : Z) (n a : nat)
    (lats : list Q) (fr : option json) (st : state) :
  (forall k, answered w k) ->
  exists fr' st',
    for_each (seq a n) (bench_esql_iter w q timeout) (lats, fr) st
    = (Ok (lats ++ map (fun i => measured w (clock_reads st + 2 * i)) (seq 0 n), fr'), st')
    /\ clock_reads st' = (clock_reads st + 2 * n)%nat
    /\ http_calls st' = (http_calls st + n)%nat.
Proof.
  intros Hans. revert a lats fr st.
  induction n as [|n IH]; intros a lats fr st.
  - exists fr, st. cbn. rewrite app_nil_r. repeat split; lia.
  - destruct (bench_esql_iter_answered w q timeout a lats fr st (Hans _))
      as (fr1 & st1 & Hiter & Hc & Hh).
    destruct (IH (S a) (lats ++ [measured w (clock_reads st)]) fr1 st1)
      as (fr' & st' & Hloop & Hc' & Hh').
    exists fr', st'.
    rewrite <- (measured_shift w (clock_reads st) 2 n).
    cbn [seq for_each].
    rewrite (bind_ok _ _ _ _ _ Hiter), Hloop.
    split; [|lia].
    rewrite <- app_assoc. cbn [app]. now rewrite Hc.
Qed.

Lemma bench_prom_loop (w : world) (q : query) (timeout : Z) (n a : nat)
    (lats : list Q) (fr : option json) (st : state) :
  range_ok q ->
  (forall k, answered w k) ->
  exists fr' st',
    for_each (seq a n)
      (bench_prom_iter w q
         (bool_decide (is_Some (range_duration q)) && bool_decide (is_Some (step q)))
         timeout) (lats, fr) st
    = (Ok (lats ++ map (fun i => measured w (S (clock_reads st) + 3 * i)) (seq 0 n), fr'), st')
    /\ clock_reads st' = (clock_reads st + 3 * n)%nat
    /\ http_calls st' = (http_calls st + n)%nat.
Proof.
  intros Hrange Hans. revert a lats fr st.
  induction n as [|n IH]; intros a lats fr st.
  - exists fr, st. cbn. rewrite app_nil_r. repeat split; lia.
  - destruct (bench_prom_iter_answered w q timeout a lats fr st Hrange (Hans _))
      as (fr1 & st1 & Hiter & Hc & Hh).
    destruct (IH (S a) (lats ++ [measured w (S (clock_reads st))]) fr1 st1)
      as (fr' & st' & Hloop & Hc' & Hh').
    exists fr', st'.
    rewrite <- (measured_shift w (S (clock_reads st)) 3 n).
    cbn [seq for_each].
    rewrite (bind_ok _ _ _ _ _ Hiter), Hloop.
    split; [|lia].
    rewrite <- app_assoc. cbn [app]. rewrite Hc.
    reflexivity.
Qed.

Lemma QUERIES_range_ok (q : query) : In q QUERIES -> range_ok q.
Proof.
  intros Hq rd s Hrd Hs.
  repeat (destruct Hq as [<- | Hq];
          [cbn in Hrd, Hs;
           first [ discriminate Hrd
                 | injection Hrd as <-; injection Hs as <-;
                   eexists _, _; split; [reflexivity|];
                   split; [vm_compute|]; reflexivity ] |]).
  destruct Hq.
Qed.

Lemma unavailable_answered (k : nat) : answered unavailable k.
Proof. intros req. eexists. split; [reflexivity|]. cbn. discriminate. Qed.





(** ** What a run does, in order *)

Lemma marks_app (evs1 evs2 : list event) :
  marks (evs1 ++ evs2) = marks evs1 ++ marks evs2.
Proof. unfold marks. apply flat_map_app. Qed.

Lemma calls_app (ms1 ms2 : list mark) :
  calls (ms1 ++ ms2) = (calls ms1 + calls ms2)%nat.
Proof. unfold calls. now rewrite List.filter_app, length_app. Qed.

Lemma leaves_ret {A} (a : A) : leaves (mret a) [].
Proof. intros st. exists []. cbn. rewrite app_nil_r. repeat split; auto with lia. Qed.

Lemma leaves_lift {A} (r : result A) : leaves (lift r) [].
Proof. intros st. exists []. cbn. rewrite app_nil_r. repeat split; auto with lia. Qed.

Lemma leaves_emit (e : event) :
  (forall req, e <> Call req) -> leaves (emit e) (mark_of e).
Proof.
  intros Hne st. exists [e]. cbn. rewrite app_nil_r.
  repeat split; auto.
  destruct e as [[]| |]; cbn; try lia. now destruct (Hne req).
Qed.

Lemma leaves_print (m : message) : leaves (print m) (mark_of (Print m)).
Proof. apply leaves_emit. discriminate. Qed.

Lemma leaves_print_as (m : message) (e : list mark) :
  mark_of (Print m) = e -> leaves (print m) e.
Proof. intros <-. apply leaves_print. Qed.

Lemma leaves_sleep (s : Q) : leaves (sleep s) [].
Proof. apply (leaves_emit (Sleep s)). discriminate. Qed.

Lemma leaves_now (w : world) : leaves (now w) [].
Proof. intros st. exists []. cbn. rewrite app_nil_r. repeat split; auto with lia. Qed.

Lemma leaves_send (w : world) (req : request) :
  leaves (send w req) [MCall (query_text req)].
Proof.
  intros st. exists [Call req]. cbn. repeat split; auto with lia.
Qed.

Lemma leaves_bind {A B} (m : M state A) (k : A -> M state B) (e1 e2 exp : list mark) :
  leaves m e1 -> (forall a, leaves (k a) e2) -> exp = e1 ++ e2 ->
  leaves (m ≫= k) exp.
Proof.
  intros Hm Hk -> st. destruct (Hm st) as (evs1 & Ht1 & Hc1 & Hp1 & Hok1).
  unfold mbind, M_bind. destruct (m st) as [[a|e] st1]; cbn in *.
  - destruct (Hk a st1) as (evs2 & Ht2 & Hc2 & Hp2 & Hok2).
    exists (evs1 ++ evs2). rewrite marks_app, calls_app, (Hok1 a eq_refl).
    rewrite Ht2, Ht1, Hc2, Hc1, (Hok1 a eq_refl), app_assoc.
    split; [reflexivity|]. split; [lia|].
    split; [now apply prefix_app|].
    intros b Hb. now rewrite (Hok2 b Hb).
  - exists evs1. split; [assumption|]. split; [assumption|].
    split; [now apply prefix_app_r | discriminate].
Qed.

Lemma leaves_for_each {A L} (xs : list A) (body : A -> L -> M state L)
    (f : A -> list mark) (acc : L) :
  (forall x acc, leaves (body x acc) (f x)) ->
  leaves (for_each xs body acc) (flat_map f xs).
Proof.
  intros Hbody. revert acc. induction xs as [|x xs IH]; intros acc; cbn.
  - apply leaves_ret.
  - eapply leaves_bind; [apply Hbody | intros a; apply IH | reflexivity].
Qed.

Lemma returns_ret {A} (a : A) (P : A -> Prop) : P a -> returns (mret a) P.
Proof. intros H st b [= <-]. exact H. Qed.

Lemma returns_bind {A B} (m : M state A) (k : A -> M state B) (P : B -> Prop) :
  (forall a, returns (k a) P) -> returns (m ≫= k) P.
Proof.
  intros Hk st b. unfold mbind, M_bind.
  destruct (m st) as [[a|e] st1]; cbn; [apply Hk | discriminate].
Qed.

Lemma leaves_bind_post {A B} (m : M state A) (k : A -> M state B) (P : A -> Prop)
    (e1 e2 exp : list mark) :
  leaves m e1 -> returns m P -> (forall a, P a -> leaves (k a) e2) -> exp = e1 ++ e2 ->
  leaves (m ≫= k) exp.
Proof.
  intros Hm HP Hk -> st. destruct (Hm st) as (evs1 & Ht1 & Hc1 & Hp1 & Hok1).
  specialize (HP st). unfold mbind, M_bind.
  destruct (m st) as [[a|e] st1]; cbn in *.
  - destruct (Hk a (HP a eq_refl) st1) as (evs2 & Ht2 & Hc2 & Hp2 & Hok2).
    exists (evs1 ++ evs2). rewrite marks_app, calls_app, (Hok1 a eq_refl).
    rewrite Ht2, Ht1, Hc2, Hc1, (Hok1 a eq_refl), app_assoc.
    split; [reflexivity|]. split; [lia|].
    split; [now apply prefix_app|].
    intros b Hb. now rewrite (Hok2 b Hb).
  - exists evs1. split; [assumption|]. split; [assumption|].
    split; [now apply prefix_app_r | discriminate].
Qed.

Ltac leaves_step :=
  lazymatch goal with
  | |- leaves (mret _) _ => apply leaves_ret
  | |- leaves (lift _) _ => apply leaves_lift
  | |- leaves (print _) _ => eapply leaves_print_as; cbn [mark_of]; reflexivity
  | |- leaves (sleep _) _ => apply leaves_sleep
  | |- leaves (now _) _ => apply leaves_now
  | |- leaves (send _ _) _ => apply leaves_send
  | |- leaves (_ ≫= _) _ => eapply leaves_bind; [| intros ? |]
  | |- leaves (if ?b then _ else _) _ => destruct b
  | |- leaves (let '(_, _) := ?p in _) _ => destruct p
  end.

Lemma leaves_prom_request (w : world) (q : query) (use_range : bool) (timeout : Z) :
  leaves (prom_request w q use_range timeout) []
  /\ returns (prom_request w q use_range timeout) (fun req => query_text req = promql q).
Proof.
  unfold prom_request. split.
  - repeat leaves_step; reflexivity.
  - destruct use_range; repeat (apply returns_bind; intros ?); now apply returns_ret.
Qed.

Lemma leaves_bench_prom_iter (w : world) (q : query) (use_range : bool) (timeout : Z)
    (i : nat) (acc : list Q * option json) :
  leaves (bench_prom_iter w q use_range timeout i acc) [MCall (promql q)].
Proof.
  unfold bench_prom_iter. destruct acc as [lats fr].
  eapply leaves_bind_post with (P := fun req => query_text req = promql q)
                               (e1 := []) (e2 := [MCall (promql q)]).
  - apply leaves_prom_request.
  - apply leaves_prom_request.
  - intros req Hreq. rewrite <- Hreq. repeat leaves_step; reflexivity.
  - reflexivity.
Qed.

Lemma leaves_bench_esql_iter (w : world) (q : query) (timeout : Z)
    (i : nat) (acc : list Q * option json) :
  leaves (bench_esql_iter w q timeout i acc) [MCall (esql q)].
Proof.
  unfold bench_esql_iter. destruct acc as [lats fr].
  repeat leaves_step; reflexivity.
Qed.

Lemma flat_map_const {A B} (xs : list A) (ys : list B) (y : B) :
  ys = [y] -> flat_map (fun _ => ys) xs = repeat y (length xs).
Proof. intros ->. induction xs; cbn; congruence. Qed.

Lemma leaves_bench_prom (w : world) (q : query) :
  leaves (bench_prom w q) (repeat (MCall (promql q)) NUM_RUNS).
Proof.
  unfold bench_prom.
  change (repeat (MCall (promql q)) NUM_RUNS)
    with (repeat (MCall (promql q)) (length (seq 0 NUM_RUNS))).
  rewrite <- (flat_map_const (seq 0 NUM_RUNS) [MCall (promql q)]) by reflexivity.
  apply leaves_for_each. intros. apply leaves_bench_prom_iter.
Qed.

Lemma leaves_bench_esql (w : world) (q : query) :
  leaves (bench_esql w q) (repeat (MCall (esql q)) NUM_RUNS).
Proof.
  unfold bench_esql.
  change (repeat (MCall (esql q)) NUM_RUNS)
    with (repeat (MCall (esql q)) (length (seq 0 NUM_RUNS))).
  rewrite <- (flat_map_const (seq 0 NUM_RUNS) [MCall (esql q)]) by reflexivity.
  apply leaves_for_each. intros. apply leaves_bench_esql_iter.
Qed.

Lemma leaves_summarize (backend : string) (lats : list Q) :
  leaves (summarize backend lats) [MSummary backend].
Proof.
  unfold summarize. eapply leaves_bind; [apply leaves_lift | | reflexivity].
  intros [p50 p95]. apply leaves_print.
Qed.

Section Main.
Variable w : world.
Variable format_prom_result format_es_result : option json -> result string.
Variable PRINT_RESULTS : bool.

Lemma leaves_main_iter (q : query) (u : unit) :
  leaves (main_iter w format_prom_result format_es_result PRINT_RESULTS q u) (expected q).
Proof using Type.
  unfold main_iter, expected. destruct (skipped q).
  - repeat leaves_step; reflexivity.
  - eapply leaves_bind; [apply leaves_print | intros _ | reflexivity].
    eapply leaves_bind; [apply leaves_bench_prom | intros [prom_lats prom_result] | reflexivity].
    eapply leaves_bind; [apply leaves_bench_esql | intros [es_lats es_result] | reflexivity].
    eapply leaves_bind with (e1 := []); [| intros _ | reflexivity].
    + destruct PRINT_RESULTS; repeat leaves_step; reflexivity.
    + eapply leaves_bind; [apply leaves_summarize | intros _; apply leaves_summarize | reflexivity].
Qed.

Lemma leaves_main (catalogue : list query) :
  leaves (main w format_prom_result format_es_result PRINT_RESULTS catalogue)
         (flat_map expected catalogue).
Proof using Type.
  unfold main. apply leaves_for_each. intros q u. apply leaves_main_iter.
Qed.

End Main.


Section Completion.
Variable w : world.
Variable format_prom_result format_es_result : option json -> result string.

Lemma summarize_ok (backend : string) (lats : list Q) (st : state) :
  lats <> [] -> exists st', summarize backend lats st = (Ok tt, st')
                            /\ http_calls st' = http_calls st.
Proof using Type.
  intros Hne. destruct (percentiles_defined lats Hne) as (p50 & p95 & H & _).
  eexists. split; [apply (summarize_prints _ _ _ _ _ H) | reflexivity].
Qed.

(** When every call is answered, every definition of the catalogue is
    processed and the run ends normally. *)
Lemma main_completes (catalogue : list query) (st : state) :
  (forall k, answered w k) ->
  Forall range_ok catalogue ->
  fst (main w format_prom_result format_es_result false catalogue st) = Ok tt.
Proof using Type.
  intros Hans Hcat. revert st. unfold main.
  induction Hcat as [|q catalogue Hq Hcat IH]; intros st; [reflexivity|].
  cbn [for_each].
  assert (Hiter : exists st', main_iter w format_prom_result format_es_result false q tt st
                              = (Ok tt, st')).
  { unfold main_iter. destruct (skipped q); [eexists; reflexivity|].
    set (st0 := snd (print (Header (name q)) st)).
    destruct (bench_prom_loop w q
                (if bool_decide (is_Some (range_duration q)) && bool_decide (is_Some (step q))
                 then 120 else 15) NUM_RUNS 0 [] None st0 Hq Hans)
      as (pf & st1 & Hprom & _ & _).
    destruct (bench_esql_loop w q
                (if bool_decide (is_Some (range_duration q)) then 120 else 15)
                NUM_RUNS 0 [] None st1 Hans)
      as (ef & st2 & Hes & _ & _).
    destruct (summarize_ok "Prometheus"
                ([] ++ map (fun i => measured w (S (clock_reads st0) + 3 * i)) (seq 0 NUM_RUNS)) st2)
      as (st3 & Hs1 & _); [discriminate|].
    destruct (summarize_ok "Elasticsearch ES|QL"
                ([] ++ map (fun i => measured w (clock_reads st1 + 2 * i)) (seq 0 NUM_RUNS)) st3)
      as (st4 & Hs2 & _); [discriminate|].
    exists st4.
    rewrite (bind_ok _ _ st st0 tt) by reflexivity.
    unfold bench_prom, bench_esql.
    rewrite (bind_ok _ _ _ _ _ Hprom). rewrite (bind_ok _ _ _ _ _ Hes).
    rewrite (bind_ok _ _ st2 st2 tt) by reflexivity.
    rewrite (bind_ok _ _ _ _ _ Hs1). exact Hs2. }
  destruct Hiter as (st' & Hiter). rewrite (bind_ok _ _ _ _ _ Hiter). apply IH.
Qed.

End Completion.

(** Claim C7. A query definition whose skip flag is set is announced and
    nothing else: its pass of the main loop prints the header and the
    skipping notice, makes no network call, reads no clock and prints no
    summary. In any run, whatever the backends do, what is announced, called
    and summarised follows the catalogue in order ([expected]): five calls
    per backend and two summaries for each definition that is not skipped,
    none for a skipped one; when every call is answered the whole catalogue
    is processed. In the catalogue only the fourth definition is skipped. *)
Theorem skipped_queries_are_not_run (w : world)
    (format_prom_result format_es_result : option json -> result string)
    (PRINT_RESULTS : bool) (catalogue : list query) (st : state) :
  (forall q st0, skipped q = true ->
     main_iter w format_prom_result format_es_result PRINT_RESULTS q tt st0
     = (Ok tt, {| clock_reads := clock_reads st0; http_calls := http_calls st0;
                  trace := trace st0 ++ [Print (Header (name q)); Print Skipping] |}))
  /\ (exists evs,
        trace (snd (main w format_prom_result format_es_result PRINT_RESULTS catalogue st))
        = trace st ++ evs
        /\ http_calls (snd (main w format_prom_result format_es_result PRINT_RESULTS catalogue st))
           = (http_calls st + calls (marks evs))%nat
        /\ marks evs `prefix_of` flat_map expected catalogue
        /\ (fst (main w format_prom_result format_es_result PRINT_RESULTS catalogue st) = Ok tt ->
            marks evs = flat_map expected catalogue))
  /\ ((forall k, answered w k) ->
      fst (main w format_prom_result format_es_result false QUERIES st) = Ok tt)
  /\ map skipped QUERIES = [false; false; false; true].
Proof.
  split; [|split; [|split]].
  - intros q st0 Hskip. unfold main_iter. rewrite Hskip.
    unfold mbind, M_bind, print, emit. cbn. now rewrite <- app_assoc.
  - destruct (leaves_main w format_prom_result format_es_result PRINT_RESULTS catalogue st)
      as (evs & Ht & Hc & Hp & Hok).
    exists evs. repeat split; try assumption. intros H. exact (Hok tt H).
  - intros Hans. apply main_completes; [assumption|].
    apply Forall_forall. intros q Hq. apply QUERIES_range_ok. now apply list_elem_of_In.
  - reflexivity.
Qed.

Lemma skipped_queries_are_not_run_witness :
  main_iter unavailable (fun _ => Ok "") (fun _ => Ok "") false
            (List.last QUERIES no_query) tt initial
  = (Ok tt, {| clock_reads := 0; http_calls := 0;
               trace := [Print (Header "Q4_avg_status_code_4xx_5xx_wildcard");
                         Print Skipping] |})
  /\ fst (main unavailable (fun _ => Ok "") (fun _ => Ok "") false QUERIES initial) = Ok tt.
Proof.
  destruct (skipped_queries_are_not_run unavailable (fun _ => Ok "") (fun _ => Ok "")
              false QUERIES initial) as (Hskip & _ & Hrun & _).
  split.
  - apply (Hskip (List.last QUERIES no_query) initial). reflexivity.
  - apply Hrun. intros k req. eexists. split; [reflexivity|]. cbn. discriminate.
Defined.


(** ** Further properties of the benchmark runner *)

(** ** More on [parse_duration] *)

Lemma decimal_value_numeral (d : Decimal.uint) (acc : Z) :
  decimal_value acc (NilEmpty.string_of_uint d) = uint_value acc d.
Proof. revert acc. induction d; intros acc; cbn; try apply IHd; reflexivity. Qed.

Lemma all_decimal_numeral (d : Decimal.uint) :
  all_decimal (NilEmpty.string_of_uint d) = true.
Proof. induction d; cbn; auto. Qed.

Lemma of_uint_acc_value (d : Decimal.uint) (acc : positive) :
  Z.pos (Pos.of_uint_acc d acc) = uint_value (Z.pos acc) d.
Proof.
  revert acc. induction d; intros acc; cbn [Pos.of_uint_acc uint_value];
    try reflexivity; rewrite IHd; f_equal; lia.
Qed.

Lemma of_uint_value (d : Decimal.uint) : Z.of_N (N.of_uint d) = uint_value 0 d.
Proof.
  unfold N.of_uint. induction d; cbn [Pos.of_uint uint_value]; try reflexivity;
    try exact IHd; cbn [Z.of_N]; rewrite of_uint_acc_value; reflexivity.
Qed.

Lemma numeral_not_empty (n : N) : numeral n <> EmptyString.
Proof.
  unfold numeral. destruct n as [|p]; [discriminate|].
  cbn [N.to_uint]. pose proof (DecimalPos.Unsigned.to_uint_nonnil p) as H.
  destruct (Pos.to_uint p); [congruence | discriminate..].
Qed.

Lemma int_numeral (n : N) : PyStr.int (numeral n) = Ok (Z.of_N n).
Proof.
  rewrite int_all_decimal;
    [| apply all_decimal_numeral | apply numeral_not_empty].
  unfold numeral. rewrite decimal_value_numeral, <- of_uint_value.
  now rewrite DecimalN.Unsigned.of_to.
Qed.

(** Property X1. [parse_duration] reads back the decimal numeral of a
    natural number of at most 4300 digits (beyond which the interpreter, as
    it is set by default, refuses to convert a string to an integer): alone
    it gives the number (of seconds), followed by [s], [m], [h] or [d] it
    gives the number times 1, 60, 3600 or 86400. *)
Theorem parse_duration_numeral (n : N) :
  (n < 10 ^ 4300)%N ->
  parse_duration (numeral n) = Ok (Z.of_N n)
  /\ parse_duration (numeral n +:+ "s") = Ok (Z.of_N n)
  /\ parse_duration (numeral n +:+ "m") = Ok (Z.of_N n * 60)
  /\ parse_duration (numeral n +:+ "h") = Ok (Z.of_N n * 3600)
  /\ parse_duration (numeral n +:+ "d") = Ok (Z.of_N n * 86400).
Proof.
  intros _. split.
  - rewrite parse_duration_numeric;
      [| apply all_decimal_numeral | apply numeral_not_empty].
    rewrite <- int_numeral. symmetry. apply int_all_decimal;
      [apply all_decimal_numeral | apply numeral_not_empty].
  - pose proof (int_numeral n) as H.
    repeat split.
    + rewrite (parse_duration_suffix _ "s" _ H eq_refl).
      change (default 1 (units (PyStr.lower "s"))) with 1. now rewrite Z.mul_1_r.
    + apply (parse_duration_suffix _ "m" _ H eq_refl).
    + apply (parse_duration_suffix _ "h" _ H eq_refl).
    + apply (parse_duration_suffix _ "d" _ H eq_refl).
Qed.

Lemma parse_duration_numeral_witness :
  parse_duration (numeral 90) = Ok 90
  /\ parse_duration (numeral 90 +:+ "s") = Ok 90
  /\ parse_duration (numeral 90 +:+ "m") = Ok (90 * 60)
  /\ parse_duration (numeral 90 +:+ "h") = Ok (90 * 3600)
  /\ parse_duration (numeral 90 +:+ "d") = Ok (90 * 86400).
Proof. apply (parse_duration_numeral 90). vm_compute. reflexivity. Defined.

(** Property X2. The unit of a duration is read whatever its case: when
    [int] reads the prefix as [v] and the lower case of the last character
    is a unit of multiplier [mult], the duration is [v * mult] seconds. *)
Theorem parse_duration_unit_case (p : string) (v : Z) (c : ascii) (mult : Z) :
  PyStr.int p = Ok v ->
  units (PyStr.lower c) = Some mult ->
  parse_duration (p +:+ String c EmptyString) = Ok (v * mult).
Proof.
  intros Hint Hunit.
  rewrite (parse_duration_suffix p c v Hint (unit_not_digit c mult Hunit)).
  now rewrite Hunit.
Qed.

Lemma parse_duration_unit_case_witness : parse_duration "2H" = Ok (2 * 3600).
Proof. apply (parse_duration_unit_case "2" 2 "H" 3600); reflexivity. Defined.

(** Property X3. [parse_duration] does not catch the error of [int]: when
    the last character is not a digit and [int] raises on the prefix, that
    exception is what the caller gets; a unit without a number raises
    [ValueError], and the empty string raises [IndexError]. *)
Theorem parse_duration_raises (p : string) (c : ascii) (e : exn) :
  PyStr.isdigit c = false ->
  PyStr.int p = Raise e ->
  parse_duration (p +:+ String c EmptyString) = Raise e
  /\ parse_duration (String c EmptyString) = Raise ValueError
  /\ parse_duration EmptyString = Raise IndexError.
Proof.
  intros Hdig Hint. split; [|split; [|reflexivity]].
  - unfold parse_duration. rewrite last_snoc. cbn. rewrite Hdig, drop_last_snoc, Hint.
    reflexivity.
  - unfold parse_duration. cbn. rewrite Hdig. reflexivity.
Qed.

Lemma parse_duration_raises_witness : parse_duration "1.5h" = Raise ValueError.
Proof. apply (parse_duration_raises "1.5" "h" ValueError); reflexivity. Defined.

(** ** More on the percentiles *)

Lemma percentiles_empty : percentiles [] = Raise StatisticsError.
Proof. reflexivity. Qed.

(** Property X4. The percentiles are defined exactly on the non-empty
    sequences: they raise if and only if there is no latency, the exception
    is then [StatisticsError], and [summarize] raises it without printing
    anything. *)
Theorem percentiles_raise_iff_empty (latencies : list Q) :
  ((exists e, percentiles latencies = Raise e) <-> latencies = [])
  /\ (forall e, percentiles latencies = Raise e -> e = StatisticsError)
  /\ (forall name st, latencies = [] ->
        summarize name latencies st = (Raise StatisticsError, st)).
Proof.
  split; [split|split].
  - intros [e He]. destruct latencies as [|x l]; [reflexivity|].
    destruct (percentiles_defined (x :: l)) as (p50 & p95 & H & _); [discriminate|].
    congruence.
  - intros ->. exists StatisticsError. reflexivity.
  - intros e He. destruct latencies as [|x l]; [now injection He as <-|].
    destruct (percentiles_defined (x :: l)) as (p50 & p95 & H & _); [discriminate|].
    congruence.
  - intros name st ->. reflexivity.
Qed.

Lemma idx95_lower (n : nat) :
  (0 < n)%nat -> n <> 2%nat -> Z.of_nat n / 2 <= idx95 n.
Proof.
  intros Hn H2. destruct (idx95_floor n Hn) as [-> _].
  unfold Qfloor. cbn [Qmult Qnum Qden inject_Z].
  change (Z.pos (100 * 1)) with 100.
  apply Z.div_le_lower_bound; [lia|].
  pose proof (Z.mul_div_le (Z.of_nat n) 2 ltac:(lia)).
  destruct (Nat.eq_dec n 1%nat) as [->|]; [vm_compute; discriminate|]. lia.
Qed.

Lemma idx95_upper (n : nat) : (2 <= n)%nat -> idx95 n <= Z.of_nat n - 2.
Proof.
  intros Hn. destruct (idx95_floor n) as [-> _]; [lia|].
  unfold Qfloor. cbn [Qmult Qnum Qden inject_Z].
  change (Z.pos (100 * 1)) with 100.
  assert (95 * (Z.of_nat n - 1) / 100 < Z.of_nat n - 1); [|lia].
  apply Z.div_lt_upper_bound; lia.
Qed.

(** The median is at most the upper middle element of the sorted data. *)
Lemma median_le_upper_middle (data : list Q) :
  data <> [] ->
  exists m hi,
    median data = Ok m
    /\ sorted data !! Z.to_nat (Z.of_nat (length data) / 2) = Some hi
    /\ (m <= hi)%Q.
Proof.
  intros Hne. unfold median.
  pose proof (sorted_sorted data) as Hs. pose proof (sorted_length data) as Hl.
  rewrite <- Hl. set (s := sorted data) in *.
  assert (Hn : (0 < length s)%nat).
  { rewrite Hl. destruct data; [congruence | cbn; lia]. }
  destruct (Z.of_nat (length s) =? 0) eqn:E0; [apply Z.eqb_eq in E0; lia|].
  destruct (index_lookup s (Z.of_nat (length s) / 2)) as (hi & Hhi & Hlk).
  { split; [apply Z.div_pos; lia | apply Z.div_lt_upper_bound; lia]. }
  destruct (Z.of_nat (length s) mod 2 =? 1) eqn:E1.
  - exists hi, hi. split; [exact Hhi|]. split; [exact Hlk | apply Qle_refl].
  - apply Z.eqb_neq in E1.
    assert (Hk : Z.of_nat (length s) = 2 * (Z.of_nat (length s) / 2)).
    { pose proof (Z.mod_pos_bound (Z.of_nat (length s)) 2).
      rewrite (Z.div_mod (Z.of_nat (length s)) 2) at 1 by lia. lia. }
    destruct (index_lookup s (Z.of_nat (length s) / 2 - 1)) as (lo & Hlo & Hlk1); [lia|].
    rewrite Hlo, Hhi. cbn.
    exists ((lo + hi) / 2)%Q, hi. split; [reflexivity|]. split; [exact Hlk|].
    assert (Hlh : (lo <= hi)%Q).
    { eapply (strongly_sorted_lookup s (Z.to_nat (Z.of_nat (length s) / 2 - 1))
                (Z.to_nat (Z.of_nat (length s) / 2))); try eassumption. lia. }
    apply Qle_shift_div_r; [reflexivity|]. lra.
Qed.

(** Property X5. Except for sequences of exactly two latencies, the
    reported p50 is at most the reported p95. *)
Theorem p50_le_p95 (latencies : list Q) (p50 p95 : Q) :
  length latencies <> 2%nat ->
  percentiles latencies = Ok (p50, p95) ->
  (p50 <= p95)%Q.
Proof.
  intros H2 Hperc.
  assert (Hne : latencies <> []) by (intros ->; discriminate Hperc).
  destruct (median_le_upper_middle latencies Hne) as (m & hi & Hm & Hhi & Hle).
  destruct (percentiles_defined latencies Hne) as (p50' & p95' & Hperc' & _ & Hlk).
  rewrite Hperc in Hperc'. injection Hperc' as <- <-.
  assert (p50 = m).
  { unfold percentiles in Hperc. rewrite Hm in Hperc. cbn in Hperc.
    destruct (index _ _); cbn in Hperc; congruence. }
  subst m. eapply Qle_trans; [exact Hle|].
  assert (Hn : (0 < length latencies)%nat) by (destruct latencies; [congruence | cbn; lia]).
  pose proof (idx95_lower (length latencies) Hn H2).
  eapply (strongly_sorted_lookup (sorted latencies)); [apply sorted_sorted | | eassumption..].
  apply Z2Nat.inj_le; [apply Z.div_pos; lia | | assumption].
  apply (idx95_floor _ Hn).
Qed.

Lemma p50_le_p95_witness : (30 <= 40)%Q.
Proof.
  apply (p50_le_p95 [10; 20; 30; 40; 50]%Q); [discriminate | reflexivity].
Defined.

(** With two observations the order is reversed: [p95] is the smaller one. *)
Lemma p95_of_two : percentiles [1; 3]%Q = Ok (4 # 2, 1)%Q.
Proof. reflexivity. Qed.

(** Property X6. The reported p95 is one of the observed latencies; at
    least [idx95 + 1] observations are at most as large, and, with two
    observations or more, at least two are at least as large: the slowest
    observation is never the one reported alone. *)
Theorem p95_is_observed (latencies : list Q) (p50 p95 : Q) :
  percentiles latencies = Ok (p50, p95) ->
  In p95 latencies
  /\ (Z.to_nat (idx95 (length latencies)) + 1 <= count_le p95 latencies)%nat
  /\ ((2 <= length latencies)%nat -> (2 <= count_ge p95 latencies)%nat).
Proof.
  intros Hperc.
  assert (Hne : latencies <> []) by (intros ->; discriminate Hperc).
  destruct (percentiles_defined latencies Hne) as (p50' & p95' & Hperc' & _ & Hlk).
  rewrite Hperc in Hperc'. injection Hperc' as <- <-.
  assert (Hn : (0 < length latencies)%nat) by (destruct latencies; [congruence | cbn; lia]).
  pose proof (sorted_perm latencies) as Hp. pose proof (sorted_sorted latencies) as Hs.
  pose proof (sorted_length latencies) as Hl.
  destruct (idx95_floor _ Hn) as [_ Hrange].
  split; [|split].
  - eapply Permutation_in; [exact Hp|]. apply list_elem_of_In.
    eapply list_elem_of_lookup_2. exact Hlk.
  - unfold count_le. rewrite <- (filter_length_perm _ _ _ Hp).
    apply (count_le_prefix p95 (sorted latencies)); [|lia].
    intros i a Hi Ha. eapply strongly_sorted_lookup; eassumption.
  - intros H2. pose proof (idx95_upper _ H2).
    unfold count_ge. rewrite <- (filter_length_perm _ _ _ Hp).
    pose proof (count_ge_suffix p95 (sorted latencies) (Z.to_nat (idx95 (length latencies))))
      as Hc.
    unfold count_ge in Hc.
    assert (length (sorted latencies) - Z.to_nat (idx95 (length latencies))
            <= length (List.filter (fun x => Qle_bool p95 x) (sorted latencies)))%nat; [|lia].
    apply Hc. intros i a Hi Ha. eapply strongly_sorted_lookup; eassumption.
Qed.

Lemma p95_is_observed_witness : In 40%Q [10; 20; 30; 40; 50]%Q.
Proof. apply (p95_is_observed [10; 20; 30; 40; 50]%Q 30 40). reflexivity. Defined.

(** ** More on the batches *)

(** Property X7. For a query with a range and a step, a range that
    [parse_duration] refuses ends the batch of [bench_prom] with that
    exception before anything is read or sent (the state is unchanged); a
    range of more seconds than a float can hold ends it with
    [OverflowError] after one reading of the clock; with a range that a
    float can hold, a step that [parse_duration] refuses ends it with that
    exception after one reading of the clock. In all three cases no call is
    made. *)
Theorem bench_prom_bad_range (w : world) (q : query) (rd s : string) (e : exn) (st : state) :
  range_duration q = Some rd ->
  step q = Some s ->
  (parse_duration rd = Raise e -> bench_prom w q st = (Raise e, st))
  /\ (forall d, parse_duration rd = Ok d -> PyFloat.INT_LIMIT <= Z.abs d ->
      bench_prom w q st
      = (Raise OverflowError,
         {| clock_reads := S (clock_reads st); http_calls := http_calls st;
            trace := trace st |}))
  /\ (forall d, parse_duration rd = Ok d -> Z.abs d < PyFloat.INT_LIMIT ->
      parse_duration s = Raise e ->
      bench_prom w q st
      = (Raise e, {| clock_reads := S (clock_reads st); http_calls := http_calls st;
                     trace := trace st |})).
Proof.
  intros Hrd Hs. unfold bench_prom. rewrite Hrd, Hs.
  change (seq 0 NUM_RUNS) with (0%nat :: seq 1 4). cbn [for_each].
  split; [|split].
  - intros Hparse. apply bind_raise. unfold bench_prom_iter.
    apply bind_raise. unfold prom_request. cbn. rewrite Hrd. run_step.
    now rewrite Hparse.
  - intros d Hparse Hbig. apply bind_raise. unfold bench_prom_iter.
    apply bind_raise. unfold prom_request. cbn. rewrite Hrd, Hs. run_step.
    rewrite Hparse. cbn. now rewrite (of_int_overflow d Hbig).
  - intros d Hparse Hlim Hstep. apply bind_raise. unfold bench_prom_iter.
    apply bind_raise. unfold prom_request. cbn. rewrite Hrd, Hs. run_step.
    rewrite Hparse. cbn. rewrite (of_int_ok d Hlim). cbn. now rewrite Hstep.
Qed.

Lemma bench_prom_bad_range_witness :
  bench_prom unavailable
    {| name := "bad"; skip := None; promql := "up"; range_duration := Some "1 hour";
       step := Some "5m"; esql := "TS x" |} initial
  = (Raise ValueError, initial).
Proof.
  apply (bench_prom_bad_range unavailable _ "1 hour" "5m" ValueError initial);
    reflexivity.
Defined.

Section Sends.
Variable P : request -> Prop.

Lemma sends_ret {A} (a : A) : sends P (mret a).
Proof using Type. intros st. exists []. cbn. now rewrite app_nil_r. Qed.

Lemma sends_lift {A} (r : result A) : sends P (lift r).
Proof using Type. intros st. exists []. cbn. now rewrite app_nil_r. Qed.

Lemma sends_print (m : message) : sends P (print m).
Proof using Type. intros st. exists [Print m]. split; [reflexivity|]. now repeat constructor. Qed.

Lemma sends_sleep (s : Q) : sends P (sleep s).
Proof using Type. intros st. exists [Sleep s]. split; [reflexivity|]. now repeat constructor. Qed.

Lemma sends_now (w : world) : sends P (now w).
Proof using Type. intros st. exists []. cbn. now rewrite app_nil_r. Qed.

Lemma sends_send (w : world) (req : request) : P req -> sends P (send w req).
Proof using Type.
  intros H st. exists [Call req]. split; [reflexivity|]. now repeat constructor.
Qed.

Lemma sends_bind_post {A B} (m : M state A) (k : A -> M state B) (R : A -> Prop) :
  sends P m -> returns m R -> (forall a, R a -> sends P (k a)) -> sends P (m ≫= k).
Proof using Type.
  intros Hm HR Hk st. destruct (Hm st) as (evs1 & Ht1 & Hf1).
  specialize (HR st). unfold mbind, M_bind.
  destruct (m st) as [[a|e] st1]; cbn in *.
  - destruct (Hk a (HR a eq_refl) st1) as (evs2 & Ht2 & Hf2).
    exists (evs1 ++ evs2). rewrite Ht2, Ht1, app_assoc. split; [reflexivity|].
    now apply Forall_app.
  - now exists evs1.
Qed.

Lemma sends_bind {A B} (m : M state A) (k : A -> M state B) :
  sends P m -> (forall a, sends P (k a)) -> sends P (m ≫= k).
Proof using Type.
  intros Hm Hk. apply (sends_bind_post m k (fun _ => True)); auto. now intros st a _.
Qed.

Lemma sends_for_each {A L} (xs : list A) (body : A -> L -> M state L) (acc : L) :
  (forall x acc, sends P (body x acc)) -> sends P (for_each xs body acc).
Proof using Type.
  intros Hbody. revert acc. induction xs as [|x xs IH]; intros acc; cbn [for_each].
  - apply sends_ret.
  - apply sends_bind; [apply Hbody | intros a; apply IH].
Qed.

End Sends.

Ltac sends_step :=
  lazymatch goal with
  | |- sends _ (mret _) => apply sends_ret
  | |- sends _ (lift _) => apply sends_lift
  | |- sends _ (print _) => apply sends_print
  | |- sends _ (sleep _) => apply sends_sleep
  | |- sends _ (now _) => apply sends_now
  | |- sends _ (_ ≫= _) => apply sends_bind; [| intros ?]
  | |- sends _ (if ?b then _ else _) => destruct b
  end.

Lemma prom_request_returns (w : world) (q : query) :
  returns (prom_request w q
             (bool_decide (is_Some (range_duration q)) && bool_decide (is_Some (step q)))
             (if bool_decide (is_Some (range_duration q)) && bool_decide (is_Some (step q))
              then 120 else 15))
          (prom_request_ok q).
Proof.
  intros st req. unfold prom_request, prom_request_ok.
  destruct (range_duration q) as [rd|], (step q) as [s|]; cbn.
  - run_step. destruct (parse_duration rd) as [d|e] eqn:Hd; cbn; [|discriminate].
    destruct (PyFloat.of_int d) as [x|e] eqn:Hx; cbn; [|discriminate].
    assert (x = inject_Z d) as ->.
    { unfold PyFloat.of_int in Hx. destruct (Z.abs d <? PyFloat.INT_LIMIT); congruence. }
    destruct (parse_duration s) as [n|e] eqn:Hn; cbn; [|discriminate].
    intros [= <-]. eexists _, _, d, n. repeat split; try reflexivity. ring.
  - run_step. intros [= <-]. eexists. reflexivity.
  - run_step. intros [= <-]. eexists. reflexivity.
  - run_step. intros [= <-]. eexists. reflexivity.
Qed.

(** Property X8. Every call of a batch is the one its query prescribes.
    [bench_prom] only sends, for a query with a range and a step, range
    queries of its PromQL text over a window of the parsed range, with the
    parsed step and a timeout of 120 seconds, and otherwise instant queries
    with a timeout of 15 seconds; [bench_esql] only sends the ES|QL text of
    the query, with a timeout of 120 seconds when the query has a range and
    of 15 seconds otherwise. *)
Theorem bench_requests (w : world) (q : query) :
  sends (prom_request_ok q) (bench_prom w q)
  /\ sends (esql_request_ok q) (bench_esql w q).
Proof.
  split.
  - unfold bench_prom. apply sends_for_each. intros i [lats fr].
    unfold bench_prom_iter.
    apply (sends_bind_post _ _ _ (prom_request_ok q)).
    + unfold prom_request. repeat sends_step.
    + apply prom_request_returns.
    + intros req Hreq. apply sends_bind; [apply sends_now|]. intros t0.
      apply sends_bind; [now apply sends_send|]. intros r. repeat sends_step.
  - unfold bench_esql. apply sends_for_each. intros i [lats fr].
    unfold bench_esql_iter.
    apply sends_bind; [apply sends_now|]. intros t0.
    apply sends_bind; [apply sends_send|].
    + reflexivity.
    + intros r. repeat sends_step.
Qed.






(** ** The calls of a run *)

Lemma calls_repeat_call (text : string) (n : nat) : calls (repeat (MCall text) n) = n.
Proof. unfold calls. induction n as [|n IH]; cbn; [reflexivity | now rewrite IH]. Qed.

Lemma calls_expected (catalogue : list query) :
  calls (flat_map expected catalogue) = (2 * NUM_RUNS * run_queries catalogue)%nat.
Proof.
  unfold run_queries. induction catalogue as [|q rest IH]; [reflexivity|].
  cbn [flat_map List.filter]. rewrite calls_app, IH. unfold expected.
  destruct (skipped q); cbn [negb length].
  - change (calls [MHeader (name q); MSkipping]) with 0%nat. lia.
  - rewrite !calls_app, !calls_repeat_call.
    change (calls [MHeader (name q)]) with 0%nat.
    change (calls [MSummary "Prometheus"; MSummary "Elasticsearch ES|QL"]) with 0%nat.
    lia.
Qed.

Lemma calls_prefix (ms1 ms2 : list mark) : ms1 `prefix_of` ms2 -> (calls ms1 <= calls ms2)%nat.
Proof. intros [k ->]. rewrite calls_app. lia. Qed.

(** Property X10. A run over a catalogue never makes more than
    [2 * NUM_RUNS] calls per query that is not skipped, and makes exactly
    that many when it ends normally. *)
Theorem run_call_count (w : world)
    (format_prom_result format_es_result : option json -> result string)
    (PRINT_RESULTS : bool) (catalogue : list query) (st : state) :
  (http_calls (snd (main w format_prom_result format_es_result PRINT_RESULTS catalogue st))
   <= http_calls st + 2 * NUM_RUNS * run_queries catalogue)%nat
  /\ (fst (main w format_prom_result format_es_result PRINT_RESULTS catalogue st) = Ok tt ->
      http_calls (snd (main w format_prom_result format_es_result PRINT_RESULTS catalogue st))
      = (http_calls st + 2 * NUM_RUNS * run_queries catalogue)%nat).
Proof.
  destruct (leaves_main w format_prom_result format_es_result PRINT_RESULTS catalogue st)
    as (evs & _ & Hc & Hp & Hok).
  rewrite Hc, <- calls_expected. split.
  - apply calls_prefix in Hp. lia.
  - intros H. now rewrite (Hok tt H).
Qed.

Lemma run_call_count_witness :
  http_calls (snd (main unavailable (fun _ => Ok "") (fun _ => Ok "") false QUERIES initial))
  = (http_calls initial + 2 * NUM_RUNS * run_queries QUERIES)%nat.
Proof.
  apply (run_call_count unavailable (fun _ => Ok "") (fun _ => Ok "") false QUERIES initial).
  vm_compute. reflexivity.
Defined.

Lemma percentiles_raise_iff_empty_witness :
  summarize "Prometheus" [] initial = (Raise StatisticsError, initial).
Proof.
  destruct (percentiles_raise_iff_empty []) as (_ & _ & H).
  apply H. reflexivity.
Defined.


End BenchFacts.

(** * Properties of the generator *)

Module GenFacts.
Import Gen GenSpec.

(** ** The label space *)

Lemma length_range (n : Z) : length (range n) = Z.to_nat n.
Proof. unfold range. now rewrite length_map, length_seq. Qed.

Lemma NoDup_range (n : Z) : NoDup (range n).
Proof.
  unfold range. change (NoDup (Z.of_nat <$> seq 0 (Z.to_nat n))).
  apply (NoDup_fmap_2 Z.of_nat), NoDup_seq.
Qed.

Lemma elem_of_range (n i : Z) : i ∈ range n -> 0 <= i.
Proof.
  unfold range. change (i ∈ Z.of_nat <$> seq 0 (Z.to_nat n) -> 0 <= i).
  intros (k & -> & _)%list_elem_of_fmap. lia.
Qed.

Lemma length_slice_to {A} (l : list A) (n : Z) :
  0 <= n -> length (slice_to l n) = Nat.min (Z.to_nat n) (length l).
Proof.
  intros Hn. unfold slice_to.
  destruct (n <? 0) eqn:E; [apply Z.ltb_lt in E; lia|]. apply length_take.
Qed.

Lemma NoDup_slice_to {A} (l : list A) (n : Z) : NoDup l -> NoDup (slice_to l n).
Proof. intros H. unfold slice_to. eapply sublist_NoDup; [exact H | apply sublist_take]. Qed.

Lemma NoDup_STATUS_CODES (cfg : config) : NoDup (STATUS_CODES cfg).
Proof. apply NoDup_slice_to. now apply (bool_decide_unpack _). Qed.

Lemma NoDup_METHODS (cfg : config) : NoDup (METHODS cfg).
Proof. apply NoDup_slice_to. now apply (bool_decide_unpack _). Qed.

Lemma zeros_S (k : nat) (s : string) : zeros (S k) +:+ s = String "0" (zeros k +:+ s).
Proof.
  unfold zeros. cbn [replicate String.concat].
  destruct (replicate k "0") eqn:E; [|reflexivity].
  destruct k; [reflexivity | discriminate].
Qed.

Lemma zeros_uint (k : nat) (d : Decimal.uint) :
  zeros k +:+ NilEmpty.string_of_uint d = NilEmpty.string_of_uint (Nat.iter k Decimal.D0 d).
Proof.
  induction k as [|k IH]; [reflexivity|].
  rewrite zeros_S, IH. reflexivity.
Qed.

Lemma of_uint_zeros (k : nat) (d : Decimal.uint) :
  N.of_uint (Nat.iter k Decimal.D0 d) = N.of_uint d.
Proof. induction k as [|k IH]; [reflexivity | exact IH]. Qed.

Lemma read_back_format (i : Z) :
  0 <= i -> read_back (format_05d i) = Some (Z.to_N i).
Proof.
  intros Hi. unfold format_05d, zfill.
  destruct (i <? 0) eqn:E; [apply Z.ltb_lt in E; lia|].
  fold (zeros (5 - String.length (NilEmpty.string_of_uint (N.to_uint (Z.abs_N i))))).
  rewrite zeros_uint. unfold read_back. rewrite NilEmpty.usu. cbn [option_map].
  rewrite of_uint_zeros, DecimalN.Unsigned.of_to. f_equal. lia.
Qed.

Lemma format_05d_inj (i j : Z) :
  0 <= i -> 0 <= j -> format_05d i = format_05d j -> i = j.
Proof.
  intros Hi Hj E.
  pose proof (read_back_format i Hi) as Ri. pose proof (read_back_format j Hj) as Rj.
  rewrite E, Rj in Ri. injection Ri as Ri. lia.
Qed.

Lemma length_bind_const {A B} (f : A -> list B) (l : list A) (c : nat) :
  (forall x, length (f x) = c) -> length (l ≫= f) = (length l * c)%nat.
Proof.
  intros Hf. induction l as [|x l IH]; [reflexivity|].
  rewrite bind_cons, length_app, Hf, IH. cbn. lia.
Qed.

(** The number of label sets: the product of the sizes of the domains. *)
Lemma length_generate_series (cfg : config) :
  length (generate_series cfg)
  = (length (range (NUM_INSTANCES cfg)) * (length (STATUS_CODES cfg) * length (METHODS cfg)))%nat.
Proof.
  unfold generate_series. apply length_bind_const. intros i.
  apply length_bind_const. intros sc.
  rewrite (length_bind_const _ _ 1%nat); [lia | reflexivity].
Qed.

Lemma NoDup_generate_series (cfg : config) : NoDup (generate_series cfg).
Proof.
  unfold generate_series. apply NoDup_bind; [| |apply NoDup_range].
  - intros i j l Hi Hj
      (sc & (m & ->%list_elem_of_singleton & _)%list_elem_of_bind & _)%list_elem_of_bind
      (sc' & (m' & E%list_elem_of_singleton & _)%list_elem_of_bind & _)%list_elem_of_bind.
    injection E as E _ _.
    apply format_05d_inj; [eapply elem_of_range; eassumption..|].
    exact E.
  - intros i _. apply NoDup_bind; [| |apply NoDup_STATUS_CODES].
    + intros sc sc' l _ _
        (m & ->%list_elem_of_singleton & _)%list_elem_of_bind
        (m' & E%list_elem_of_singleton & _)%list_elem_of_bind.
      now injection E.
    + intros sc _. apply NoDup_bind; [| |apply NoDup_METHODS].
      * intros m m' l _ _ ->%list_elem_of_singleton E%list_elem_of_singleton.
        now injection E.
      * intros m _. apply NoDup_singleton.
Qed.


Lemma generate_series_count (cfg : config) :
  0 <= NUM_INSTANCES cfg -> 0 <= NUM_STATUS_CODES cfg -> 0 <= NUM_METHODS cfg ->
  Z.of_nat (length (generate_series cfg))
  = NUM_INSTANCES cfg * Z.min (NUM_STATUS_CODES cfg) 5 * Z.min (NUM_METHODS cfg) 2.
Proof.
  intros Hi Hs Hm. rewrite length_generate_series, length_range.
  unfold STATUS_CODES, METHODS. rewrite !length_slice_to by assumption.
  cbn [length]. lia.
Qed.

(** Outside the counts: a negative count of status codes or methods slices
    from the end of the list, a negative count of instances gives none. *)
Lemma negative_counts :
  slice_to ["200"; "500"; "400"; "404"; "502"] (-1) = ["200"; "500"; "400"; "404"]
  /\ slice_to ["GET"; "POST"] (-5) = [] /\ range (-3) = [].
Proof. repeat split; reflexivity. Qed.

(** Claim C9, as amended. The status codes and the methods are prefixes of
    two fixed lists of five and two elements, so the configured counts are
    capped: for counts that are not negative, of which that of the status
    codes exceeds 5 or that of the methods exceeds 2, [generate_series]
    yields [NUM_INSTANCES * min(NUM_STATUS_CODES, 5) * min(NUM_METHODS, 2)]
    label sets, which is less than the product of the configured counts
    when all three are positive. *)
Theorem dimensions_are_capped (cfg : config) :
  0 <= NUM_INSTANCES cfg -> 0 <= NUM_STATUS_CODES cfg -> 0 <= NUM_METHODS cfg ->
  5 < NUM_STATUS_CODES cfg \/ 2 < NUM_METHODS cfg ->
  Z.of_nat (length (generate_series cfg))
  = NUM_INSTANCES cfg * Z.min (NUM_STATUS_CODES cfg) 5 * Z.min (NUM_METHODS cfg) 2
  /\ (5 < NUM_STATUS_CODES cfg -> STATUS_CODES cfg = ["200"; "500"; "400"; "404"; "502"])
  /\ (2 < NUM_METHODS cfg -> METHODS cfg = ["GET"; "POST"])
  /\ (0 < NUM_INSTANCES cfg -> 0 < NUM_STATUS_CODES cfg -> 0 < NUM_METHODS cfg ->
      Z.of_nat (length (generate_series cfg))
      < NUM_INSTANCES cfg * NUM_STATUS_CODES cfg * NUM_METHODS cfg).
Proof.
  intros Hi Hs Hm Hcap. split; [now apply generate_series_count|].
  split; [|split].
  - intros H. unfold STATUS_CODES, slice_to.
    destruct (NUM_STATUS_CODES cfg <? 0) eqn:E; [apply Z.ltb_lt in E; lia|].
    apply take_ge. cbn. lia.
  - intros H. unfold METHODS, slice_to.
    destruct (NUM_METHODS cfg <? 0) eqn:E; [apply Z.ltb_lt in E; lia|].
    apply take_ge. cbn. lia.
  - intros Hi' Hs' Hm'. rewrite generate_series_count by assumption.
    destruct Hcap as [H | H].
    + rewrite (Z.min_r _ 5) by lia.
      apply Z.le_lt_trans with (NUM_INSTANCES cfg * 5 * NUM_METHODS cfg); [|nia].
      apply Z.mul_le_mono_nonneg_l; lia.
    + rewrite (Z.min_r _ 2) by lia.
      apply Z.le_lt_trans with (NUM_INSTANCES cfg * NUM_STATUS_CODES cfg * 2); [|nia].
      apply Z.mul_le_mono_nonneg_r; [lia|]. apply Z.mul_le_mono_nonneg_l; lia.
Qed.

Lemma dimensions_are_capped_witness :
  Z.of_nat (length (generate_series over_configured)) = 1 * Z.min 6 5 * Z.min 1 2.
Proof.
  apply (dimensions_are_capped over_configured); cbn; lia.
Defined.

(** Claim C9 does not hold for every configuration with more than two
    methods: with two instances, three methods and a count of status codes
    of -3, which the slice reads from the end of the list, eight label sets
    are generated, where the formula of the claim gives -12. *)
Lemma negative_count_is_not_capped :
  (5 < NUM_STATUS_CODES negative_status_count \/ 2 < NUM_METHODS negative_status_count)
  /\ Z.of_nat (length (generate_series negative_status_count)) = 8
  /\ NUM_INSTANCES negative_status_count
     * Z.min (NUM_STATUS_CODES negative_status_count) 5
     * Z.min (NUM_METHODS negative_status_count) 2 = -12.
Proof. split; [right; reflexivity|]. split; reflexivity. Qed.

(** Claim C1 does not hold for every configured count: with one instance,
    six status codes and one method configured, five label sets are
    generated, not six. *)
Lemma six_status_codes_yield_five :
  Z.of_nat (length (generate_series over_configured)) = 5
  /\ Z.of_nat (length (generate_series over_configured))
     <> NUM_INSTANCES over_configured * NUM_STATUS_CODES over_configured
        * NUM_METHODS over_configured.
Proof. split; [reflexivity | discriminate]. Qed.

(** ** The synthetic value *)

Lemma max_Qmax (a b : Q) : (Gen.max a b == Qmax a b)%Q.
Proof.
  unfold Gen.max. destruct (Qle_bool b a) eqn:E.
  - apply Qle_bool_iff in E. symmetry. now apply Q.max_l.
  - assert (H : (a <= b)%Q).
    { destruct (Qlt_le_dec a b) as [H|H]; [now apply Qlt_le_weak|].
      apply Qle_bool_iff in H. congruence. }
    symmetry. now apply Q.max_r.
Qed.

(** Claim C6. For every label set and every draw of the noise in
    [[-10, 10]], the value of the sample is [max(0, 100 * factor + noise)],
    with the factor 1 for the status code "200" and 0.05 for any other; so it
    is never negative, it is [100 + noise], within 10 of 100, for the status
    "200", and [max(0, 5 + noise)], within 10 of 5, for any other status. *)
Theorem compute_value_spec (l : labels) (noise : Q) :
  (-10 <= noise)%Q -> (noise <= 10)%Q ->
  (compute_value l noise == Qmax 0 (100 * factor l + noise))%Q
  /\ (0 <= compute_value l noise)%Q
  /\ (status_code l = "200" ->
      (compute_value l noise == 100 + noise)%Q
      /\ (100 - 10 <= compute_value l noise)%Q /\ (compute_value l noise <= 100 + 10)%Q)
  /\ (status_code l <> "200" ->
      (compute_value l noise == Qmax 0 (5 + noise))%Q
      /\ (5 - 10 <= compute_value l noise)%Q /\ (compute_value l noise <= 5 + 10)%Q).
Proof.
  intros Hlo Hhi.
  assert (Hmax : (compute_value l noise == Qmax 0 (100 * factor l + noise))%Q).
  { unfold compute_value, factor. apply max_Qmax. }
  assert (Hpos : (0 <= compute_value l noise)%Q).
  { rewrite Hmax. apply Q.le_max_l. }
  split; [exact Hmax|]. split; [exact Hpos|]. split.
  - intros H200. unfold factor in Hmax. rewrite H200 in Hmax. cbn in Hmax.
    assert (E : (compute_value l noise == 100 + noise)%Q).
    { rewrite Hmax, Q.max_r; [ring | lra]. }
    split; [exact E|]. rewrite E. split; lra.
  - intros Hne. unfold factor in Hmax.
    apply String.eqb_neq in Hne. rewrite Hne in Hmax.
    assert (E : (compute_value l noise == Qmax 0 (5 + noise))%Q).
    { rewrite Hmax. apply Q.max_compat; [reflexivity | ring]. }
    split; [exact E|]. split; [lra|].
    rewrite E. apply Q.max_lub; lra.
Qed.

Lemma compute_value_spec_witness :
  (0 <= compute_value {| job := "demo"; instance := "inst-00000";
                         status_code := "500"; method := "GET" |} (-7))%Q.
Proof.
  apply (compute_value_spec _ (-7)); [discriminate | discriminate].
Defined.

(** The value is non-negative whatever the draw. *)
Lemma compute_value_nonneg (l : labels) (noise : Q) : (0 <= compute_value l noise)%Q.
Proof. unfold compute_value. rewrite max_Qmax. apply Q.le_max_l. Qed.


(** ** One tick of the generator *)

Lemma sweep_labels (w : world) (d : nat) (series : list labels) :
  map fst (sweep w d series) = series.
Proof. revert d. induction series as [|l rest IH]; intros d; cbn; [|rewrite IH]; reflexivity. Qed.

Lemma sweep_length (w : world) (d : nat) (series : list labels) :
  length (sweep w d series) = length series.
Proof. rewrite <- (sweep_labels w d series) at 2. now rewrite length_map. Qed.

Lemma build_loop (w : world) (float_repr : Q -> string) (ts : string)
    (series : list labels) (lines : list string) (st : state) :
  for_each series (build_iter w float_repr ts) lines st
  = (Ok (lines ++ flat_map (pair_of float_repr ts) (sweep w (draws st) series)),
     {| clock_reads := clock_reads st; http_calls := http_calls st;
        draws := draws st + length series; date_reads := date_reads st;
        http_qps := gauge_after (http_qps st) (sweep w (draws st) series);
        trace := trace st ++ map gauge_update (sweep w (draws st) series) |}).
Proof.
  revert lines st. induction series as [|l rest IH]; intros lines st.
  - cbn. rewrite !app_nil_r, Nat.add_0_r. now destruct st.
  - cbn [for_each sweep].
    set (v := compute_value l (uniform w (draws st))).
    assert (Hiter : build_iter w float_repr ts l lines st
                    = (Ok ((lines ++ [Json.dumps float_repr action])
                           ++ [Json.dumps float_repr (doc ts v l)]),
                       {| clock_reads := clock_reads st; http_calls := http_calls st;
                          draws := S (draws st); date_reads := date_reads st;
                          http_qps := <[key_of l := v]> (http_qps st);
                          trace := trace st ++ [GaugeSet (key_of l) v] |}))
      by reflexivity.
    rewrite (bind_ok _ _ _ _ _ Hiter), IH.
    cbn [flat_map map length clock_reads http_calls draws date_reads http_qps trace
         gauge_after foldl fst snd].
    f_equal.
    + f_equal. rewrite <- !app_assoc. reflexivity.
    + f_equal; [lia | rewrite <- app_assoc; reflexivity].
Qed.

Lemma no_newline_app (s t : string) :
  no_newline (s +:+ t) = no_newline s && no_newline t.
Proof.
  induction s as [|c s IH]; [reflexivity|].
  change (String c s +:+ t) with (String c (s +:+ t)).
  cbn [no_newline]. now rewrite IH, andb_assoc.
Qed.

Lemma no_newline_escape_char (c : ascii) : no_newline (Json.escape_char c) = true.
Proof. destruct c as [[] [] [] [] [] [] [] []]; reflexivity. Qed.

Lemma no_newline_escape (s : string) : no_newline (Json.escape s) = true.
Proof.
  induction s as [|c s IH]; [reflexivity|].
  change (Json.escape (String c s)) with (Json.escape_char c +:+ Json.escape s).
  now rewrite no_newline_app, no_newline_escape_char, IH.
Qed.

Lemma no_newline_dumps_str (s : string) : no_newline (Json.dumps_str s) = true.
Proof.
  unfold Json.dumps_str. now rewrite !no_newline_app, no_newline_escape.
Qed.

Lemma no_newline_pair (float_repr : Q -> string) (ts : string) (lv : labels * Q) :
  (forall x, no_newline (float_repr x) = true) ->
  Forall (fun line => no_newline line = true) (pair_of float_repr ts lv).
Proof.
  intros Hrepr. unfold pair_of. repeat constructor.
  cbn [Json.dumps doc map String.concat fst snd].
  rewrite !no_newline_app, !no_newline_dumps_str, Hrepr. reflexivity.
Qed.

Lemma key_of_inj (l l' : labels) : key_of l = key_of l' -> l = l'.
Proof. destruct l, l'. unfold key_of. cbn. now intros [= -> -> -> ->]. Qed.

Lemma NoDup_keys (cfg : config) : NoDup (map key_of (generate_series cfg)).
Proof.
  change (NoDup (key_of <$> generate_series cfg)).
  apply NoDup_fmap_2_strong; [|apply NoDup_generate_series].
  intros l l' _ _. apply key_of_inj.
Qed.

Lemma gauge_after_other (g : gmap key Q) (samples : list (labels * Q)) (k : key) :
  k ∉ map (fun lv => key_of lv.1) samples -> gauge_after g samples !! k = g !! k.
Proof.
  revert g. induction samples as [|[l v] rest IH]; intros g Hk; [reflexivity|].
  cbn in Hk. apply not_elem_of_cons in Hk as [Hne Hk].
  cbn [gauge_after foldl]. fold (gauge_after (<[key_of l := v]> g) rest).
  rewrite IH by exact Hk. now apply lookup_insert_ne.
Qed.

Lemma gauge_after_sample (g : gmap key Q) (samples : list (labels * Q)) (l : labels) (v : Q) :
  NoDup (map (fun lv => key_of lv.1) samples) -> (l, v) ∈ samples ->
  gauge_after g samples !! key_of l = Some v.
Proof.
  revert g. induction samples as [|[l' v'] rest IH]; intros g Hnd Hin.
  - now apply elem_of_nil in Hin.
  - cbn in Hnd. apply NoDup_cons in Hnd as [Hfresh Hnd].
    cbn [gauge_after foldl]. fold (gauge_after (<[key_of l' := v']> g) rest).
    apply elem_of_cons in Hin as [[= -> ->] | Hin].
    + rewrite gauge_after_other by exact Hfresh. apply lookup_insert_eq.
    + now apply IH.
Qed.

Lemma sweep_keys (w : world) (d : nat) (series : list labels) :
  map (fun lv => key_of lv.1) (sweep w d series) = map key_of series.
Proof.
  rewrite <- (sweep_labels w d series) at 2. now rewrite map_map.
Qed.

Lemma no_newline_pairs (float_repr : Q -> string) (ts : string)
    (samples : list (labels * Q)) :
  (forall x, no_newline (float_repr x) = true) ->
  Forall (fun line => no_newline line = true) (flat_map (pair_of float_repr ts) samples).
Proof.
  intros Hrepr. induction samples as [|lv rest IH]; [constructor|].
  cbn [flat_map]. apply Forall_app. split; [now apply no_newline_pair | exact IH].
Qed.

Lemma length_flat_map_pairs (float_repr : Q -> string) (ts : string)
    (samples : list (labels * Q)) :
  length (flat_map (pair_of float_repr ts) samples) = (2 * length samples)%nat.
Proof. induction samples as [|lv rest IH]; cbn; [reflexivity | rewrite IH; lia]. Qed.

(** *** The text of the lines *)

Lemma string_app_assoc (a b c : string) : (a +:+ b) +:+ c = a +:+ b +:+ c.
Proof.
  induction a as [|x a IH]; [reflexivity|].
  change ((String x a +:+ b) +:+ c) with (String x ((a +:+ b) +:+ c)).
  now rewrite IH.
Qed.

Lemma plain_app (s t : string) : plain (s +:+ t) = plain s && plain t.
Proof.
  induction s as [|c s IH]; [reflexivity|].
  change (String c s +:+ t) with (String c (s +:+ t)).
  cbn [plain]. now rewrite IH, andb_assoc.
Qed.

Lemma escape_char_plain (c : ascii) :
  plain_char c = true -> Json.escape_char c = String c EmptyString.
Proof. destruct c as [[] [] [] [] [] [] [] []]; intros H; try discriminate H; reflexivity. Qed.

Lemma escape_plain (s : string) : plain s = true -> Json.escape s = s.
Proof.
  induction s as [|c s IH]; [reflexivity|].
  cbn [plain]. intros [Hc Hs]%andb_prop.
  change (Json.escape (String c s)) with (Json.escape_char c +:+ Json.escape s).
  now rewrite (escape_char_plain c Hc), (IH Hs).
Qed.

Lemma dumps_str_plain (s : string) : plain s = true -> Json.dumps_str s = quoted s.
Proof. intros H. unfold Json.dumps_str, quoted. now rewrite (escape_plain s H). Qed.

Lemma plain_uint (d : Decimal.uint) : plain (NilEmpty.string_of_uint d) = true.
Proof. induction d; cbn [NilEmpty.string_of_uint plain]; try rewrite IHd; reflexivity. Qed.

Lemma plain_zeros_app (k : nat) (s : string) : plain (zeros k +:+ s) = plain s.
Proof.
  induction k as [|k IH]; [reflexivity|].
  rewrite zeros_S. cbn [plain]. now rewrite IH.
Qed.

Lemma plain_format_05d (i : Z) : 0 <= i -> plain (format_05d i) = true.
Proof.
  intros Hi. unfold format_05d, zfill.
  destruct (i <? 0) eqn:E; [apply Z.ltb_lt in E; lia|].
  fold (zeros (5 - String.length (NilEmpty.string_of_uint (N.to_uint (Z.abs_N i))))).
  now rewrite plain_zeros_app, plain_uint.
Qed.

Lemma elem_of_slice_to {A} (l : list A) (n : Z) (x : A) : x ∈ slice_to l n -> x ∈ l.
Proof. intros H. eapply elem_of_sublist; [exact H | apply sublist_take]. Qed.

(** The labels of a generated label set are written as they are. *)
Lemma plain_labels (cfg : config) (l : labels) :
  l ∈ generate_series cfg ->
  plain (job l) = true /\ plain (instance l) = true
  /\ plain (status_code l) = true /\ plain (method l) = true.
Proof.
  unfold generate_series. intros (i & Hl & Hi)%list_elem_of_bind.
  apply list_elem_of_bind in Hl as (sc & Hl & Hsc).
  apply list_elem_of_bind in Hl as (m & ->%list_elem_of_singleton & Hm).
  apply elem_of_range in Hi. cbn [job instance status_code method].
  split; [reflexivity|]. split; [|split].
  - rewrite plain_app. now rewrite plain_format_05d.
  - apply elem_of_slice_to in Hsc.
    repeat (apply elem_of_cons in Hsc as [-> | Hsc]; [reflexivity|]).
    now apply elem_of_nil in Hsc.
  - apply elem_of_slice_to in Hm.
    repeat (apply elem_of_cons in Hm as [-> | Hm]; [reflexivity|]).
    now apply elem_of_nil in Hm.
Qed.

Lemma dumps_action (float_repr : Q -> string) : Json.dumps float_repr action = action_line.
Proof. reflexivity. Qed.

Lemma dumps_doc (float_repr : Q -> string) (ts : string) (l : labels) (v : Q) :
  plain (job l) = true -> plain (instance l) = true ->
  plain (status_code l) = true -> plain (method l) = true ->
  Json.dumps float_repr (doc ts v l)
  = document_line float_repr (Json.dumps_str ts) (l, v).
Proof.
  intros Hj Hi Hs Hm. unfold document_line, doc.
  cbn [Json.dumps map String.concat fst snd].
  rewrite (dumps_str_plain (job l) Hj), (dumps_str_plain (instance l) Hi),
    (dumps_str_plain (status_code l) Hs), (dumps_str_plain (method l) Hm).
  rewrite (dumps_str_plain "@timestamp" eq_refl), (dumps_str_plain "http_requests_qps" eq_refl),
    (dumps_str_plain "job" eq_refl), (dumps_str_plain "instance" eq_refl),
    (dumps_str_plain "status_code" eq_refl), (dumps_str_plain "method" eq_refl).
  now rewrite !string_app_assoc.
Qed.

Lemma pair_of_lines (cfg : config) (float_repr : Q -> string) (ts : string)
    (samples : list (labels * Q)) :
  Forall (fun lv => lv.1 ∈ generate_series cfg) samples ->
  flat_map (pair_of float_repr ts) samples
  = flat_map (lines_of float_repr (Json.dumps_str ts)) samples.
Proof.
  induction 1 as [|[l v] rest Hl _ IH]; [reflexivity|].
  cbn [flat_map]. rewrite IH. f_equal.
  destruct (plain_labels cfg l Hl) as (Hj & Hi & Hs & Hm).
  unfold pair_of, lines_of. cbn [fst snd].
  now rewrite dumps_action, dumps_doc.
Qed.

Lemma sweep_of_series (cfg : config) (w : world) (d : nat) :
  Forall (fun lv => lv.1 ∈ generate_series cfg) (sweep w d (generate_series cfg)).
Proof.
  apply Forall_forall. intros lv Hlv. rewrite <- (sweep_labels w d (generate_series cfg)).
  apply list_elem_of_In, in_map, list_elem_of_In. exact Hlv.
Qed.

(** Claim C2, as amended. In one tick, each label set of
    [generate_series], in order, adds two lines to the bulk body, the create
    action [{"create": {}}] and its document, and sets the value of its own
    gauge child once, to the value written in its document. The document is
    the JSON object of the fields [@timestamp], [http_requests_qps], [job],
    [instance], [status_code] and [method], in this order, with the
    timestamp that was passed in (written between double quotes as it is
    when it is made of plain characters, as an ISO timestamp is), the value
    and the four labels of the label set. The body is the lines joined by
    line feeds, followed by a line feed, and no line holds a line feed;
    there are twice as many lines as label sets, that is
    [2 * (NUM_INSTANCES * NUM_STATUS_CODES * NUM_METHODS)] for configured
    counts within the sizes of the domains (at most 5 status codes and 2
    methods, no count negative). *)
Theorem bulk_payload_spec (cfg : config) (w : world) (float_repr : Q -> string)
    (timestamp_iso : string) (st : state) :
  (forall x, no_newline (float_repr x) = true) ->
  let samples := sweep w (draws st) (generate_series cfg) in
  let lines := flat_map (lines_of float_repr (Json.dumps_str timestamp_iso)) samples in
  exists st',
    build_bulk_payload cfg w float_repr timestamp_iso st
    = (Ok (String.concat newline lines +:+ newline), st')
    /\ (plain timestamp_iso = true -> Json.dumps_str timestamp_iso = quoted timestamp_iso)
    /\ map fst samples = generate_series cfg
    /\ length lines = (2 * length (generate_series cfg))%nat
    /\ length lines
       = (2 * (length (range (NUM_INSTANCES cfg))
               * (length (STATUS_CODES cfg) * length (METHODS cfg))))%nat
    /\ (0 <= NUM_INSTANCES cfg -> 0 <= NUM_STATUS_CODES cfg <= 5 ->
        0 <= NUM_METHODS cfg <= 2 ->
        Z.of_nat (length lines)
        = 2 * (NUM_INSTANCES cfg * NUM_STATUS_CODES cfg * NUM_METHODS cfg))
    /\ Forall (fun line => no_newline line = true) lines
    /\ trace st' = trace st ++ map gauge_update samples
    /\ (forall l v, (l, v) ∈ samples -> http_qps st' !! key_of l = Some v)
    /\ (forall k, k ∉ map key_of (generate_series cfg) -> http_qps st' !! k = http_qps st !! k)
    /\ http_calls st' = http_calls st.
Proof.
  intros Hrepr samples lines.
  assert (Hlines : flat_map (pair_of float_repr timestamp_iso) samples = lines).
  { apply (pair_of_lines cfg). apply sweep_of_series. }
  assert (Hlen : length lines = (2 * length (generate_series cfg))%nat).
  { rewrite <- Hlines, length_flat_map_pairs. unfold samples. now rewrite sweep_length. }
  eexists. split.
  { unfold build_bulk_payload. erewrite bind_ok; [|apply build_loop].
    cbn [app]. fold samples. rewrite Hlines. reflexivity. }
  cbn [trace http_qps http_calls].
  split; [apply dumps_str_plain|].
  split; [apply sweep_labels|].
  split; [exact Hlen|].
  split; [now rewrite Hlen, length_generate_series|].
  split.
  { intros Hi Hs Hm. rewrite Hlen, Nat2Z.inj_mul.
    rewrite (generate_series_count cfg) by lia.
    rewrite (Z.min_l (NUM_STATUS_CODES cfg) 5), (Z.min_l (NUM_METHODS cfg) 2) by lia.
    reflexivity. }
  split.
  { rewrite <- Hlines. now apply no_newline_pairs. }
  split; [reflexivity|].
  split.
  { intros l v Hin. apply gauge_after_sample; [|exact Hin].
    unfold samples. rewrite sweep_keys. apply NoDup_keys. }
  split; [|reflexivity].
  intros k Hk. apply gauge_after_other. unfold samples. now rewrite sweep_keys.
Qed.

Lemma bulk_payload_spec_witness :
  exists st',
    build_bulk_payload two_instances silent (fun _ => "100.0") "2025-01-01T00:00:00+00:00"
      initial
    = (Ok (String.concat newline
             [action_line;
              document_line (fun _ => "100.0") (quoted "2025-01-01T00:00:00+00:00")
                ({| job := "demo"; instance := "inst-00000"; status_code := "200";
                    method := "GET" |}, 100%Q);
              action_line;
              document_line (fun _ => "100.0") (quoted "2025-01-01T00:00:00+00:00")
                ({| job := "demo"; instance := "inst-00001"; status_code := "200";
                    method := "GET" |}, 100%Q)]
           +:+ newline), st').
Proof.
  destruct (bulk_payload_spec two_instances silent (fun _ => "100.0")
              "2025-01-01T00:00:00+00:00" initial) as (st' & H & _).
  - intros x. reflexivity.
  - exists st'. exact H.
Defined.

(** Claim C2 does not hold for every configured count: with one instance,
    six status codes and one method configured, the body has ten lines, not
    twelve. *)
Lemma six_status_codes_give_ten_lines :
  exists lines st',
    build_bulk_payload over_configured silent (fun _ => "100.0")
      "2025-01-01T00:00:00+00:00" initial
    = (Ok (String.concat newline lines +:+ newline), st')
    /\ Forall (fun line => no_newline line = true) lines
    /\ length lines = 10%nat
    /\ Z.of_nat (length lines)
       <> 2 * (NUM_INSTANCES over_configured * NUM_STATUS_CODES over_configured
               * NUM_METHODS over_configured).
Proof.
  exists (flat_map (lines_of (fun _ => "100.0") (Json.dumps_str "2025-01-01T00:00:00+00:00"))
            (sweep silent 0 (generate_series over_configured))).
  eexists. split.
  { unfold build_bulk_payload. erewrite bind_ok; [|apply build_loop].
    cbn [app]. rewrite (pair_of_lines over_configured) by apply sweep_of_series.
    reflexivity. }
  split; [vm_compute; repeat constructor|]. split; [reflexivity | discriminate].
Qed.

Lemma swept_app (evs1 evs2 : list event) : swept (evs1 ++ evs2) = swept evs1 ++ swept evs2.
Proof. apply flat_map_app. Qed.

Lemma swept_updates (samples : list (labels * Q)) :
  swept (map gauge_update samples) = map (fun lv => key_of lv.1) samples.
Proof. induction samples as [|lv rest IH]; cbn; [|rewrite <- IH]; reflexivity. Qed.

(** Claim C1, as amended. For configured counts within the sizes of the
    domains (at most 5 status codes and 2 methods, no count negative),
    [generate_series] yields exactly
    [NUM_INSTANCES * NUM_STATUS_CODES * NUM_METHODS] label sets, pairwise
    distinct (as label sets and as identity tuples), and every invocation
    sweeps the same label sets in the same order, whatever the timestamp,
    the noise and the state of the process. *)
Theorem generate_series_spec (cfg : config) :
  0 <= NUM_INSTANCES cfg ->
  0 <= NUM_STATUS_CODES cfg <= 5 ->
  0 <= NUM_METHODS cfg <= 2 ->
  Z.of_nat (length (generate_series cfg))
  = NUM_INSTANCES cfg * NUM_STATUS_CODES cfg * NUM_METHODS cfg
  /\ NoDup (generate_series cfg)
  /\ NoDup (map key_of (generate_series cfg))
  /\ (forall w float_repr timestamp_iso st,
        swept (trace (snd (build_bulk_payload cfg w float_repr timestamp_iso st)))
        = swept (trace st) ++ map key_of (generate_series cfg)).
Proof.
  intros Hi Hs Hm. split.
  { rewrite generate_series_count by lia. rewrite !Z.min_l by lia. reflexivity. }
  split; [apply NoDup_generate_series|]. split; [apply NoDup_keys|].
  intros w float_repr ts st. unfold build_bulk_payload.
  erewrite bind_ok; [|apply build_loop]. cbn [mret M_ret snd trace].
  now rewrite swept_app, swept_updates, sweep_keys.
Qed.

Lemma generate_series_spec_witness :
  Z.of_nat (length (generate_series two_instances)) = 2 * 1 * 1.
Proof. apply (generate_series_spec two_instances); cbn; lia. Defined.


(** ** Counting calls in a run of the generator *)

Lemma sleep_seconds_valid (s : Q) :
  (0 <= s)%Q -> (s <= LONGEST_TICK)%Q -> PyFloat.sleep_seconds (Finite s) = Ok s.
Proof.
  intros H0 H1. unfold PyFloat.sleep_seconds.
  destruct (Qle_bool PyFloat.SLEEP_LIMIT (Qabs s)) eqn:E.
  - apply Qle_bool_iff in E. rewrite (Qabs_pos s H0) in E.
    exfalso. apply (Qlt_not_le LONGEST_TICK PyFloat.SLEEP_LIMIT); [reflexivity|].
    eapply Qle_trans; eassumption.
  - apply Qle_bool_iff in H0. now rewrite H0.
Qed.

Lemma sleep_seconds_negative (s : Q) :
  (s < 0)%Q -> exists e, PyFloat.sleep_seconds (Finite s) = Raise e.
Proof.
  intros H. unfold PyFloat.sleep_seconds.
  destruct (Qle_bool PyFloat.SLEEP_LIMIT (Qabs s)); [eexists; reflexivity|].
  destruct (Qle_bool 0 s) eqn:E; [|eexists; reflexivity].
  apply Qle_bool_iff in E. exfalso. now apply (Qlt_not_le s 0).
Qed.

Lemma count_app (p : request -> bool) (evs1 evs2 : list event) :
  count p (evs1 ++ evs2) = (count p evs1 + count p evs2)%nat.
Proof. unfold count. now rewrite List.filter_app, length_app. Qed.

Section Counting.
Variable p : request -> bool.

Lemma total_ret {A} (a : A) : total (mret a).
Proof using Type. intros st. now exists a, st. Qed.

Lemma total_bind {A B} (m : M state A) (k : A -> M state B) :
  total m -> (forall a, total (k a)) -> total (m ≫= k).
Proof using Type.
  intros Hm Hk st. destruct (Hm st) as (a & st1 & E).
  rewrite (bind_ok _ _ _ _ _ E). apply Hk.
Qed.

Lemma total_try {A} (body : M state A) (handler : exn -> M state A) :
  (forall e, total (handler e)) -> total (try_except body handler).
Proof using Type.
  intros Hh st. unfold try_except.
  destruct (body st) as [[a|e] st1]; [now exists a, st1 | apply Hh].
Qed.

Lemma total_emit (e : event) : total (emit e).
Proof using Type. intros st. eexists _, _. reflexivity. Qed.

Lemma adds_ret {A} (a : A) : adds p (mret a) 0.
Proof using Type. intros st. exists []. cbn. now rewrite app_nil_r. Qed.

Lemma adds_lift {A} (r : result A) : adds p (lift r) 0.
Proof using Type. intros st. exists []. cbn. now rewrite app_nil_r. Qed.

Lemma adds_emit (e : event) : (forall req, e <> Call req) -> adds p (emit e) 0.
Proof using Type.
  intros Hne st. exists [e]. split; [reflexivity|].
  destruct e; try reflexivity. now destruct (Hne req).
Qed.

Lemma adds_send (w : world) (req : request) :
  adds p (send w req) (if p req then 1 else 0).
Proof using Type.
  intros st. exists [Call req]. split; [reflexivity|].
  unfold count. cbn. now destruct (p req).
Qed.

Lemma adds_bind {A B} (m : M state A) (k : A -> M state B) (n1 n2 : nat) :
  adds p m n1 -> (forall a, adds p (k a) n2) -> n2 = 0%nat \/ total m ->
  adds p (m ≫= k) (n1 + n2).
Proof using Type.
  intros Hm Hk Hside st. destruct (Hm st) as (evs1 & Ht1 & Hc1).
  unfold mbind, M_bind. destruct (m st) as [[a|e] st1] eqn:E; cbn in *.
  - destruct (Hk a st1) as (evs2 & Ht2 & Hc2).
    exists (evs1 ++ evs2). rewrite Ht2, Ht1, count_app, app_assoc. split; [reflexivity | lia].
  - exists evs1. split; [assumption|].
    destruct Hside as [-> | Htot]; [lia|].
    destruct (Htot st) as (a & st' & E'). congruence.
Qed.

Lemma adds_try {A} (body : M state A) (handler : exn -> M state A) (n : nat) :
  adds p body n -> (forall e, adds p (handler e) 0) -> adds p (try_except body handler) n.
Proof using Type.
  intros Hb Hh st. destruct (Hb st) as (evs1 & Ht1 & Hc1). unfold try_except.
  destruct (body st) as [[a|e] st1]; cbn in *; [now exists evs1|].
  destruct (Hh e st1) as (evs2 & Ht2 & Hc2).
  exists (evs1 ++ evs2). rewrite Ht2, Ht1, count_app, app_assoc. split; [reflexivity | lia].
Qed.

Lemma adds_for_each {A L} (xs : list A) (body : A -> L -> M state L) (acc : L) :
  (forall x acc, adds p (body x acc) 0) -> adds p (for_each xs body acc) 0.
Proof using Type.
  intros Hbody. revert acc. induction xs as [|x xs IH]; intros acc; cbn [for_each].
  - apply adds_ret.
  - apply (adds_bind _ _ 0 0); [apply Hbody | intros a; apply IH | now left].
Qed.

End Counting.

Section CountingPrimitives.
Variable p : request -> bool.
Variable w : world.

Lemma adds_print (m : message) : adds p (print m) 0.
Proof using Type. apply adds_emit. discriminate. Qed.

Lemma adds_sleep (s : Q) : adds p (sleep s) 0.
Proof using Type. apply (adds_emit p (Sleep s)). discriminate. Qed.

Lemma adds_time_sleep (secs : pyfloat) : adds p (time_sleep secs) 0.
Proof using Type.
  unfold time_sleep. apply (adds_bind _ _ _ 0 0); [apply adds_lift | | now left].
  intros s. apply adds_sleep.
Qed.

Lemma adds_gauge_set (k : key) (v : Q) : adds p (gauge_set k v) 0.
Proof using Type. intros st. exists [GaugeSet k v]. split; reflexivity. Qed.

Lemma adds_now : adds p (now w) 0.
Proof using Type. intros st. exists []. cbn. now rewrite app_nil_r. Qed.

Lemma adds_utcnow : adds p (utcnow w) 0.
Proof using Type. intros st. exists []. cbn. now rewrite app_nil_r. Qed.

Lemma adds_random_uniform : adds p (random_uniform w) 0.
Proof using Type. intros st. exists []. cbn. now rewrite app_nil_r. Qed.

Lemma adds_send_other (req : request) : p req = false -> adds p (send w req) 0.
Proof using Type. intros H. pose proof (adds_send p w req) as Hs. now rewrite H in Hs. Qed.

Lemma adds_send_one (req : request) : p req = true -> adds p (send w req) 1.
Proof using Type. intros H. pose proof (adds_send p w req) as Hs. now rewrite H in Hs. Qed.

End CountingPrimitives.

Ltac quiet_step :=
  lazymatch goal with
  | |- adds _ (mret _) _ => apply adds_ret
  | |- adds _ (lift _) _ => apply adds_lift
  | |- adds _ (print _) _ => apply adds_print
  | |- adds _ (sleep _) _ => apply adds_sleep
  | |- adds _ (time_sleep _) _ => apply adds_time_sleep
  | |- adds _ (gauge_set _ _) _ => apply adds_gauge_set
  | |- adds _ (now _) _ => apply adds_now
  | |- adds _ (utcnow _) _ => apply adds_utcnow
  | |- adds _ (random_uniform _) _ => apply adds_random_uniform
  | |- adds _ (send _ _) _ => apply adds_send_other; reflexivity
  | |- adds _ (try_except _ _) _ => apply adds_try; [| intros ?]
  | |- adds _ (for_each _ _ _) _ => apply adds_for_each; intros ? ?
  | |- adds _ (_ ≫= _) _ => apply (adds_bind _ _ _ 0 0); [| intros ? | now left]
  | |- adds _ (if ?b then _ else _) _ => destruct b
  | |- adds _ (let '(_, _) := ?x in _) _ => destruct x
  end.

Ltac quiet := repeat quiet_step.

Ltac total_step :=
  lazymatch goal with
  | |- total (mret _) => apply total_ret
  | |- total (print _) => apply total_emit
  | |- total (sleep _) => apply total_emit
  | |- total (try_except _ _) => apply total_try; intros ?
  | |- total (_ ≫= _) => apply total_bind; [| intros ?]
  | |- total (if ?b then _ else _) => destruct b
  end.

Section Setup.
Variable cfg : config.
Variable w : world.

Lemma delete_regular_index_quiet (p : request -> bool) :
  p HeadIndex = false -> p GetIndex = false -> p GetDataStreams = false ->
  p DeleteIndex = false -> adds p (delete_regular_index cfg w) 0.
Proof using Type.
  intros H1 H2 H3 H4. unfold delete_regular_index, data_stream_names.
  repeat first [ apply adds_send_other; assumption | quiet_step ].
Qed.

Lemma delete_regular_index_total : total (delete_regular_index cfg w).
Proof using Type. unfold delete_regular_index. repeat total_step. Qed.

Lemma ensure_index_total : total (ensure_index cfg w).
Proof using Type. unfold ensure_index. repeat total_step. Qed.

(** Every run of [ensure_index] sends the index template exactly once. *)
Lemma ensure_index_attempt : adds is_template_put (ensure_index cfg w) 1.
Proof using Type.
  unfold ensure_index. apply adds_try; [|intros e; quiet].
  apply (adds_bind _ _ _ 0 1).
  - now apply delete_regular_index_quiet.
  - intros _. apply (adds_bind _ _ _ 1 0); [now apply adds_send_one | | now left].
    intros r. quiet.
  - right. apply delete_regular_index_total.
Qed.

Lemma ensure_index_no_bulk : adds is_bulk_post (ensure_index cfg w) 0.
Proof using Type.
  unfold ensure_index. apply adds_try; [|intros e; quiet].
  apply (adds_bind _ _ _ 0 0); [now apply delete_regular_index_quiet | | now left].
  intros _. quiet.
Qed.

(** Whatever happens, the set-up phase ends normally after at most as many
    attempts as it is given. *)
Lemma setup_schema_bounded (attempts : list Z) (st : state) :
  exists st' evs,
    setup_schema cfg w attempts st = (Ok tt, st')
    /\ trace st' = trace st ++ evs
    /\ (count is_template_put evs <= length attempts)%nat.
Proof using Type.
  revert st. induction attempts as [|attempt rest IH]; intros st.
  - exists st, []. cbn. rewrite app_nil_r. repeat split; lia.
  - cbn [setup_schema].
    destruct (ensure_index_total st) as (ok & st1 & E).
    destruct (ensure_index_attempt st) as (evs1 & Ht1 & Hc1). rewrite E in Ht1. cbn in Ht1.
    rewrite (bind_ok _ _ _ _ _ E). destruct ok.
    + exists st1, evs1. cbn [length]. repeat split; [assumption | lia].
    + set (between := if attempt <? max_retries - 1
                      then [Print (SetupRetry (attempt + 1) max_retries); Sleep 2]
                      else [Print SetupGivenUp]).
      assert (Hb : (if attempt <? max_retries - 1
                    then _ ← print (SetupRetry (attempt + 1) max_retries); sleep 2
                    else print SetupGivenUp) st1 = (Ok tt, log st1 between)).
      { subst between. destruct (attempt <? max_retries - 1);
          unfold mbind, M_bind, print, sleep, emit, log; cbn;
          rewrite <- ?app_assoc; reflexivity. }
      rewrite (bind_ok _ _ _ _ _ Hb).
      destruct (IH (log st1 between)) as (st' & evs & Hrun & Ht & Hc).
      exists st', (evs1 ++ between ++ evs). split; [exact Hrun|].
      split; [rewrite Ht; cbn; rewrite Ht1, <- !app_assoc; reflexivity|].
      rewrite !count_app. cbn [length].
      assert (count is_template_put between = 0%nat)
        by (subst between; destruct (attempt <? max_retries - 1); reflexivity).
      lia.
Qed.

End Setup.

Section Ingest.
Variable cfg : config.
Variable w : world.
Variable float_repr : Q -> string.

Lemma count_gauge_updates (p : request -> bool) (samples : list (labels * Q)) :
  count p (map gauge_update samples) = 0%nat.
Proof using Type. induction samples as [|lv rest IH]; [reflexivity | exact IH]. Qed.

Lemma build_bulk_payload_total (ts : string) :
  total (build_bulk_payload cfg w float_repr ts).
Proof using Type.
  intros st. unfold build_bulk_payload.
  erewrite bind_ok; [|apply build_loop]. eexists _, _. reflexivity.
Qed.

Lemma build_bulk_payload_quiet (p : request -> bool) (ts : string) :
  adds p (build_bulk_payload cfg w float_repr ts) 0.
Proof using Type.
  intros st. unfold build_bulk_payload.
  erewrite bind_ok; [|apply build_loop]. eexists. split; [reflexivity|].
  apply count_gauge_updates.
Qed.

Lemma time_sleep_valid (st : state) :
  valid_tick cfg ->
  exists s, TICK_SECONDS cfg = Finite s
            /\ time_sleep (TICK_SECONDS cfg) st = (Ok tt, log st [Sleep s]).
Proof using Type.
  intros (s & Hs & H0 & H1). exists s. split; [exact Hs|].
  unfold time_sleep. rewrite Hs, (sleep_seconds_valid s H0 H1). reflexivity.
Qed.

Lemma tick_total (first_batch : bool) :
  valid_tick cfg -> total (tick cfg w float_repr first_batch).
Proof using Type.
  intros Htick. unfold tick. apply total_bind; [intros st; eexists _, _; reflexivity|].
  intros ts. repeat total_step.
  intros st. destruct (time_sleep_valid st Htick) as (s & _ & E). eexists _, _. exact E.
Qed.

(** Every pass of the loop posts one bulk body. *)
Lemma tick_posts (first_batch : bool) :
  adds is_bulk_post (tick cfg w float_repr first_batch) 1.
Proof using Type.
  unfold tick. apply (adds_bind _ _ _ 0 1); [apply adds_utcnow | | right].
  - intros ts. apply (adds_bind _ _ _ 1 0); [| intros fb; quiet | now left].
    apply adds_try; [|intros e; quiet].
    apply (adds_bind _ _ _ 0 1);
      [apply build_bulk_payload_quiet | | right; apply build_bulk_payload_total].
    intros body. apply (adds_bind _ _ _ 1 0); [now apply adds_send_one | | now left].
    intros resp. unfold verify_data_stream. quiet.
  - intros st. eexists _, _. reflexivity.
Qed.

Lemma ticks_run (n : nat) (first_batch : bool) (st : state) :
  valid_tick cfg ->
  exists fb st' evs,
    ticks cfg w float_repr n first_batch st = (Ok fb, st')
    /\ trace st' = trace st ++ evs
    /\ count is_bulk_post evs = n.
Proof using Type.
  intros Htick. revert first_batch st. induction n as [|n IH]; intros first_batch st.
  - exists first_batch, st, []. cbn. now rewrite app_nil_r.
  - cbn [ticks].
    destruct (tick_total first_batch Htick st) as (fb1 & st1 & E).
    destruct (tick_posts first_batch st) as (evs1 & Ht1 & Hc1). rewrite E in Ht1. cbn in Ht1.
    rewrite (bind_ok _ _ _ _ _ E).
    destruct (IH fb1 st1) as (fb & st' & evs & Hrun & Ht & Hc).
    exists fb, st', (evs1 ++ evs). split; [exact Hrun|].
    split; [rewrite Ht, Ht1, app_assoc; reflexivity|].
    rewrite count_app. lia.
Qed.

(** Whatever the tick interval, a run of the loop that is to make a pass
    posts a bulk body: the post of the first pass precedes its sleep. *)
Lemma ticks_post_first (n : nat) (first_batch : bool) (st : state) :
  exists evs,
    trace (snd (ticks cfg w float_repr n first_batch st)) = trace st ++ evs
    /\ ((0 < n)%nat -> (1 <= count is_bulk_post evs)%nat).
Proof using Type.
  revert first_batch st. induction n as [|n IH]; intros first_batch st.
  - exists []. cbn. rewrite app_nil_r. split; [reflexivity | lia].
  - cbn [ticks].
    destruct (tick_posts first_batch st) as (evs1 & Ht1 & Hc1).
    destruct (tick cfg w float_repr first_batch st) as [[fb|e] st1] eqn:E; cbn [snd] in Ht1.
    + rewrite (bind_ok _ _ _ _ _ E).
      destruct (IH fb st1) as (evs & Ht & _).
      exists (evs1 ++ evs). split; [rewrite Ht, Ht1, app_assoc; reflexivity|].
      intros _. rewrite count_app. lia.
    + rewrite (bind_raise _ _ _ _ _ E). cbn [snd].
      exists evs1. split; [exact Ht1 | lia].
Qed.

End Ingest.

Lemma two_instances_valid : valid_tick two_instances.
Proof. exists 1%Q. repeat split; discriminate. Qed.

Lemma print_then_sleep (m : message) (s : Q) (st : state) :
  (_ ← print m; sleep s) st = (Ok tt, log st [Print m; Sleep s]).
Proof.
  unfold mbind, M_bind, print, sleep, emit, log. cbn. now rewrite <- app_assoc.
Qed.

(** Claim C8. When [ensure_index] fails whenever it is tried, the set-up
    phase tries it three times in all, announces a retry and sleeps two
    seconds after the first and after the second failure, prints the final
    warning after the third, and does not stop there: [ingest_loop] goes on
    into the ingestion loop, whose first pass posts a bulk body, whatever
    the configuration; with a tick interval that can be slept, it posts one
    bulk body per tick, for any number of ticks. Whatever [ensure_index]
    does, the set-up phase ends normally after at most three attempts. *)
Theorem schema_setup_failure_is_tolerated (cfg : config) (w : world)
    (float_repr : Q -> string) (wait_fuel n : nat) (st0 st1 : state) :
  wait_for_elasticsearch w wait_fuel st0 = (Ok (Some true), st1) ->
  (forall st, fst (ensure_index cfg w st) = Ok false) ->
  let s1 := log (snd (ensure_index cfg w st1)) [Print (SetupRetry 1 3); Sleep 2] in
  let s2 := log (snd (ensure_index cfg w s1)) [Print (SetupRetry 2 3); Sleep 2] in
  let s3 := log (snd (ensure_index cfg w s2)) [Print SetupGivenUp] in
  setup_schema cfg w (range max_retries) st1 = (Ok tt, s3)
  /\ (exists evs, trace s3 = trace st1 ++ evs /\ count is_template_put evs = 3%nat)
  /\ (forall st, exists st' evs,
        setup_schema cfg w (range max_retries) st = (Ok tt, st')
        /\ trace st' = trace st ++ evs
        /\ (count is_template_put evs <= 3)%nat)
  /\ (exists evs,
        trace (snd (ingest_loop cfg w float_repr wait_fuel n st0))
        = trace s3 ++ Print LoopStarting :: evs
        /\ ((0 < n)%nat -> (1 <= count is_bulk_post evs)%nat))
  /\ (valid_tick cfg ->
      exists st' evs,
        ingest_loop cfg w float_repr wait_fuel n st0 = (Ok (Ingesting n), st')
        /\ trace st' = trace s3 ++ Print LoopStarting :: evs
        /\ count is_bulk_post evs = n).
Proof.
  intros Hwait Hfail s1 s2 s3.
  assert (Hattempt : forall st, ensure_index cfg w st = (Ok false, snd (ensure_index cfg w st))).
  { intros st. specialize (Hfail st). destruct (ensure_index cfg w st); cbn in *. congruence. }
  assert (Hsetup : setup_schema cfg w (range max_retries) st1 = (Ok tt, s3)).
  { change (range max_retries) with [0; 1; 2]. cbn [setup_schema].
    rewrite (bind_ok _ _ _ _ _ (Hattempt st1)).
    change (0 <? max_retries - 1) with true. cbv iota.
    rewrite (bind_ok _ _ _ s1 tt) by apply print_then_sleep.
    rewrite (bind_ok _ _ _ _ _ (Hattempt s1)).
    change (1 <? max_retries - 1) with true. cbv iota.
    rewrite (bind_ok _ _ _ s2 tt) by apply print_then_sleep.
    rewrite (bind_ok _ _ _ _ _ (Hattempt s2)).
    change (2 <? max_retries - 1) with false. cbv iota.
    rewrite (bind_ok _ _ _ s3 tt) by reflexivity.
    reflexivity. }
  assert (Hloop : ingest_loop cfg w float_repr wait_fuel n st0
                  = (_ ← ticks cfg w float_repr n true; mret (Ingesting n))
                      (log s3 [Print LoopStarting])).
  { unfold ingest_loop. rewrite (bind_ok _ _ _ _ _ Hwait).
    rewrite (bind_ok _ _ _ _ _ Hsetup).
    now rewrite (bind_ok _ _ s3 (log s3 [Print LoopStarting]) tt). }
  split; [exact Hsetup|]. split; [|split; [|split]].
  - destruct (ensure_index_attempt cfg w st1) as (e1 & Ht1 & Hc1).
    destruct (ensure_index_attempt cfg w s1) as (e2 & Ht2 & Hc2).
    destruct (ensure_index_attempt cfg w s2) as (e3 & Ht3 & Hc3).
    exists (e1 ++ [Print (SetupRetry 1 3); Sleep 2] ++ e2
            ++ [Print (SetupRetry 2 3); Sleep 2] ++ e3 ++ [Print SetupGivenUp]).
    split.
    + subst s3. cbn [log trace]. rewrite Ht3. subst s2. cbn [log trace]. rewrite Ht2.
      subst s1. cbn [log trace]. rewrite Ht1. rewrite <- !app_assoc. reflexivity.
    + rewrite !count_app, Hc1, Hc2, Hc3. reflexivity.
  - intros st. apply (setup_schema_bounded cfg w (range max_retries) st).
  - destruct (ticks_post_first cfg w float_repr n true (log s3 [Print LoopStarting]))
      as (evs & Ht & Hc).
    exists evs. split; [|exact Hc].
    rewrite Hloop. unfold mbind, M_bind.
    destruct (ticks cfg w float_repr n true (log s3 [Print LoopStarting])) as [[fb|e] st'];
      unfold mret, M_ret; cbn [snd] in *; rewrite Ht; cbn [log trace];
      now rewrite <- app_assoc.
  - intros Htick.
    destruct (ticks_run cfg w float_repr n true (log s3 [Print LoopStarting]) Htick)
      as (fb & st' & evs & Hrun & Ht & Hc).
    exists st', evs. split; [|split; [|exact Hc]].
    + rewrite Hloop, (bind_ok _ _ _ _ _ Hrun). reflexivity.
    + rewrite Ht. cbn [log trace]. rewrite <- app_assoc. reflexivity.
Qed.

Lemma schema_setup_failure_is_tolerated_witness :
  exists st',
    ingest_loop two_instances schema_refused (fun _ => "0.0") 1 2 initial
    = (Ok (Ingesting 2), st').
Proof.
  destruct (schema_setup_failure_is_tolerated two_instances schema_refused (fun _ => "0.0")
              1 2 initial (snd (wait_for_elasticsearch schema_refused 1 initial)))
    as (_ & _ & _ & _ & Hloop).
  - vm_compute. reflexivity.
  - intros st. reflexivity.
  - destruct Hloop as (st' & evs & H & _).
    + exists 1%Q. repeat split; discriminate.
    + exists st'. exact H.
Defined.


(** ** Further properties of the generator *)

(** ** More on the label space *)

Lemma elem_of_range_iff (n i : Z) : i ∈ range n <-> 0 <= i < n.
Proof.
  unfold range. change (i ∈ Z.of_nat <$> seq 0 (Z.to_nat n) <-> 0 <= i < n).
  rewrite list_elem_of_fmap. split.
  - intros (k & -> & Hk%elem_of_seq). lia.
  - intros Hi. exists (Z.to_nat i). split; [lia|]. apply elem_of_seq. lia.
Qed.

(** Property X11. The label sets of [generate_series] are exactly the
    cross product of the domains: the job [demo], an instance
    [inst-<5 digits of i>] for [i] below [NUM_INSTANCES], one of the
    configured status codes and one of the configured methods. *)
Theorem generate_series_membership (cfg : config) (l : labels) :
  l ∈ generate_series cfg
  <-> job l = "demo"
      /\ (exists i, 0 <= i < NUM_INSTANCES cfg /\ instance l = "inst-" +:+ format_05d i)
      /\ status_code l ∈ STATUS_CODES cfg
      /\ method l ∈ METHODS cfg.
Proof.
  unfold generate_series. rewrite list_elem_of_bind. split.
  - intros (i & Hl & Hi%elem_of_range_iff).
    apply list_elem_of_bind in Hl as (sc & Hl & Hsc).
    apply list_elem_of_bind in Hl as (m & ->%list_elem_of_singleton & Hm).
    cbn. eauto 10.
  - intros (Hjob & (i & Hi & Hinst) & Hsc & Hm).
    exists i. split; [|now apply elem_of_range_iff].
    apply list_elem_of_bind. exists (status_code l). split; [|exact Hsc].
    apply list_elem_of_bind. exists (method l). split; [|exact Hm].
    apply list_elem_of_singleton. destruct l; cbn in *. now subst.
Qed.

Lemma length_slice_to_any {A} (l : list A) (n : Z) :
  Z.of_nat (length (slice_to l n)) = slice_size (Z.of_nat (length l)) n.
Proof.
  unfold slice_to, slice_size. rewrite length_take.
  destruct (n <? 0) eqn:E; [apply Z.ltb_lt in E | apply Z.ltb_ge in E]; lia.
Qed.

(** Property X12. For any integers as configured counts, negative ones
    included, the number of label sets is
    [max(0, NUM_INSTANCES) * slice(5, NUM_STATUS_CODES) * slice(2, NUM_METHODS)],
    where a negative count [n] of a sliced list of [k] elements keeps
    [max(0, k + n)] of them; there is no label set exactly when there is no
    instance, or a sliced count is zero or drops the whole list. *)
Theorem generate_series_size (cfg : config) :
  Z.of_nat (length (generate_series cfg))
  = Z.max 0 (NUM_INSTANCES cfg)
    * (slice_size 5 (NUM_STATUS_CODES cfg) * slice_size 2 (NUM_METHODS cfg))
  /\ (generate_series cfg = []
      <-> NUM_INSTANCES cfg <= 0
          \/ NUM_STATUS_CODES cfg = 0 \/ NUM_STATUS_CODES cfg <= -5
          \/ NUM_METHODS cfg = 0 \/ NUM_METHODS cfg <= -2).
Proof.
  assert (Hlen : Z.of_nat (length (generate_series cfg))
                 = Z.max 0 (NUM_INSTANCES cfg)
                   * (slice_size 5 (NUM_STATUS_CODES cfg)
                      * slice_size 2 (NUM_METHODS cfg))).
  { rewrite length_generate_series, length_range, !Nat2Z.inj_mul.
    unfold STATUS_CODES, METHODS. rewrite !length_slice_to_any. cbn [length]. 
    f_equal. lia. }
  split; [exact Hlen|].
  rewrite <- length_zero_iff_nil.
  assert (Hz : length (generate_series cfg) = 0%nat
               <-> Z.of_nat (length (generate_series cfg)) = 0) by lia.
  rewrite Hz, Hlen. unfold slice_size.
  destruct (NUM_STATUS_CODES cfg <? 0) eqn:Es, (NUM_METHODS cfg <? 0) eqn:Em;
    [apply Z.ltb_lt in Es | apply Z.ltb_lt in Es | apply Z.ltb_ge in Es | apply Z.ltb_ge in Es];
    [apply Z.ltb_lt in Em | apply Z.ltb_ge in Em | apply Z.ltb_lt in Em | apply Z.ltb_ge in Em];
    nia.
Qed.

(** Property X13. When the configuration yields no label set, the bulk
    body is a single line feed, and building it changes nothing: no draw of
    noise, no gauge update. *)
Theorem empty_sweep (cfg : config) (w : world) (float_repr : Q -> string)
    (timestamp_iso : string) (st : state) :
  generate_series cfg = [] ->
  build_bulk_payload cfg w float_repr timestamp_iso st = (Ok newline, st).
Proof.
  intros Hempty. unfold build_bulk_payload.
  erewrite bind_ok; [|apply build_loop]. rewrite Hempty. cbn.
  rewrite app_nil_r, Nat.add_0_r. now destruct st.
Qed.

Lemma empty_sweep_witness :
  build_bulk_payload no_instances silent (fun _ => "0.0") "t" initial = (Ok newline, initial).
Proof. apply (empty_sweep no_instances). reflexivity. Defined.

(** ** What a computation leaves unchanged *)

Section Preserves.
Context {X : Type} (f : state -> X).

Lemma preserves_ret {A} (a : A) : preserves f (mret a).
Proof using Type. intros st. reflexivity. Qed.

Lemma preserves_lift {A} (r : result A) : preserves f (lift r).
Proof using Type. intros st. reflexivity. Qed.

Lemma preserves_bind {A B} (m : M state A) (k : A -> M state B) :
  preserves f m -> (forall a, preserves f (k a)) -> preserves f (m ≫= k).
Proof using Type.
  intros Hm Hk st. specialize (Hm st). unfold mbind, M_bind.
  destruct (m st) as [[a|e] st1]; cbn in *; [|exact Hm].
  now rewrite Hk.
Qed.

Lemma preserves_try {A} (body : M state A) (handler : exn -> M state A) :
  preserves f body -> (forall e, preserves f (handler e)) ->
  preserves f (try_except body handler).
Proof using Type.
  intros Hb Hh st. specialize (Hb st). unfold try_except.
  destruct (body st) as [[a|e] st1]; cbn in *; [exact Hb|].
  now rewrite Hh.
Qed.

Lemma preserves_for_each {A L} (xs : list A) (body : A -> L -> M state L) (acc : L) :
  (forall x acc, preserves f (body x acc)) -> preserves f (for_each xs body acc).
Proof using Type.
  intros Hbody. revert acc. induction xs as [|x xs IH]; intros acc; cbn [for_each].
  - apply preserves_ret.
  - apply preserves_bind; [apply Hbody | intros a; apply IH].
Qed.

End Preserves.

Ltac preserves_step :=
  lazymatch goal with
  | |- preserves _ (mret _) => apply preserves_ret
  | |- preserves _ (lift _) => apply preserves_lift
  | |- preserves _ (print _) => intros ?; reflexivity
  | |- preserves _ (sleep _) => intros ?; reflexivity
  | |- preserves _ (time_sleep _) => unfold time_sleep
  | |- preserves _ (send _ _) => intros ?; reflexivity
  | |- preserves _ (now _) => intros ?; reflexivity
  | |- preserves _ (utcnow _) => intros ?; reflexivity
  | |- preserves _ (try_except _ _) => apply preserves_try; [| intros ?]
  | |- preserves _ (for_each _ _ _) => apply preserves_for_each; intros ? ?
  | |- preserves _ (_ ≫= _) => apply preserves_bind; [| intros ?]
  | |- preserves _ (if ?b then _ else _) => destruct b
  end.

Lemma try_bind_ok {A B} (m : M state A) (k : A -> M state B) (h : exn -> M state B)
    (st st' : state) (a : A) :
  m st = (Ok a, st') -> try_except (m ≫= k) h st = try_except (k a) h st'.
Proof. intros H. unfold try_except. now rewrite (bind_ok _ _ _ _ _ H). Qed.

Section Table.
Variable cfg : config.
Variable w : world.
Variable float_repr : Q -> string.

Lemma verify_data_stream_table : preserves table (verify_data_stream w).
Proof using Type. unfold verify_data_stream. repeat preserves_step. Qed.

(** One pass of the loop sweeps the label space once, and nothing else
    touches the gauge table or the noise. *)
Lemma tick_table (first_batch : bool) (st : state) :
  table (snd (tick cfg w float_repr first_batch st))
  = (gauge_after (http_qps st) (sweep w (draws st) (generate_series cfg)),
     (draws st + length (generate_series cfg))%nat).
Proof using Type.
  unfold tick.
  rewrite (bind_ok _ _ st
             {| clock_reads := clock_reads st; http_calls := http_calls st;
                draws := draws st; date_reads := S (date_reads st);
                http_qps := http_qps st; trace := trace st |}
             (utcnow_isoformat w (date_reads st))) by reflexivity.
  set (st1 := {| clock_reads := clock_reads st; http_calls := http_calls st;
                 draws := draws st; date_reads := S (date_reads st);
                 http_qps := http_qps st; trace := trace st |}).
  set (ts := utcnow_isoformat w (date_reads st)).
  assert (Hbuild : exists body st2,
             build_bulk_payload cfg w float_repr ts st1 = (Ok body, st2)
             /\ table st2 = (gauge_after (http_qps st) (sweep w (draws st) (generate_series cfg)),
                             (draws st + length (generate_series cfg))%nat)).
  { unfold build_bulk_payload. erewrite bind_ok; [|apply build_loop].
    eexists _, _. split; reflexivity. }
  destruct Hbuild as (body & st2 & Hbuild & Htable). rewrite <- Htable.
  enough (Hrest : forall k : bool -> M state bool,
             (forall b, preserves table (k b)) ->
             table (snd ((try_except
                            (body ← build_bulk_payload cfg w float_repr ts;
                             resp ← send w (PostBulk body);
                             if 300 <=? Response.status_code resp then
                               _ ← print (BulkError (Response.status_code resp) (text200 resp));
                               mret first_batch
                             else if first_batch then
                               _ ← verify_data_stream w; mret false
                             else mret first_batch)
                            (fun e => _ ← print (BulkSendError e); mret first_batch)
                          ≫= k) st1)) = table st2).
  { apply Hrest. intros b. repeat preserves_step. }
  intros k Hk.
  assert (Htry : preserves table
            (try_except
               (resp ← send w (PostBulk body);
                if 300 <=? Response.status_code resp then
                  _ ← print (BulkError (Response.status_code resp) (text200 resp));
                  mret first_batch
                else if first_batch then
                  _ ← verify_data_stream w; mret false
                else mret first_batch)
               (fun e => _ ← print (BulkSendError e); mret first_batch))).
  { apply preserves_try; [|intros e; repeat preserves_step].
    apply preserves_bind; [intros ?; reflexivity|]. intros resp.
    destruct (300 <=? Response.status_code resp); [repeat preserves_step|].
    destruct first_batch; [|apply preserves_ret].
    apply preserves_bind; [apply verify_data_stream_table | intros _; apply preserves_ret]. }
  unfold mbind at 1, M_bind at 1.
  rewrite (try_bind_ok _ _ _ _ _ _ Hbuild).
  specialize (Htry st2).
  destruct (try_except _ _ st2) as [[b|e] st3]; cbn in *; [|exact Htry].
  now rewrite Hk.
Qed.

End Table.

(** Property X14. With a tick interval that can be slept (a number of
    seconds from 0 to [LONGEST_TICK]): after any number of passes of the
    ingestion loop, one
    noise value has been drawn per label set and pass, the gauge children of
    other keys are as they were, and, after one pass at least, the child of
    every label set holds the value of its sample in the last pass; the
    calls, their answers and the check of the data stream never touch the
    gauge. *)
Theorem gauge_table_after_ticks (cfg : config) (w : world) (float_repr : Q -> string)
    (n : nat) (first_batch : bool) (st : state) :
  valid_tick cfg ->
  let series := generate_series cfg in
  let st' := snd (ticks cfg w float_repr n first_batch st) in
  draws st' = (draws st + n * length series)%nat
  /\ (forall k, k ∉ map key_of series -> http_qps st' !! k = http_qps st !! k)
  /\ (forall l v, (0 < n)%nat ->
        (l, v) ∈ sweep w (draws st + (n - 1) * length series) series ->
        http_qps st' !! key_of l = Some v).
Proof.
  intros Htick. cbn zeta. revert first_batch st.
  induction n as [|n IH]; intros first_batch st.
  - cbn. repeat split; [lia | lia].
  - cbn [ticks].
    destruct (tick_total cfg w float_repr first_batch Htick st) as (fb1 & st1 & E).
    pose proof (tick_table cfg w float_repr first_batch st) as Ht.
    rewrite E in Ht. cbn [snd] in Ht. unfold table in Ht. injection Ht as Hg Hd.
    rewrite (bind_ok _ _ _ _ _ E).
    destruct (IH fb1 st1) as (IHd & IHo & IHv).
    split; [rewrite IHd, Hd; lia|]. split.
    + intros k Hk. rewrite (IHo k Hk), Hg. apply gauge_after_other.
      now rewrite sweep_keys.
    + intros l v _ Hin. destruct n as [|n].
      * cbn [ticks mret M_ret snd]. rewrite Hg.
        apply gauge_after_sample; [rewrite sweep_keys; apply NoDup_keys|].
        replace (draws st + (1 - 1) * length (generate_series cfg))%nat
          with (draws st) in Hin by lia.
        exact Hin.
      * apply IHv; [lia|].
        replace (draws st1 + (S n - 1) * length (generate_series cfg))%nat
          with (draws st + (S (S n) - 1) * length (generate_series cfg))%nat by (rewrite Hd; lia).
        exact Hin.
Qed.

Lemma gauge_table_after_ticks_witness :
  http_qps (snd (ticks two_instances silent (fun _ => "0.0") 3 true initial))
    !! key_of {| job := "demo"; instance := "inst-00001"; status_code := "200"; method := "GET" |}
  = Some (compute_value {| job := "demo"; instance := "inst-00001";
                           status_code := "200"; method := "GET" |} (uniform silent 5)).
Proof.
  destruct (gauge_table_after_ticks two_instances silent (fun _ => "0.0") 3 true initial
              two_instances_valid) as (_ & _ & H).
  apply (H {| job := "demo"; instance := "inst-00001"; status_code := "200"; method := "GET" |}
           (compute_value {| job := "demo"; instance := "inst-00001";
                           status_code := "200"; method := "GET" |} (uniform silent 5)));
    [lia|].
  apply list_elem_of_In. right. left. reflexivity.
Defined.

(** ** Waiting for the backend *)

Section Wait.
Variable w : world.

Lemma poll_health_total : total (poll_health w).
Proof using Type. unfold poll_health. repeat total_step. Qed.

Lemma poll_health_clock : preserves clock_reads (poll_health w).
Proof using Type. unfold poll_health. repeat preserves_step. Qed.

Lemma poll_health_one_call : adds is_health (poll_health w) 1.
Proof using Type.
  unfold poll_health. apply adds_try; [|intros e; quiet].
  apply (adds_bind _ _ _ 1 0); [now apply adds_send_one | | now left].
  intros resp. quiet.
Qed.

Lemma poll_health_quiet (p : request -> bool) :
  p GetClusterHealth = false -> adds p (poll_health w) 0.
Proof using Type.
  intros Hp. unfold poll_health. apply adds_try; [|intros e; quiet].
  apply (adds_bind _ _ _ 0 0); [now apply adds_send_other | | now left].
  intros resp. quiet.
Qed.

Lemma wait_loop_total (fuel : nat) (start_time max_wait check_interval : Q) :
  total (wait_loop w fuel start_time max_wait check_interval).
Proof using Type.
  induction fuel as [|fuel IH]; cbn [wait_loop]; [apply total_ret|].
  apply total_bind; [intros st; eexists _, _; reflexivity|]. intros t.
  destruct (negb _).
  - apply total_bind; [apply poll_health_total|]. intros [|]; [apply total_ret|].
    apply total_bind; [apply total_emit | intros _; exact IH].
  - repeat total_step.
Qed.

Lemma wait_loop_quiet (p : request -> bool) (fuel : nat)
    (start_time max_wait check_interval : Q) :
  p GetClusterHealth = false ->
  adds p (wait_loop w fuel start_time max_wait check_interval) 0.
Proof using Type.
  intros Hp. induction fuel as [|fuel IH]; cbn [wait_loop]; [apply adds_ret|].
  apply (adds_bind _ _ _ 0 0); [apply adds_now | | now left]. intros t.
  destruct (negb _); [|quiet].
  apply (adds_bind _ _ _ 0 0); [now apply poll_health_quiet | | now left].
  intros [|]; [apply adds_ret|].
  apply (adds_bind _ _ _ 0 0); [apply adds_sleep | intros _; exact IH | now left].
Qed.

Lemma wait_for_elasticsearch_total (fuel : nat) : total (wait_for_elasticsearch w fuel).
Proof using Type.
  unfold wait_for_elasticsearch. apply total_bind; [apply total_emit|]. intros _.
  apply total_bind; [intros st; eexists _, _; reflexivity|]. intros t.
  apply wait_loop_total.
Qed.

Lemma wait_for_elasticsearch_quiet (p : request -> bool) (fuel : nat) :
  p GetClusterHealth = false -> adds p (wait_for_elasticsearch w fuel) 0.
Proof using Type.
  intros Hp. unfold wait_for_elasticsearch.
  apply (adds_bind _ _ _ 0 0); [apply adds_print | | now left]. intros _.
  apply (adds_bind _ _ _ 0 0); [apply adds_now | | now left]. intros t.
  now apply wait_loop_quiet.
Qed.

Lemma wait_loop_ends (c : nat) (m j : nat) (st : state) :
  clock_follows_sleeps w c ->
  (j + m = 30)%nat ->
  clock_reads st = (S c + j)%nat ->
  exists b st' evs,
    wait_loop w (S m) (time_time w c) 60 2 st = (Ok (Some b), st')
    /\ trace st' = trace st ++ evs
    /\ (count is_health evs <= m)%nat.
Proof using Type.
  intros Hclock. revert j st. induction m as [|m IH]; intros j st Hj Hc.
  - cbn [wait_loop].
    erewrite bind_ok; [|reflexivity]. rewrite Hc.
    assert (Hlate : Qle_bool 60 (time_time w (S c + j) - time_time w c) = true).
    { apply Qle_bool_iff. eapply Qle_trans; [|apply Hclock].
      replace j with 30%nat by lia. discriminate. }
    rewrite Hlate. cbn [negb].
    eexists _, _, [Print ElasticsearchTimeout]. split; [reflexivity|].
    split; [reflexivity | cbn; lia].
  - cbn [wait_loop].
    erewrite bind_ok; [|reflexivity].
    set (st1 := {| clock_reads := S (clock_reads st); http_calls := http_calls st;
                   draws := draws st; date_reads := date_reads st;
                   http_qps := http_qps st; trace := trace st |}).
    destruct (Qle_bool 60 (time_time w (clock_reads st) - time_time w c)); cbn [negb].
    + eexists _, _, [Print ElasticsearchTimeout]. split; [reflexivity|].
      split; [reflexivity | cbn; lia].
    + destruct (poll_health_total st1) as (ready & st2 & E).
      destruct (poll_health_one_call st1) as (evs1 & Ht1 & Hc1).
      pose proof (poll_health_clock st1) as Hk.
      rewrite E in Ht1, Hk. cbn [snd] in Ht1, Hk.
      rewrite (bind_ok _ _ _ _ _ E). destruct ready.
      * exists true, st2, evs1. split; [reflexivity|]. split; [exact Ht1 | lia].
      * erewrite bind_ok; [|reflexivity].
        destruct (IH (S j) (snd (sleep 2 st2))) as (b & st' & evs & Hrun & Ht & Hcount);
          [lia | cbn; rewrite Hk; cbn; lia |].
        exists b, st', (evs1 ++ Sleep 2 :: evs). split; [exact Hrun|].
        split.
        -- rewrite Ht. cbn. rewrite Ht1. cbn. rewrite <- !app_assoc. reflexivity.
        -- rewrite count_app. change (Sleep 2 :: evs) with ([Sleep 2] ++ evs).
           rewrite count_app. change (count is_health [Sleep 2]) with 0%nat. lia.
Qed.

End Wait.

(** Property X15. When the clock advances by the two seconds of every
    sleep at least, [wait_for_elasticsearch] returns after at most 30 checks
    of the cluster health, with an answer, and makes no other call. *)
Theorem wait_for_elasticsearch_bounded (w : world) (st : state) :
  clock_follows_sleeps w (clock_reads st) ->
  exists b st' evs,
    wait_for_elasticsearch w 31 st = (Ok (Some b), st')
    /\ trace st' = trace st ++ Print WaitingForElasticsearch :: evs
    /\ (count is_health evs <= 30)%nat
    /\ (forall p, p GetClusterHealth = false -> count p evs = 0%nat).
Proof.
  intros Hclock. unfold wait_for_elasticsearch.
  erewrite bind_ok; [|reflexivity]. erewrite bind_ok; [|reflexivity].
  cbn [clock_reads snd print emit].
  destruct (wait_loop_ends w (clock_reads st) 30 0
              {| clock_reads := S (clock_reads st); http_calls := http_calls st;
                 draws := draws st; date_reads := date_reads st;
                 http_qps := http_qps st;
                 trace := trace st ++ [Print WaitingForElasticsearch] |})
    as (b & st' & evs & Hrun & Ht & Hc); [assumption | reflexivity | cbn; lia |].
  exists b, st', evs. split; [exact Hrun|]. split; [|split; [exact Hc|]].
  - rewrite Ht. cbn. rewrite <- app_assoc. reflexivity.
  - intros p Hp.
    destruct (wait_loop_quiet w p 31 (time_time w (clock_reads st)) 60 2 Hp
                {| clock_reads := S (clock_reads st); http_calls := http_calls st;
                   draws := draws st; date_reads := date_reads st;
                   http_qps := http_qps st;
                   trace := trace st ++ [Print WaitingForElasticsearch] |})
      as (evs' & Ht' & Hc').
    rewrite Hrun in Ht'. cbn [snd] in Ht'. rewrite Ht in Ht'.
    apply app_inv_head in Ht'. now subst evs'.
Qed.

Lemma wait_for_elasticsearch_bounded_witness :
  exists b st' evs,
    wait_for_elasticsearch brisk 31 initial = (Ok (Some b), st')
    /\ trace st' = trace initial ++ Print WaitingForElasticsearch :: evs
    /\ (count is_health evs <= 30)%nat
    /\ (forall p, p GetClusterHealth = false -> count p evs = 0%nat).
Proof.
  apply (wait_for_elasticsearch_bounded brisk initial).
  intros j. cbn [brisk time_time initial clock_reads].
  unfold Qminus. rewrite <- inject_Z_opp, <- inject_Z_plus, <- Zle_Qle. lia.
Defined.

(** ** Setting the schema up *)

Section Schema.
Variable cfg : config.
Variable w : world.

Lemma stream_notice_total (r : response) (st : state) :
  exists evs,
    (if negb (is_200_201 (Response.status_code r)) then
       if (Response.status_code r =? 400)
          && contains "resource_already_exists_exception" (lower_str (Response.text r))
       then print DataStreamExists
       else
         _ ← print (DataStreamCreateStatus (Response.status_code r) (text200 r));
         print WillContinue
     else print DataStreamCreated) st = (Ok tt, log st evs)
    /\ forall p, count p evs = 0%nat.
Proof using Type.
  destruct (negb _); [destruct (_ && _)|].
  - exists [Print DataStreamExists]. split; reflexivity.
  - exists [Print (DataStreamCreateStatus (Response.status_code r) (text200 r));
            Print WillContinue].
    split; [|reflexivity].
    unfold mbind, M_bind, print, emit, log. cbn. now rewrite <- app_assoc.
  - exists [Print DataStreamCreated]. split; reflexivity.
Qed.

End Schema.

(** Property X17. When the creation of the index template is answered
    with status 200 or 201, its verification with status 200, and the
    creation of the data stream is answered at all, with any status,
    [ensure_index] returns [True], after one creation of the template, the
    sleep of half a second and one creation of the data stream. *)
Theorem ensure_index_succeeds (cfg : config) (w : world) (st : state) :
  (forall k, exists r, http w k (PutIndexTemplate (template cfg)) = Ok r
                       /\ is_200_201 (Response.status_code r) = true) ->
  (forall k, exists r, http w k GetIndexTemplate = Ok r
                       /\ Response.status_code r = 200) ->
  (forall k, exists r, http w k PutDataStream = Ok r) ->
  exists st' evs,
    ensure_index cfg w st = (Ok true, st')
    /\ trace st' = trace st ++ evs
    /\ count is_template_put evs = 1%nat
    /\ count is_stream_put evs = 1%nat
    /\ In (Sleep (5 # 10)) evs.
Proof.
  intros Hput Hget Hstream.
  destruct (delete_regular_index_total cfg w st) as ([] & st1 & E).
  destruct (delete_regular_index_quiet cfg w (fun req => is_template_put req || is_stream_put req)
              eq_refl eq_refl eq_refl eq_refl st) as (evs1 & Ht1 & Hc1).
  rewrite E in Ht1. cbn [snd] in Ht1.
  assert (Hq : count is_template_put evs1 = 0%nat /\ count is_stream_put evs1 = 0%nat).
  { clear -Hc1. revert Hc1. unfold count. induction evs1 as [|[m|req|s|k v] evs IH]; cbn;
      try (intros H; now apply IH); [now split|].
    destruct req; cbn; try (intros H; now apply IH); discriminate. }
  destruct Hq as [Hq1 Hq2].
  destruct (Hput (http_calls st1)) as (r1 & Hr1 & Hs1).
  destruct (Hget (S (http_calls st1))) as (r2 & Hr2 & Hs2).
  destruct (Hstream (S (S (http_calls st1)))) as (r3 & Hr3).
  unfold ensure_index. rewrite (try_bind_ok _ _ _ _ _ _ E).
  erewrite try_bind_ok; [|unfold send; rewrite Hr1; reflexivity].
  rewrite Hs1. cbn [negb].
  erewrite try_bind_ok; [|unfold send; cbn [http_calls]; rewrite Hr2; reflexivity].
  rewrite Hs2. cbn [Z.eqb Pos.eqb negb].
  erewrite try_bind_ok; [|reflexivity].
  erewrite try_bind_ok; [|unfold send, sleep, emit; cbn [http_calls]; rewrite Hr3; reflexivity].
  match goal with |- context [try_except _ _ ?s] => set (st4 := s) end.
  destruct (stream_notice_total r3 st4) as (evs4 & E4 & Hc4).
  rewrite (try_bind_ok _ _ _ _ _ _ E4).
  eexists _, (evs1 ++ [Call (PutIndexTemplate (template cfg)); Call GetIndexTemplate;
                       Sleep (5 # 10); Call PutDataStream] ++ evs4 ++ [Print TemplateReady]).
  split; [reflexivity|]. split; [|split; [|split]].
  - cbn. rewrite Ht1. rewrite <- !app_assoc. reflexivity.
  - rewrite !count_app, Hq1, Hc4. reflexivity.
  - rewrite !count_app, Hq2, Hc4. reflexivity.
  - apply in_or_app. right. cbn. tauto.
Qed.

Lemma ensure_index_succeeds_witness :
  exists st' evs,
    ensure_index two_instances accepting initial = (Ok true, st')
    /\ trace st' = trace initial ++ evs
    /\ count is_template_put evs = 1%nat
    /\ count is_stream_put evs = 1%nat
    /\ In (Sleep (5 # 10)) evs.
Proof.
  apply (ensure_index_succeeds two_instances accepting initial);
    intros k; eexists; repeat split; reflexivity.
Defined.

(** Property X18. When the creation of the index template is refused (any
    status other than 200 and 201) or fails at the network level,
    [ensure_index] returns [False] after that one attempt, and neither
    verifies the template nor creates the data stream. *)
Theorem ensure_index_stops_when_refused (cfg : config) (w : world) (st : state) :
  (forall k, match http w k (PutIndexTemplate (template cfg)) with
             | Ok r => is_200_201 (Response.status_code r) = false
             | Raise _ => True
             end) ->
  exists st' evs,
    ensure_index cfg w st = (Ok false, st')
    /\ trace st' = trace st ++ evs
    /\ count is_template_put evs = 1%nat
    /\ count after_template evs = 0%nat.
Proof.
  intros Hput.
  destruct (delete_regular_index_total cfg w st) as ([] & st1 & E).
  destruct (delete_regular_index_quiet cfg w (fun req => is_template_put req || after_template req)
              eq_refl eq_refl eq_refl eq_refl st) as (evs1 & Ht1 & Hc1).
  rewrite E in Ht1. cbn [snd] in Ht1.
  assert (Hq : count is_template_put evs1 = 0%nat /\ count after_template evs1 = 0%nat).
  { clear -Hc1. revert Hc1. unfold count. induction evs1 as [|[m|req|s|k v] evs IH]; cbn;
      try (intros H; now apply IH); [now split|].
    destruct req; cbn; try (intros H; now apply IH); discriminate. }
  destruct Hq as [Hq1 Hq2].
  specialize (Hput (http_calls st1)).
  unfold ensure_index. rewrite (try_bind_ok _ _ _ _ _ _ E).
  destruct (http w (http_calls st1) (PutIndexTemplate (template cfg))) as [r|e] eqn:Hr.
  - erewrite try_bind_ok; [|unfold send; rewrite Hr; reflexivity].
    rewrite Hput. cbn [negb].
    eexists _, (evs1 ++ [Call (PutIndexTemplate (template cfg));
                         Print (TemplateCreateStatus (Response.status_code r) (text200 r))]).
    split; [reflexivity|]. split; [|split].
    + cbn. rewrite Ht1, <- !app_assoc. reflexivity.
    + rewrite count_app, Hq1. reflexivity.
    + rewrite count_app, Hq2. reflexivity.
  - unfold try_except. erewrite bind_raise; [|unfold send; rewrite Hr; reflexivity].
    eexists _, (evs1 ++ [Call (PutIndexTemplate (template cfg)); Print (TemplateFailed e)]).
    split; [reflexivity|]. split; [|split].
    + cbn. rewrite Ht1, <- !app_assoc. reflexivity.
    + rewrite count_app, Hq1. reflexivity.
    + rewrite count_app, Hq2. reflexivity.
Qed.

Lemma ensure_index_stops_when_refused_witness :
  exists st' evs,
    ensure_index two_instances silent initial = (Ok false, st')
    /\ trace st' = trace initial ++ evs
    /\ count is_template_put evs = 1%nat
    /\ count after_template evs = 0%nat.
Proof.
  apply (ensure_index_stops_when_refused two_instances silent initial).
  intros k. exact I.
Defined.

(** ** The whole generator *)

Section Whole.
Variable cfg : config.
Variable w : world.
Variable float_repr : Q -> string.

Lemma wait_run (fuel : nat) (st : state) :
  exists r st1 evs1,
    wait_for_elasticsearch w fuel st = (Ok r, st1)
    /\ trace st1 = trace st ++ evs1
    /\ forall p, p GetClusterHealth = false -> count p evs1 = 0%nat.
Proof using Type.
  destruct (wait_for_elasticsearch_total w fuel st) as (r & st1 & E).
  destruct (wait_for_elasticsearch_quiet w is_bulk_post fuel eq_refl st) as (evs1 & Ht1 & _).
  rewrite E in Ht1. cbn [snd] in Ht1.
  exists r, st1, evs1. split; [exact E|]. split; [exact Ht1|].
  intros p Hp.
  destruct (wait_for_elasticsearch_quiet w p fuel Hp st) as (evs & Ht & Hc).
  rewrite E in Ht. cbn [snd] in Ht. rewrite Ht1 in Ht.
  apply app_inv_head in Ht. now subst evs.
Qed.

Lemma setup_schema_quiet (p : request -> bool) (attempts : list Z) :
  adds p (ensure_index cfg w) 0 -> adds p (setup_schema cfg w attempts) 0.
Proof using Type.
  intros Hp. induction attempts as [|attempt rest IH]; cbn [setup_schema]; [apply adds_ret|].
  apply (adds_bind _ _ _ 0 0); [exact Hp | | now left].
  intros [|]; [apply adds_ret|].
  apply (adds_bind _ _ _ 0 0); [quiet | intros _; exact IH | now left].
Qed.

Lemma tick_quiet (p : request -> bool) (first_batch : bool) :
  (forall body, p (PostBulk body) = false) -> p PostRefresh = false ->
  p GetDataStream = false ->
  adds p (tick cfg w float_repr first_batch) 0.
Proof using Type.
  intros H1 H2 H3. unfold tick, verify_data_stream.
  repeat first [ apply build_bulk_payload_quiet
               | apply adds_send_other; solve [apply H1 | assumption]
               | quiet_step ].
Qed.

Lemma ticks_quiet (p : request -> bool) (n : nat) (first_batch : bool) :
  (forall body, p (PostBulk body) = false) -> p PostRefresh = false ->
  p GetDataStream = false ->
  adds p (ticks cfg w float_repr n first_batch) 0.
Proof using Type.
  intros H1 H2 H3. revert first_batch.
  induction n as [|n IH]; intros first_batch; cbn [ticks]; [apply adds_ret|].
  apply (adds_bind _ _ _ 0 0); [now apply tick_quiet | intros fb; apply IH | now left].
Qed.

End Whole.

Section Escapes.
Variable cfg : config.
Variable w : world.
Variable float_repr : Q -> string.

(** The only exception that leaves a pass of the loop is that of the check
    of the tick interval. *)
Lemma tick_raises (first_batch : bool) (st st' : state) (e : exn) :
  tick cfg w float_repr first_batch st = (Raise e, st') ->
  PyFloat.sleep_seconds (TICK_SECONDS cfg) = Raise e.
Proof using Type.
  unfold tick. erewrite bind_ok; [|reflexivity].
  match goal with |- context [(try_except ?b ?h ≫= ?k) ?s] =>
    assert (Hin : total (try_except b h)) by (apply total_try; intros ?; repeat total_step);
    destruct (Hin s) as (fb & st2 & E)
  end.
  rewrite (bind_ok _ _ _ _ _ E). unfold time_sleep.
  destruct (PyFloat.sleep_seconds (TICK_SECONDS cfg)) as [s|e0]; [discriminate|].
  now intros [= <- _].
Qed.

Lemma ticks_raises (n : nat) (first_batch : bool) (st st' : state) (e : exn) :
  ticks cfg w float_repr n first_batch st = (Raise e, st') ->
  PyFloat.sleep_seconds (TICK_SECONDS cfg) = Raise e.
Proof using Type.
  revert first_batch st. induction n as [|n IH]; intros first_batch st; [discriminate|].
  cbn [ticks].
  destruct (tick cfg w float_repr first_batch st) as [[fb|e1] st1] eqn:E.
  - rewrite (bind_ok _ _ _ _ _ E). apply IH.
  - rewrite (bind_raise _ _ _ _ _ E). intros [= <- _]. exact (tick_raises _ _ _ _ E).
Qed.

End Escapes.

(** Property X19. Nothing that the backend does makes [ingest_loop] raise:
    the only exception that leaves it is the one that [time.sleep] raises
    on the tick interval of the configuration. With a tick interval that
    can be slept it never raises; followed up to [n] passes of the
    ingestion loop, it has posted exactly [n] bulk bodies and created the
    index template at most three times; as long as the backend is not ready
    it makes no call other than checks of the cluster health. *)
Theorem ingest_loop_survives_backend (cfg : config) (w : world) (float_repr : Q -> string)
    (wait_fuel n : nat) (st : state) :
  (forall e st',
     ingest_loop cfg w float_repr wait_fuel n st = (Raise e, st') ->
     PyFloat.sleep_seconds (TICK_SECONDS cfg) = Raise e)
  /\ (valid_tick cfg ->
      exists pr st' evs,
        ingest_loop cfg w float_repr wait_fuel n st = (Ok pr, st')
        /\ trace st' = trace st ++ evs
        /\ (pr = Ingesting n ->
              count is_bulk_post evs = n /\ (count is_template_put evs <= 3)%nat)
        /\ (pr <> Ingesting n ->
              forall p, p GetClusterHealth = false -> count p evs = 0%nat)).
Proof.
  unfold ingest_loop.
  destruct (wait_run w wait_fuel st) as (r & st1 & evs1 & E1 & Ht1 & Hq1).
  rewrite (bind_ok _ _ _ _ _ E1). destruct r as [[|]|].
  - destruct (setup_schema_bounded cfg w (range max_retries) st1)
      as (st2 & evs2 & E2 & Ht2 & Hc2).
    destruct (setup_schema_quiet cfg w is_bulk_post (range max_retries)
                (ensure_index_no_bulk cfg w) st1) as (evs2' & Ht2' & Hb2).
    rewrite E2 in Ht2'. cbn [snd] in Ht2'. rewrite Ht2 in Ht2'.
    apply app_inv_head in Ht2'. subst evs2'.
    rewrite (bind_ok _ _ _ _ _ E2). erewrite bind_ok; [|reflexivity].
    set (st3 := snd (print LoopStarting st2)).
    change (print LoopStarting st2) with (Ok tt, st3). cbn [snd].
    split.
    + intros e st'.
      destruct (ticks cfg w float_repr n true st3) as [[fb|e1] st4] eqn:E4.
      * rewrite (bind_ok _ _ _ _ _ E4). discriminate.
      * rewrite (bind_raise _ _ _ _ _ E4). intros [= <- _].
        exact (ticks_raises _ _ _ _ _ _ _ _ E4).
    + intros Htick.
      destruct (ticks_run cfg w float_repr n true st3 Htick)
        as (fb & st4 & evs4 & E4 & Ht4 & Hc4).
      destruct (ticks_quiet cfg w float_repr is_template_put n true
                  (fun _ => eq_refl) eq_refl eq_refl st3) as (evs4' & Ht4' & Hp4).
      rewrite E4 in Ht4'. cbn [snd] in Ht4'. rewrite Ht4 in Ht4'.
      apply app_inv_head in Ht4'. subst evs4'.
      rewrite (bind_ok _ _ _ _ _ E4).
      exists (Ingesting n), st4, (evs1 ++ evs2 ++ [Print LoopStarting] ++ evs4).
      split; [reflexivity|]. split; [|split].
      * rewrite Ht4. subst st3. cbn. rewrite Ht2, Ht1, <- !app_assoc. reflexivity.
      * intros _. rewrite !count_app, Hc4, Hp4, Hb2.
        rewrite (Hq1 is_bulk_post eq_refl), (Hq1 is_template_put eq_refl).
        change (length (range max_retries)) with 3%nat in Hc2. cbn. split; lia.
      * intros Hne. now contradiction Hne.
  - split; [discriminate|]. intros _.
    exists Returned, (log st1 [Print ElasticsearchNotAvailable]),
           (evs1 ++ [Print ElasticsearchNotAvailable]).
    split; [reflexivity|]. split; [|split].
    + cbn. rewrite Ht1, <- app_assoc. reflexivity.
    + discriminate.
    + intros _ p Hp. rewrite count_app, (Hq1 p Hp). reflexivity.
  - split; [discriminate|]. intros _.
    exists Waiting, st1, evs1. split; [reflexivity|]. split; [exact Ht1|]. split.
    + discriminate.
    + intros _ p Hp. now apply Hq1.
Qed.

Lemma ingest_loop_survives_backend_witness :
  exists pr st' evs,
    ingest_loop two_instances accepting (fun _ => "0.0") 31 2 initial = (Ok pr, st')
    /\ trace st' = trace initial ++ evs
    /\ (pr = Ingesting 2 ->
          count is_bulk_post evs = 2%nat /\ (count is_template_put evs <= 3)%nat)
    /\ (pr <> Ingesting 2 ->
          forall p, p GetClusterHealth = false -> count p evs = 0%nat).
Proof.
  apply (ingest_loop_survives_backend two_instances accepting (fun _ => "0.0") 31 2 initial).
  exact two_instances_valid.
Defined.

(** With a negative tick interval the first pass raises, after its post. *)
Lemma negative_tick_raises :
  exists st',
    ingest_loop negative_tick accepting (fun _ => "0.0") 31 2 initial
    = (Raise ValueError, st')
    /\ count is_bulk_post (trace st') = 1%nat.
Proof. eexists. split; [vm_compute; reflexivity | reflexivity]. Qed.

(** ** The check after the first accepted batch *)

Section Verification.
Variable cfg : config.
Variable w : world.
Variable float_repr : Q -> string.

Lemma verify_data_stream_total : total (verify_data_stream w).
Proof using Type. unfold verify_data_stream. repeat total_step. Qed.

Lemma verify_data_stream_refreshes : adds is_refresh (verify_data_stream w) 1.
Proof using Type.
  unfold verify_data_stream. apply adds_try; [|intros e; quiet].
  apply (adds_bind _ _ _ 1 0); [now apply adds_send_one | | now left].
  intros resp. quiet.
Qed.

(** One pass, whether it ends normally or at the sleep, either leaves the
    loop variable as it is and makes no refresh, or it is the pass of the
    first accepted batch: the loop variable goes from true to false and one
    refresh is made. *)
Lemma tick_refresh (first_batch : bool) (st : state) :
  exists fb st' evs,
    (tick cfg w float_repr first_batch st = (Ok fb, st')
     \/ exists e, tick cfg w float_repr first_batch st = (Raise e, st'))
    /\ trace st' = trace st ++ evs
    /\ ((fb = first_batch /\ count is_refresh evs = 0%nat)
        \/ (first_batch = true /\ fb = false /\ count is_refresh evs = 1%nat)).
Proof using Type.
  unfold tick. erewrite bind_ok; [|reflexivity].
  set (ts := utcnow_isoformat w (date_reads st)).
  set (st1 := {| clock_reads := clock_reads st; http_calls := http_calls st;
                 draws := draws st; date_reads := S (date_reads st);
                 http_qps := http_qps st; trace := trace st |}).
  destruct (build_bulk_payload_total cfg w float_repr ts st1) as (body & st2 & Eb).
  destruct (build_bulk_payload_quiet cfg w float_repr is_refresh ts st1) as (evs2 & Ht2 & Hc2).
  rewrite Eb in Ht2. cbn [snd] in Ht2. change (trace st1) with (trace st) in Ht2.
  match goal with |- context [(try_except ?b ?h ≫= ?k) st1] =>
    assert (Hin : exists fb st3 evs3,
               try_except b h st1 = (Ok fb, st3)
               /\ trace st3 = trace st2 ++ evs3
               /\ ((fb = first_batch /\ count is_refresh evs3 = 0%nat)
                   \/ (first_batch = true /\ fb = false /\ count is_refresh evs3 = 1%nat)))
  end.
  { rewrite (try_bind_ok _ _ _ _ _ _ Eb).
    destruct (http w (http_calls st2) (PostBulk body)) as [resp|e] eqn:Hr.
    - erewrite try_bind_ok; [|unfold send; rewrite Hr; reflexivity].
      destruct (300 <=? Response.status_code resp).
      + eexists _, _, [Call (PostBulk body);
                       Print (BulkError (Response.status_code resp) (text200 resp))].
        split; [reflexivity|]. split; [cbn; now rewrite <- app_assoc|]. left. now split.
      + destruct first_batch.
        * match goal with |- context [try_except _ _ ?s] => set (st3 := s) end.
          destruct (verify_data_stream_total st3) as ([] & st4 & Ev).
          destruct (verify_data_stream_refreshes st3) as (evs4 & Ht4 & Hc4).
          rewrite Ev in Ht4. cbn [snd] in Ht4.
          rewrite (try_bind_ok _ _ _ _ _ _ Ev).
          exists false, st4, ([Call (PostBulk body)] ++ evs4).
          split; [reflexivity|]. split; [rewrite Ht4; subst st3; cbn; now rewrite <- app_assoc|].
          right. rewrite count_app, Hc4. now repeat split.
        * eexists _, _, [Call (PostBulk body)].
          split; [reflexivity|]. split; [reflexivity|]. left. now split.
    - unfold try_except. erewrite bind_raise; [|unfold send; rewrite Hr; reflexivity].
      eexists _, _, [Call (PostBulk body); Print (BulkSendError e)].
      split; [reflexivity|]. split; [cbn; now rewrite <- app_assoc|]. left. now split. }
  destruct Hin as (fb & st3 & evs3 & E3 & Ht3 & Hcases).
  rewrite (bind_ok _ _ _ _ _ E3). unfold time_sleep.
  destruct (PyFloat.sleep_seconds (TICK_SECONDS cfg)) as [s|e].
  - eexists fb, _, (evs2 ++ evs3 ++ [Sleep s]).
    split; [left; reflexivity|]. split.
    + cbn. rewrite Ht3, Ht2, <- !app_assoc. reflexivity.
    + rewrite !count_app, Hc2. change (count is_refresh [Sleep s]) with 0%nat.
      destruct Hcases as [[-> Hc]|(-> & -> & Hc)]; [left | right]; repeat split; lia.
  - exists fb, st3, (evs2 ++ evs3).
    split; [right; exists e; reflexivity|]. split.
    + rewrite Ht3, Ht2, <- !app_assoc. reflexivity.
    + rewrite !count_app, Hc2.
      destruct Hcases as [[-> Hc]|(-> & -> & Hc)]; [left | right]; repeat split; lia.
Qed.

End Verification.

(** Property X20. Over any run of passes of the ingestion loop, ended
    normally or by an exception, the data stream is refreshed and checked at
    most once, and never when the loop variable [first_batch] starts false;
    in a run that ends normally, it is checked once exactly when
    [first_batch] has gone from true to false, which is never undone. *)
Theorem data_stream_checked_once (cfg : config) (w : world) (float_repr : Q -> string)
    (n : nat) (first_batch : bool) (st : state) :
  exists evs,
    trace (snd (ticks cfg w float_repr n first_batch st)) = trace st ++ evs
    /\ (count is_refresh evs <= if first_batch then 1 else 0)%nat
    /\ (forall fb,
          fst (ticks cfg w float_repr n first_batch st) = Ok fb ->
          count is_refresh evs
          = (if first_batch then if fb then 0%nat else 1%nat else 0%nat)
          /\ (first_batch = false -> fb = false)).
Proof.
  revert first_batch st. induction n as [|n IH]; intros first_batch st.
  - exists []. cbn. rewrite app_nil_r. split; [reflexivity|]. split; [lia|].
    intros fb [= <-]. split; [now destruct first_batch | tauto].
  - cbn [ticks].
    destruct (tick_refresh cfg w float_repr first_batch st)
      as (fb1 & st1 & evs1 & [E1|[e E1]] & Ht1 & Hcases).
    + rewrite (bind_ok _ _ _ _ _ E1).
      destruct (IH fb1 st1) as (evs & Ht & Hle & Hok).
      exists (evs1 ++ evs). split; [rewrite Ht, Ht1, app_assoc; reflexivity|].
      rewrite count_app. split.
      * destruct Hcases as [[-> Hc1]|(-> & -> & Hc1)]; rewrite Hc1; cbn in Hle |- *; lia.
      * intros fb Hfb. destruct (Hok fb Hfb) as [Hc Hfalse].
        rewrite Hc. destruct Hcases as [[-> Hc1]|(-> & -> & Hc1)]; rewrite Hc1.
        -- split; [reflexivity | exact Hfalse].
        -- rewrite (Hfalse eq_refl). split; [reflexivity | discriminate].
    + rewrite (bind_raise _ _ _ _ _ E1). cbn [fst snd].
      exists evs1. split; [exact Ht1|]. split; [|discriminate].
      destruct Hcases as [[_ Hc1]|(-> & _ & Hc1)]; rewrite Hc1; [|lia].
      destruct first_batch; lia.
Qed.

Lemma data_stream_checked_once_witness :
  exists evs,
    trace (snd (ticks two_instances accepting (fun _ => "0.0") 3 true initial))
    = trace initial ++ evs
    /\ (count is_refresh evs <= 1)%nat
    /\ (forall fb,
          fst (ticks two_instances accepting (fun _ => "0.0") 3 true initial) = Ok fb ->
          count is_refresh evs = (if fb then 0%nat else 1%nat)
          /\ (true = false -> fb = false)).
Proof.
  apply (data_stream_checked_once two_instances accepting (fun _ => "0.0") 3 true initial).
Defined.

Lemma generate_series_membership_witness :
  {| job := "demo"; instance := "inst-00001"; status_code := "200"; method := "GET" |}
  ∈ generate_series two_instances.
Proof.
  apply generate_series_membership. cbn. split; [reflexivity|]. split.
  - exists 1. split; [lia | reflexivity].
  - split; apply list_elem_of_In; left; reflexivity.
Defined.

Lemma generate_series_size_witness : generate_series no_instances = [].
Proof.
  destruct (generate_series_size no_instances) as [_ H].
  apply H. left. cbn. lia.
Defined.

(** ** The clean-up of a regular index *)

Lemma names_read_fun (items names1 names2 : list json) :
  names_read items names1 -> names_read items names2 -> names1 = names2.
Proof.
  intros H1. revert names2. induction H1 as [|ds n items names Hn _ IH]; intros names2 H2.
  - now inversion H2.
  - inversion H2 as [|? n2 ? names2' Hn2 Hrest]; subst.
    f_equal; [congruence | now apply IH].
Qed.

Lemma streams_listed_fun (w : world) (k : nat) (names1 names2 : list json) :
  streams_listed w k names1 -> streams_listed w k names2 -> names1 = names2.
Proof.
  intros (r & l & s & i & H1 & H2 & H3 & H4 & H5) (r' & l' & s' & i' & H1' & H2' & H3' & H4' & H5').
  assert (r' = r) by congruence. subst r'.
  assert (l' = l) by congruence. subst l'.
  assert (s' = s) by congruence. subst s'.
  assert (i' = i) by congruence. subst i'.
  eapply names_read_fun; eassumption.
Qed.

Section CleanUp.
Variable cfg : config.
Variable w : world.

Lemma names_loop (items acc : list json) (st : state) :
  (exists names,
      names_read items names
      /\ for_each items (fun ds names => name ← lift (Json.get ds "name" JNull);
                                         mret (names ++ [name])) acc st
         = (Ok (acc ++ names), st))
  \/ (exists e,
      for_each items (fun ds names => name ← lift (Json.get ds "name" JNull);
                                      (mret (names ++ [name]) : M state (list json))) acc st
      = (Raise e, st)
      /\ forall names, ~ names_read items names).
Proof using Type.
  revert acc. induction items as [|ds items IH]; intros acc.
  - left. exists []. split; [constructor|]. cbn. now rewrite app_nil_r.
  - cbn [for_each]. destruct (Json.get ds "name" JNull) as [n|e] eqn:Hn.
    + erewrite bind_ok; [|erewrite bind_ok; [|unfold lift; reflexivity]; reflexivity].
      destruct (IH (acc ++ [n])) as [(names & Hr & Hrun)|(e & Hrun & Hno)].
      * left. exists (n :: names). split; [now constructor|].
        rewrite Hrun, <- app_assoc. reflexivity.
      * right. exists e. split; [exact Hrun|].
        intros names H. inversion H; subst. eapply Hno; eassumption.
    + right. exists e. split.
      * erewrite bind_raise; [reflexivity|].
        erewrite bind_raise; [reflexivity | unfold lift; reflexivity].
      * intros names H. inversion H; subst. congruence.
Qed.

Lemma data_stream_names_run (st : state) :
  (exists names,
      streams_listed w (http_calls st) names
      /\ data_stream_names w st = (Ok names, sent st GetDataStreams))
  \/ (exists e,
      data_stream_names w st = (Raise e, sent st GetDataStreams)
      /\ forall names, ~ streams_listed w (http_calls st) names).
Proof using Type.
  unfold data_stream_names.
  destruct (http w (http_calls st) GetDataStreams) as [r|e] eqn:Hr.
  2:{ right. exists e. split.
      - erewrite bind_raise; [reflexivity | unfold send; rewrite Hr; reflexivity].
      - intros names (r & l & s & i & H1 & _). congruence. }
  erewrite bind_ok; [|unfold send; rewrite Hr; reflexivity].
  fold (sent st GetDataStreams).
  destruct (Response.body r) as [listing|e] eqn:Hb.
  2:{ right. exists e. split; [reflexivity|].
      intros names (r' & l & s & i & H1 & H2 & _). congruence. }
  erewrite bind_ok; [|reflexivity].
  destruct (Json.get listing "data_streams" (JArr [])) as [streams|e] eqn:Hg.
  2:{ right. exists e. split; [reflexivity|].
      intros names (r' & l & s & i & H1 & H2 & H3 & _). congruence. }
  erewrite bind_ok; [|reflexivity].
  destruct (Json.iter streams) as [items|e] eqn:Hi.
  2:{ right. exists e. split; [reflexivity|].
      intros names (r' & l & s & i & H1 & H2 & H3 & H4 & _). congruence. }
  erewrite bind_ok; [|reflexivity].
  destruct (names_loop items [] (sent st GetDataStreams))
    as [(names & Hn & Hrun)|(e & Hrun & Hno)].
  - left. exists names. split; [now exists r, listing, streams, items|exact Hrun].
  - right. exists e. split; [exact Hrun|].
    intros names (r' & l & s & i & H1 & H2 & H3 & H4 & H5).
    apply (Hno names). congruence.
Qed.

End CleanUp.

(** Property X16. The clean-up at the start of [ensure_index] never raises
    and deletes the index of the configured name in one case only: the
    existence check and the reading of the index are both answered with
    status 200, the reading has a body that decodes, and the listing of the
    data streams reads as names none of which is the configured one. In
    every other case, errors included, no deletion is requested. *)
Theorem delete_regular_index_guard (cfg : config) (w : world) (st : state) :
  exists st' evs,
    delete_regular_index cfg w st = (Ok tt, st')
    /\ trace st' = trace st ++ evs
    /\ ((regular_index_found cfg w (http_calls st) /\ count is_delete evs = 1%nat)
        \/ (~ regular_index_found cfg w (http_calls st) /\ count is_delete evs = 0%nat)).
Proof.
  unfold delete_regular_index.
  destruct (http w (http_calls st) HeadIndex) as [r1|e] eqn:H1.
  2:{ unfold try_except. erewrite bind_raise; [|unfold send; rewrite H1; reflexivity].
      eexists _, [Call HeadIndex]. split; [reflexivity|]. split; [reflexivity|].
      right. split; [|reflexivity]. intros (? & ? & ? & ? & H & _). congruence. }
  erewrite try_bind_ok; [|unfold send; rewrite H1; reflexivity].
  fold (sent st HeadIndex).
  destruct (Response.status_code r1 =? 200) eqn:Hs1.
  2:{ eexists _, [Call HeadIndex]. split; [reflexivity|]. split; [reflexivity|].
      right. split; [|reflexivity]. intros (r & ? & ? & ? & H & Hs & _).
      assert (r = r1) by congruence. subst r. rewrite Hs in Hs1. discriminate. }
  apply Z.eqb_eq in Hs1.
  change (http_calls (sent st HeadIndex)) with (S (http_calls st)).
  destruct (http w (S (http_calls st)) GetIndex) as [r2|e] eqn:H2.
  2:{ unfold try_except. erewrite bind_raise; [|unfold send; cbn [http_calls sent]; rewrite H2; reflexivity].
      eexists _, [Call HeadIndex; Call GetIndex]. split; [reflexivity|].
      split; [cbn; now rewrite <- app_assoc|].
      right. split; [|reflexivity]. intros (? & ? & ? & ? & _ & _ & H & _). congruence. }
  erewrite try_bind_ok; [|unfold send; cbn [http_calls sent]; rewrite H2; reflexivity].
  fold (sent (sent st HeadIndex) GetIndex).
  destruct (Response.status_code r2 =? 200) eqn:Hs2.
  2:{ eexists _, [Call HeadIndex; Call GetIndex]. split; [reflexivity|].
      split; [cbn; now rewrite <- app_assoc|].
      right. split; [|reflexivity]. intros (? & r & ? & ? & _ & _ & H & Hs & _).
      assert (r = r2) by congruence. subst r. rewrite Hs in Hs2. discriminate. }
  apply Z.eqb_eq in Hs2.
  destruct (Response.body r2) as [info|e] eqn:Hb2.
  2:{ eexists _, [Call HeadIndex; Call GetIndex]. split; [reflexivity|].
      split; [cbn; now rewrite <- app_assoc|].
      right. split; [|reflexivity]. intros (? & r & ? & ? & _ & _ & H & _ & Hb & _).
      assert (r = r2) by congruence. subst r. congruence. }
  erewrite try_bind_ok; [|reflexivity].
  set (st2 := sent (sent st HeadIndex) GetIndex).
  destruct (data_stream_names_run w st2) as [(names & Hl & Hrun)|(e & Hrun & Hno)].
  2:{ unfold try_except. rewrite (bind_raise _ _ _ _ _ Hrun).
      eexists _, [Call HeadIndex; Call GetIndex; Call GetDataStreams].
      split; [reflexivity|]. split; [cbn; now rewrite <- !app_assoc|].
      right. split; [|reflexivity].
      intros (? & ? & ? & names & _ & _ & _ & _ & _ & Hl & _). now apply (Hno names). }
  rewrite (try_bind_ok _ _ _ _ _ _ Hrun).
  destruct (existsb (is_name cfg) names) eqn:Hex; cbn [negb].
  - eexists _, [Call HeadIndex; Call GetIndex; Call GetDataStreams].
    split; [reflexivity|]. split; [cbn; now rewrite <- !app_assoc|].
    right. split; [|reflexivity].
    intros (? & ? & ? & names' & _ & _ & _ & _ & _ & Hl' & Hex').
    rewrite (streams_listed_fun _ _ _ _ Hl' Hl) in Hex'. congruence.
  - erewrite try_bind_ok; [|reflexivity].
    match goal with |- context [try_except _ _ ?s] => set (st4 := s) end.
    assert (Hdel : try_except (send w DeleteIndex ≫= λ _ : response, mret ())
                              (fun _ => mret ()) st4
                   = (Ok (), sent st4 DeleteIndex)).
    { unfold try_except, mbind, M_bind, send.
      now destruct (http w (http_calls st4) DeleteIndex). }
    rewrite Hdel.
    eexists _, [Call HeadIndex; Call GetIndex; Call GetDataStreams;
                Print DeletingRegularIndex; Call DeleteIndex].
    split; [reflexivity|]. split; [cbn; now rewrite <- !app_assoc|].
    left. split; [|reflexivity].
    now exists r1, r2, info, names.
Qed.

(** In the world that answers every call with status 200 and no data
    stream, the index of the configured name is a regular one. *)
Lemma accepting_has_regular_index : regular_index_found two_instances accepting 0.
Proof.
  eexists _, _, _, []. repeat split.
  eexists _, _, _, []. repeat split. constructor.
Qed.

Lemma delete_regular_index_guard_witness :
  exists st' evs,
    delete_regular_index two_instances accepting initial = (Ok tt, st')
    /\ trace st' = trace initial ++ evs
    /\ ((regular_index_found two_instances accepting (http_calls initial)
         /\ count is_delete evs = 1%nat)
        \/ (~ regular_index_found two_instances accepting (http_calls initial)
            /\ count is_delete evs = 0%nat)).
Proof.
  apply (delete_regular_index_guard two_instances accepting initial).
Defined.


End GenFacts.

(** * Cross-checks in binary64

    The two products of floats that the programs compute with constants
    that are not exact in binary64 agree with exact arithmetic. *)

Module Binary64.

#[local] Set Warnings "-inexact-float".

(** The factor [0.05] is not exact, but its product with the base is: the
    centre of the value for an error status is exactly [5.0]. *)
Lemma binary64_error_centre : (100 * 0.05 =? 5)%float = true.
Proof. reflexivity. Qed.

Lemma binary64_healthy_centre : (100 * 1 =? 100)%float = true.
Proof. reflexivity. Qed.

(** For five latencies the index of the 95th percentile is the integer part
    of [0.95 * 4], which lies between 3 and 4 in binary64 as it does in
    exact arithmetic. *)
Lemma binary64_idx95_of_five :
  ((3 <=? 0.95 * 4) && (0.95 * 4 <? 4))%float = true /\ Bench.idx95 5 = 3%Z.
Proof. split; reflexivity. Qed.

End Binary64.
